(** * Bulk loading and benchmarking harness

    A shallow embedding of the three scripts of the repository that carry the
    retry, batching and measurement logic:

    - [scripts/mongodb-script.py]   ([MongoDBImporter]),
    - [scripts/postgres-script.py]  ([PostgresImporter]),
    - [scripts/comparisons.py]      ([DatabaseBenchmark]).

    Conventions of the embedding.

    - Python [int] is [Z]; Python [float] is modelled by an exact rational
      ([Q]): every property below is about control flow, counting and the
      comparison of values, none about rounding.
    - A call that may raise returns a [Result]; the exception is a value of
      [PyExn].
    - The outside world (database servers, the clock) is an abstract type that
      is threaded through every call which touches it.  Each module keeps, next
      to the world, a [log] of the external calls it made, in call order, so
      that "how often" and "in which order" can be stated.
    - [logging], [tqdm] progress bars and [psutil] sampling only observe; they
      are left out, except for the [logging.error] of a failed connection
      attempt, which records the exception that was caught. *)

From Stdlib Require Import ZArith QArith Qabs Qminmax List String Ascii Bool.
From Stdlib Require Import Lia Lqa.
From Stdlib Require Import Sorted Permutation DecimalString.
Import ListNotations.
Local Open Scope Z_scope.

Set Implicit Arguments.

(** ** Python values and exceptions *)

(** [BulkWriteError.details]: the keys of the dictionary that matter here.
    A key that is absent from the dictionary is [None]. *)
Record BulkWriteDetails := {
  nInserted : option Z;
  writeErrors : list (Z * string)  (* index of the rejected operation, message *)
}.

Inductive PyExn :=
| BulkWriteError (details : BulkWriteDetails)   (* pymongo.errors *)
| StatisticsError                               (* statistics *)
| ZeroDivisionError
| ValueError
| AttributeError
| OtherException (name : string).               (* driver and network errors *)

Inductive Result (A : Type) :=
| Ok (a : A)
| Raise (e : PyExn).
Arguments Ok {A} a.
Arguments Raise {A} e.

Definition bind {A B : Type} (r : Result A) (k : A -> Result B) : Result B :=
  match r with
  | Ok a => k a
  | Raise e => Raise e
  end.

Notation "x <- r ;; k" := (bind r (fun x => k))
  (at level 61, r at next level, right associativity).

(** [len(l)] *)
Definition py_len {A : Type} (l : list A) : Z := Z.of_nat (List.length l).

(** [range(start, stop, step)] for [step <> 0]: at most [|stop - start|]
    values are produced, which bounds the recursion. *)
Fixpoint range_from (fuel : nat) (i stop step : Z) : list Z :=
  match fuel with
  | O => []
  | S fuel' =>
      if (if 0 <? step then i <? stop else stop <? i)
      then i :: range_from fuel' (i + step) stop step
      else []
  end.

Definition py_range (start stop step : Z) : list Z :=
  range_from (Z.abs_nat (stop - start)) start stop step.

(** [l[i:j]] for [0 <= i] and [0 <= j] (the only slices the scripts take). *)
Definition py_slice {A : Type} (l : list A) (i j : Z) : list A :=
  firstn (Z.to_nat (j - i)) (skipn (Z.to_nat i) l).

(** [sum(len(b) for b in batches)] *)
Definition total_size {A : Type} (batches : list (list A)) : Z :=
  fold_right (fun b acc => py_len b + acc) 0 batches.

(** The delay before the first retry of a connection, in seconds: both
    [connect] methods sleep [2 ** attempt], which is [base_delay * 2 ** attempt]
    for a base of one second. *)
Definition base_delay : Z := 1.

(** [d.get(key, default)] on an optional key. *)
Definition dict_get {A : Type} (v : option A) (default : A) : A :=
  match v with
  | Some a => a
  | None => default
  end.

(** ** scripts/mongodb-script.py *)

Module MongoDBImporter.

Section Importer.

(** The MongoDB deployment and the network, as the driver sees them. *)
Variables Server Client Collection Doc : Type.

(** [MongoClient(uri, serverSelectionTimeoutMS=5000)] *)
Variable MongoClient : Server -> Server * Result Client.
(** [client.server_info()] *)
Variable server_info : Client -> Server -> Server * Result unit.
(** [client[db_name][collection_name]] *)
Variable get_collection : Client -> Collection.
(** [time.sleep(secs)] *)
Variable sleep : Z -> Server -> Server.

Inductive WriteOp :=
| InsertOne (doc : Doc).

Record BulkWriteResult := { inserted_count : Z }.

(** [collection.bulk_write(batch, ordered=False)] *)
Variable bulk_write :
  Collection -> list WriteOp -> Server -> Server * Result BulkWriteResult.

Inductive Event :=
| EvAttempt                         (* the [try] block of [connect] is entered *)
| EvLogError (n : Z) (e : PyExn)    (* "Connection attempt n failed: e" *)
| EvSleep (secs : Z)                (* [time.sleep] *)
| EvBulkWrite (batch : list WriteOp).

(** The importer object together with the world it talks to.  [self.db] is
    an intermediate of [self.collection] and is not kept. *)
Record State := {
  server : Server;
  client : option Client;
  collection : option Collection;
  log : list Event
}.

Definition emit (ev : Event) (st : State) : State :=
  {| server := server st; client := client st;
     collection := collection st; log := log st ++ [ev] |}.

Definition set_server (w : Server) (st : State) : State :=
  {| server := w; client := client st;
     collection := collection st; log := log st |}.

Definition time_sleep (secs : Z) (st : State) : State :=
  emit (EvSleep secs) (set_server (sleep secs (server st)) st).

Definition max_retries : Z := 3.

(** The [try] block of [connect] (lines 36-41). *)
Definition try_connect (st : State) : State * Result bool :=
  let st := emit EvAttempt st in
  match MongoClient (server st) with
  | (w, Raise e) => (set_server w st, Raise e)
  | (w, Ok c) =>
      let st1 := {| server := w; client := Some c;
                    collection := collection st; log := log st |} in
      match server_info c w with
      | (w', Raise e) => (set_server w' st1, Raise e)
      | (w', Ok _) =>
          ({| server := w'; client := Some c;
              collection := Some (get_collection c); log := log st |},
           Ok true)
      end
  end.

(** [for attempt in range(max_retries)] of [connect].  A loop that runs out
    without returning makes the method return [None]. *)
Fixpoint connect_loop (attempts : list Z) (st : State)
  : State * Result (option bool) :=
  match attempts with
  | [] => (st, Ok None)
  | attempt :: rest =>
      match try_connect st with
      | (st1, Ok b) => (st1, Ok (Some b))
      | (st1, Raise e) =>
          let st2 := emit (EvLogError (attempt + 1) e) st1 in
          if attempt =? max_retries - 1
          then (st2, Raise e)
          else connect_loop rest (time_sleep (2 ^ attempt) st2)
      end
  end.

Definition connect (st : State) : State * Result (option bool) :=
  connect_loop (py_range 0 max_retries 1) st.

(** [self.collection.bulk_write(batch, ordered=False)] *)
Definition collection_bulk_write (batch : list WriteOp) (st : State)
  : State * Result BulkWriteResult :=
  match collection st with
  | None => (st, Raise AttributeError)
  | Some c =>
      let '(w, r) := bulk_write c batch (server st) in
      (emit (EvBulkWrite batch) (set_server w st), r)
  end.

(** [for i in range(0, len(operations), batch_size)] (lines 142-157). *)
Fixpoint insert_loop (operations : list WriteOp) (batch_size : Z)
    (starts : list Z) (total_inserted failed_inserts : Z) (st : State)
  : State * Result (Z * Z) :=
  match starts with
  | [] => (st, Ok (total_inserted, failed_inserts))
  | i :: rest =>
      let batch := py_slice operations i (i + batch_size) in
      match collection_bulk_write batch st with
      | (st1, Ok result) =>
          insert_loop operations batch_size rest
            (total_inserted + inserted_count result) failed_inserts st1
      | (st1, Raise (BulkWriteError details)) =>
          insert_loop operations batch_size rest
            total_inserted
            (failed_inserts + (py_len batch - dict_get (nInserted details) 0))
            st1
      | (st1, Raise e) => (st1, Raise e)
      end
  end.

(** [valid_documents = [doc for doc in documents if doc is not None]] *)
Fixpoint valid_documents (documents : list (option Doc)) : list Doc :=
  match documents with
  | [] => []
  | Some doc :: rest => doc :: valid_documents rest
  | None :: rest => valid_documents rest
  end.

(** [bulk_insert_documents(self, documents, batch_size)].  The outer
    [except Exception] logs and re-raises, so it is the identity on the
    result.  [total_batches] only sizes the progress bar, but its floor
    division is evaluated first and raises for [batch_size = 0]. *)
Definition bulk_insert_documents (documents : list (option Doc))
    (batch_size : Z) (st : State) : State * Result (Z * Z) :=
  let operations := map InsertOne (valid_documents documents) in
  if batch_size =? 0
  then (st, Raise ZeroDivisionError)
  else insert_loop operations batch_size
         (py_range 0 (py_len operations) batch_size) 0 0 st.

Definition default_batch_size : Z := 1000.

(** *** What a run of the importer shows from outside *)

(** The calls a step added to the log. *)
Definition events_since (st st' : State) : list Event :=
  skipn (List.length (log st)) (log st').

Definition attempts (evs : list Event) : Z :=
  py_len (filter (fun ev => match ev with EvAttempt => true | _ => false end)
            evs).

Fixpoint waits (evs : list Event) : list Z :=
  match evs with
  | [] => []
  | EvSleep secs :: evs' => secs :: waits evs'
  | _ :: evs' => waits evs'
  end.

(** The batches of one load, in the order the loop slices them. *)
Definition batches_of (operations : list WriteOp) (batch_size : Z)
  : list (list WriteOp) :=
  map (fun i => py_slice operations i (i + batch_size))
      (py_range 0 (py_len operations) batch_size).

(** A reply that is neither a result nor a [BulkWriteError] ends the load. *)
Definition is_fatal (r : Result BulkWriteResult) : bool :=
  match r with
  | Ok _ => false
  | Raise (BulkWriteError _) => false
  | Raise _ => true
  end.

(** The replies of the server to the batches submitted one after the other,
    starting from server state [w], up to the first fatal one. *)
Fixpoint replies (c : Collection) (batches : list (list WriteOp))
    (w : Server) : list (Result BulkWriteResult) :=
  match batches with
  | [] => []
  | b :: rest =>
      let '(w', r) := bulk_write c b w in
      r :: (if is_fatal r then [] else replies c rest w')
  end.

Fixpoint first_fatal (rs : list (Result BulkWriteResult)) : option PyExn :=
  match rs with
  | [] => None
  | Raise e :: rs' => if is_fatal (Raise e) then Some e else first_fatal rs'
  | Ok _ :: rs' => first_fatal rs'
  end.

(** The inserted counts of the batches that returned a result. *)
Fixpoint inserted_by_results (rs : list (Result BulkWriteResult)) : Z :=
  match rs with
  | [] => 0
  | Ok result :: rs' => inserted_count result + inserted_by_results rs'
  | Raise _ :: rs' => inserted_by_results rs'
  end.

(** The [nInserted] counts reported by the batches that raised
    [BulkWriteError]. *)
Fixpoint inserted_by_partial_failures (rs : list (Result BulkWriteResult))
  : Z :=
  match rs with
  | [] => 0
  | Raise (BulkWriteError details) :: rs' =>
      dict_get (nInserted details) 0 + inserted_by_partial_failures rs'
  | _ :: rs' => inserted_by_partial_failures rs'
  end.

(** The sizes of the batches that raised [BulkWriteError]. *)
Fixpoint size_of_partial_failures (batches : list (list WriteOp))
    (rs : list (Result BulkWriteResult)) : Z :=
  match batches, rs with
  | b :: batches', Raise (BulkWriteError _) :: rs' =>
      py_len b + size_of_partial_failures batches' rs'
  | _ :: batches', _ :: rs' => size_of_partial_failures batches' rs'
  | _, _ => 0
  end.

(** The server accounts for every record of a batch: a result counts all
    of them as inserted, a [BulkWriteError] reports each record either in
    [nInserted] or in [writeErrors]. *)
Definition full_accounting (batch : list WriteOp)
    (r : Result BulkWriteResult) : Prop :=
  match r with
  | Ok result => inserted_count result = py_len batch
  | Raise (BulkWriteError details) =>
      exists n, nInserted details = Some n /\ 0 <= n /\
                n + py_len (writeErrors details) = py_len batch
  | Raise _ => False
  end.

(** The counts a reply carries lie between zero and the batch size. *)
Definition plausible_reply (batch : list WriteOp)
    (r : Result BulkWriteResult) : Prop :=
  match r with
  | Ok result => 0 <= inserted_count result <= py_len batch
  | Raise (BulkWriteError details) =>
      0 <= dict_get (nInserted details) 0 <= py_len batch
  | Raise _ => True
  end.

End Importer.

Arguments EvAttempt {Doc}.
Arguments EvLogError {Doc} n e.
Arguments EvSleep {Doc} secs.

End MongoDBImporter.

(** ** scripts/postgres-script.py *)

Module PostgresImporter.

Section Importer.

(** The PostgreSQL server and the network, as the driver sees them. *)
Variables Server Conn Cursor : Type.

(** [psycopg2.connect] on [self.connection_params] with ["dbname"] replaced
    by [database] *)
Variable psycopg2_connect : string -> Server -> Server * Result Conn.
(** [conn.cursor()] *)
Variable conn_cursor : Conn -> Server -> Server * Result Cursor.
(** [time.sleep(secs)] *)
Variable sleep : Z -> Server -> Server.

Inductive Event :=
| EvAttempt                         (* the [try] block of [connect] is entered *)
| EvLogError (n : Z) (e : PyExn)    (* "Connection attempt n failed: e" *)
| EvSleep (secs : Z).               (* [time.sleep] *)

Record State := {
  server : Server;
  conn : option Conn;
  autocommit : bool;
  cursor : option Cursor;
  log : list Event
}.

Definition emit (ev : Event) (st : State) : State :=
  {| server := server st; conn := conn st; autocommit := autocommit st;
     cursor := cursor st; log := log st ++ [ev] |}.

Definition set_server (w : Server) (st : State) : State :=
  {| server := w; conn := conn st; autocommit := autocommit st;
     cursor := cursor st; log := log st |}.

Definition time_sleep (secs : Z) (st : State) : State :=
  emit (EvSleep secs) (set_server (sleep secs (server st)) st).

Definition max_retries : Z := 3.

Definition default_database : string := "postgres".

(** The [try] block of [connect] (lines 36-40); a bare [return] gives
    [None], here [tt]. *)
Definition try_connect (database : string) (st : State)
  : State * Result unit :=
  let st := emit EvAttempt st in
  match psycopg2_connect database (server st) with
  | (w, Raise e) => (set_server w st, Raise e)
  | (w, Ok c) =>
      let st1 := {| server := w; conn := Some c; autocommit := true;
                    cursor := cursor st; log := log st |} in
      match conn_cursor c w with
      | (w', Raise e) => (set_server w' st1, Raise e)
      | (w', Ok cur) =>
          ({| server := w'; conn := Some c; autocommit := true;
              cursor := Some cur; log := log st |},
           Ok tt)
      end
  end.

(** [for attempt in range(max_retries)] of [connect]. *)
Fixpoint connect_loop (database : string) (attempts : list Z) (st : State)
  : State * Result unit :=
  match attempts with
  | [] => (st, Ok tt)
  | attempt :: rest =>
      match try_connect database st with
      | (st1, Ok u) => (st1, Ok u)
      | (st1, Raise e) =>
          let st2 := emit (EvLogError (attempt + 1) e) st1 in
          if attempt =? max_retries - 1
          then (st2, Raise e)
          else connect_loop database rest (time_sleep (2 ^ attempt) st2)
      end
  end.

Definition connect (database : string) (st : State) : State * Result unit :=
  connect_loop database (py_range 0 max_retries 1) st.

(** *** What a run of the importer shows from outside *)

Definition events_since (st st' : State) : list Event :=
  skipn (List.length (log st)) (log st').

Definition attempts (evs : list Event) : Z :=
  py_len (filter (fun ev => match ev with EvAttempt => true | _ => false end)
            evs).

Fixpoint waits (evs : list Event) : list Z :=
  match evs with
  | [] => []
  | EvSleep secs :: evs' => secs :: waits evs'
  | _ :: evs' => waits evs'
  end.

End Importer.

End PostgresImporter.

(** ** scripts/comparisons.py *)

Module DatabaseBenchmark.

Local Open Scope Q_scope.

(** *** Floats as rationals *)

(** [x < y] on floats. *)
Definition Qlt_bool (x y : Q) : bool := negb (Qle_bool y x).

(** [math.sqrt] on a non-negative float.  The square root is the one
    operation that leaves the rationals: it is taken on the reduced fraction,
    downwards to a multiple of [2^-52] over its denominator, which is exact
    whenever the argument is the square of a rational. *)
Definition float_sqrt (q : Q) : Q :=
  let q := Qred q in
  Z.sqrt (Qnum q * Zpos (Qden q) * 2 ^ 104) # (Qden q * 2 ^ 52).

(** [sum(l)] *)
Definition py_sum (l : list Q) : Q := fold_left Qplus l 0.

(** [l[i]] for [0 <= i < len(l)] *)
Definition py_index (l : list Q) (i : Z) : Q := nth (Z.to_nat i) l 0.

(** [sorted(l)]: stable, ascending. *)
Fixpoint insert_sorted (x : Q) (l : list Q) : list Q :=
  match l with
  | [] => [x]
  | y :: l' => if Qle_bool x y then x :: y :: l' else y :: insert_sorted x l'
  end.

Fixpoint sorted (l : list Q) : list Q :=
  match l with
  | [] => []
  | x :: l' => insert_sorted x (sorted l')
  end.

(** [min(l)] and [max(l)]: the first least (greatest) element; [ValueError]
    on an empty list. *)
Definition py_min (l : list Q) : Result Q :=
  match l with
  | [] => Raise ValueError
  | x :: l' => Ok (fold_left (fun m y => if Qlt_bool y m then y else m) l' x)
  end.

Definition py_max (l : list Q) : Result Q :=
  match l with
  | [] => Raise ValueError
  | x :: l' => Ok (fold_left (fun m y => if Qlt_bool m y then y else m) l' x)
  end.

(** *** The [statistics] module of the Python library, as documented *)

(** [statistics.mean(data)] *)
Definition statistics_mean (data : list Q) : Result Q :=
  let n := py_len data in
  if (n <? 1)%Z then Raise StatisticsError
  else Ok (py_sum data / inject_Z n).

(** [statistics.median(data)] *)
Definition statistics_median (data : list Q) : Result Q :=
  let data := sorted data in
  let n := py_len data in
  if (n =? 0)%Z then Raise StatisticsError
  else if (n mod 2 =? 1)%Z then Ok (py_index data (n / 2))
  else
    let i := (n / 2)%Z in
    Ok ((py_index data (i - 1) + py_index data i) / 2).

(** [statistics.variance(data)]: the sample variance. *)
Definition statistics_variance (data : list Q) : Result Q :=
  let n := py_len data in
  if (n <? 2)%Z then Raise StatisticsError
  else
    let xbar := py_sum data / inject_Z n in
    Ok (py_sum (map (fun x => (x - xbar) * (x - xbar)) data)
        / inject_Z (n - 1)).

(** [statistics.stdev(data)] *)
Definition statistics_stdev (data : list Q) : Result Q :=
  var <- statistics_variance data ;;
  Ok (float_sqrt var).

(** *** QueryResult and the measurement loop *)

Record QueryResult := {
  execution_times : list Q;
  mean : Q;
  median : Q;
  std_dev : Q;
  min_time : Q;
  max_time : Q
}.

(** The [return QueryResult(...)] expression of [execute_query_with_stats]
    (lines 73-80); the keyword arguments are evaluated in the order written. *)
Definition summarize (execution_times : list Q) : Result QueryResult :=
  mean <- statistics_mean execution_times ;;
  median <- statistics_median execution_times ;;
  std_dev <- (if (1 <? py_len execution_times)%Z
              then statistics_stdev execution_times
              else Ok 0) ;;
  min_time <- py_min execution_times ;;
  max_time <- py_max execution_times ;;
  Ok {| execution_times := execution_times;
        mean := mean;
        median := median;
        std_dev := std_dev;
        min_time := min_time;
        max_time := max_time |}.

(** [DatabaseBenchmark.__init__(self, iterations: int = 3)] *)
Definition default_iterations : Z := 3.

Section Runner.

(** The two database servers and the wall clock. *)
Variable World : Type.
(** [time.time()] *)
Variable time_time : World -> Q.
(** [time.sleep(secs)] *)
Variable sleep : Z -> World -> World.

Inductive Event :=
| EvQuery               (* [query_func()] is called *)
| EvSleep (secs : Z).   (* [time.sleep] *)

Record State := {
  world : World;
  log : list Event
}.

Definition call (query_func : World -> World * Result unit) (st : State)
  : State * Result unit :=
  let '(w, r) := query_func (world st) in
  ({| world := w; log := log st ++ [EvQuery] |}, r).

Definition time_sleep (secs : Z) (st : State) : State :=
  {| world := sleep secs (world st); log := log st ++ [EvSleep secs] |}.

(** [for i in range(self.iterations)] of [execute_query_with_stats]
    (lines 63-71). *)
Fixpoint run_iterations (query_func : World -> World * Result unit)
    (its : list Z) (execution_times : list Q) (st : State)
  : State * Result (list Q) :=
  match its with
  | [] => (st, Ok execution_times)
  | i :: rest =>
      let start_time := time_time (world st) in
      match call query_func st with
      | (st1, Raise e) => (st1, Raise e)
      | (st1, Ok _) =>
          let execution_time := time_time (world st1) - start_time in
          run_iterations query_func rest
            (execution_times ++ [execution_time])
            (time_sleep 1 st1)
      end
  end.

(** [execute_query_with_stats(self, name, query_func)]; [name] is only
    logged. *)
Definition execute_query_with_stats (iterations : Z) (name : string)
    (query_func : World -> World * Result unit) (st : State)
  : State * Result QueryResult :=
  match run_iterations query_func (py_range 0 iterations 1) [] st with
  | (st1, Raise e) => (st1, Raise e)
  | (st1, Ok execution_times) => (st1, summarize execution_times)
  end.

(** *** What a run shows from outside *)

Definition events_since (st st' : State) : list Event :=
  skipn (List.length (log st)) (log st').

Definition calls (evs : list Event) : Z :=
  py_len (filter (fun ev => match ev with EvQuery => true | _ => false end)
            evs).

(** The world at the start of each of [n] iterations that follow one
    another without an exception: the operation runs, then the cooldown. *)
Fixpoint iteration_worlds (query_func : World -> World * Result unit)
    (n : nat) (w : World) : list World :=
  match n with
  | O => []
  | S n' =>
      w :: iteration_worlds query_func n' (sleep 1 (fst (query_func w)))
  end.

(** The wall-clock time the operation takes when started in world [w]. *)
Definition elapsed (query_func : World -> World * Result unit) (w : World)
  : Q :=
  time_time (fst (query_func w)) - time_time w.

End Runner.

(** *** Findings *)

(** [s.lower()] on ASCII names. *)
Definition lower_ascii (c : ascii) : ascii :=
  let n := nat_of_ascii c in
  if ((65 <=? n) && (n <=? 90))%nat then ascii_of_nat (n + 32) else c.

Fixpoint lower (s : string) : string :=
  match s with
  | EmptyString => EmptyString
  | String c s' => String (lower_ascii c) (lower s')
  end.

(** [needle in s] *)
Fixpoint contains (needle s : string) : bool :=
  String.prefix needle s ||
  match s with
  | EmptyString => false
  | String _ s' => contains needle s'
  end.

(** Rounding to the nearest integer, ties to even. *)
Definition round_half_even (q : Q) : Z :=
  let n := Qnum q in
  let d := Zpos (Qden q) in
  let fl := (n / d)%Z in
  match (2 * (n mod d) ?= d)%Z with
  | Lt => fl
  | Gt => (fl + 1)%Z
  | Eq => if Z.even fl then fl else (fl + 1)%Z
  end.

Definition str_of_nonneg (z : Z) : string :=
  NilZero.string_of_uint (N.to_uint (Z.to_N z)).

(** [f"{q:.1f}"] *)
Definition format_1f (q : Q) : string :=
  let t := round_half_even (Qabs q * 10) in
  ((if Qlt_bool q 0 then "-" else "")
   ++ str_of_nonneg (t / 10) ++ "." ++ str_of_nonneg (t mod 10))%string.

(** [results: Dict]: dictionaries iterate in insertion order. *)
Definition Tests := list (string * QueryResult).
Definition Results := list (string * Tests).

(** [{k: v for k, v in tests.items() if 'mongo' in k.lower()}] *)
Definition mongo_tests_of (tests : Tests) : Tests :=
  filter (fun kv => contains "mongo" (lower (fst kv))) tests.

(** [{k: v for k, v in tests.items() if 'postgres' in k.lower()}] *)
Definition pg_tests_of (tests : Tests) : Tests :=
  filter (fun kv => contains "postgres" (lower (fst kv))) tests.

(** [for pg_name, pg_metrics in pg_tests.items()] (lines 429-438); a float
    division by zero raises. *)
Fixpoint pg_loop (category mongo_name : string) (mongo_metrics : QueryResult)
    (pg_tests : Tests) (findings : list string) : Result (list string) :=
  match pg_tests with
  | [] => Ok findings
  | (pg_name, pg_metrics) :: rest =>
      if Qeq_bool (mean pg_metrics) 0 then Raise ZeroDivisionError
      else
        let diff_percent :=
          (mean mongo_metrics - mean pg_metrics) / mean pg_metrics * 100 in
        if Qlt_bool 10 (Qabs diff_percent)
        then
          let faster_db :=
            (if Qlt_bool diff_percent 0 then "MongoDB" else "PostgreSQL")%string
          in
          pg_loop category mongo_name mongo_metrics rest
            (findings ++
             [("In " ++ category ++ ", " ++ faster_db ++ " was "
               ++ format_1f (Qabs diff_percent) ++ "% faster on average ("
               ++ mongo_name ++ " vs " ++ pg_name ++ ")")%string])
        else pg_loop category mongo_name mongo_metrics rest findings
  end.

(** [for mongo_name, mongo_metrics in mongo_tests.items()] (line 428) *)
Fixpoint mongo_loop (category : string) (mongo_tests pg_tests : Tests)
    (findings : list string) : Result (list string) :=
  match mongo_tests with
  | [] => Ok findings
  | (mongo_name, mongo_metrics) :: rest =>
      findings' <- pg_loop category mongo_name mongo_metrics pg_tests findings ;;
      mongo_loop category rest pg_tests findings'
  end.

(** [for category, tests in results.items()] (line 424) *)
Fixpoint category_loop (results : Results) (findings : list string)
  : Result (list string) :=
  match results with
  | [] => Ok findings
  | (category, tests) :: rest =>
      findings' <- mongo_loop category (mongo_tests_of tests)
                     (pg_tests_of tests) findings ;;
      category_loop rest findings'
  end.

Definition _generate_findings (results : Results) : Result (list string) :=
  category_loop results [].

End DatabaseBenchmark.

(** ** The statistics and the comparison as the design document words them *)

Module Reference.

Import DatabaseBenchmark.

Local Open Scope Q_scope.

(** The sum of the samples. *)
Definition total (samples : list Q) : Q := fold_right Qplus 0 samples.

(** "mean": the arithmetic mean. *)
Definition arithmetic_mean (samples : list Q) : Q :=
  total samples / inject_Z (Z.of_nat (List.length samples)).

(** "median": the middle one of the samples in ascending order, the mean of
    the two middle ones when their number is even. *)
Definition median_of (samples : list Q) : Q :=
  let s := sorted samples in
  let n := List.length s in
  if Nat.even n
  then (nth (n / 2 - 1) s 0 + nth (n / 2) s 0) / 2
  else nth (n / 2) s 0.

(** "min" and "max": the least and the greatest sample. *)
Definition least (samples : list Q) : Q :=
  match samples with
  | [] => 0
  | x :: rest => fold_right Qmin x rest
  end.

Definition greatest (samples : list Q) : Q :=
  match samples with
  | [] => 0
  | x :: rest => fold_right Qmax x rest
  end.

(** "the standard sample standard deviation": the square root of the sum of
    the squared distances to the mean over [n - 1]. *)
Definition sample_variance (samples : list Q) : Q :=
  let m := arithmetic_mean samples in
  total (map (fun x => (x - m) ^ 2) samples)
  / inject_Z (Z.of_nat (List.length samples) - 1).

Definition sample_stddev (samples : list Q) : Q :=
  float_sqrt (sample_variance samples).

(** "summarize(samples) -> QueryResult.  Requires at least 1 sample; fails
    with InsufficientDataError on an empty sequence.  stddev = 0 when
    len(samples) == 1, else computed as the standard sample standard
    deviation."  The failure is [None]. *)
Definition summarize (samples : list Q) : option QueryResult :=
  match samples with
  | [] => None
  | _ :: _ =>
      Some {| execution_times := samples;
              mean := arithmetic_mean samples;
              median := median_of samples;
              std_dev := if (List.length samples =? 1)%nat then 0
                         else sample_stddev samples;
              min_time := least samples;
              max_time := greatest samples |}
  end.

(** Two results hold the same samples and equal statistics. *)
Definition same_statistics (r r' : QueryResult) : Prop :=
  execution_times r = execution_times r'
  /\ mean r == mean r'
  /\ median r == median r'
  /\ std_dev r == std_dev r'
  /\ min_time r == min_time r'
  /\ max_time r == max_time r'.

(** Backend A is MongoDB, backend B is PostgreSQL. *)
Inductive Backend :=
| BackendA
| BackendB.

Record Finding := {
  category : string;
  test_A : string;
  test_B : string;
  faster : Backend;
  magnitude : Q
}.

(** "diff_percent = (mean_A - mean_B) / mean_B * 100" *)
Definition diff_percent (mean_A mean_B : Q) : Q :=
  (mean_A - mean_B) / mean_B * 100.

(** "Emit a Finding only when abs(diff_percent) > 10; the Finding states
    which backend was faster (negative diff => A faster) and by what
    magnitude." *)
Definition compare_pair (category : string) (a b : string * QueryResult)
  : list Finding :=
  let d := diff_percent (mean (snd a)) (mean (snd b)) in
  if Qlt_le_dec 10 (Qabs d)
  then [{| category := category;
           test_A := fst a;
           test_B := fst b;
           faster := if Qlt_le_dec d 0 then BackendA else BackendB;
           magnitude := Qabs d |}]
  else [].

(** "For each category, for each pair (backend-A test, backend-B test)" *)
Definition compare (results : Results) : list Finding :=
  flat_map
    (fun ct =>
       flat_map
         (fun a => flat_map (compare_pair (fst ct) a) (pg_tests_of (snd ct)))
         (mongo_tests_of (snd ct)))
    results.

(** The sentence [_generate_findings] writes for a finding. *)
Definition render (f : Finding) : string :=
  ("In " ++ category f ++ ", "
   ++ match faster f with BackendA => "MongoDB" | BackendB => "PostgreSQL" end
   ++ " was " ++ format_1f (magnitude f) ++ "% faster on average ("
   ++ test_A f ++ " vs " ++ test_B f ++ ")")%string.

End Reference.

(** ** A small deployment to run the scripts against *)

Module Scenario.

(** A MongoDB server that refuses the first [outages] connection attempts,
    keeps the tweet ids it has stored under a unique index, and drops the
    connection when it is sent the document with id 0. *)
Record MongoServer := { outages : nat; stored : list nat }.

Definition mongo_client (w : MongoServer) : MongoServer * Result unit :=
  (w, Ok tt).

Definition mongo_server_info (c : unit) (w : MongoServer)
  : MongoServer * Result unit :=
  match outages w with
  | O => (w, Ok tt)
  | S n =>
      ({| outages := n; stored := stored w |},
       Raise (OtherException "ServerSelectionTimeoutError"))
  end.

Definition mongo_sleep (secs : Z) (w : MongoServer) : MongoServer := w.

(** An unordered bulk insert: every document whose id is not stored yet is
    stored, every other one is reported in [writeErrors]. *)
Fixpoint insert_each (idx : Z) (ids stored : list nat)
  : list nat * Z * list (Z * string) :=
  match ids with
  | [] => (stored, 0, [])
  | d :: rest =>
      if existsb (Nat.eqb d) stored
      then
        let '(s, n, errs) := insert_each (idx + 1) rest stored in
        (s, n, (idx, "E11000 duplicate key error"%string) :: errs)
      else
        let '(s, n, errs) := insert_each (idx + 1) rest (stored ++ [d]) in
        (s, n + 1, errs)
  end.

Definition mongo_bulk_write (c : unit)
    (batch : list (MongoDBImporter.WriteOp nat)) (w : MongoServer)
  : MongoServer * Result MongoDBImporter.BulkWriteResult :=
  let ids := map (fun op => match op with MongoDBImporter.InsertOne d => d end)
                 batch in
  if existsb (Nat.eqb 0) ids
  then (w, Raise (OtherException "AutoReconnect"))
  else
    let '(s, n, errs) := insert_each 0 ids (stored w) in
    let w' := {| outages := outages w; stored := s |} in
    match errs with
    | [] => (w', Ok {| MongoDBImporter.inserted_count := n |})
    | _ :: _ =>
        (w', Raise (BulkWriteError {| nInserted := Some n;
                                      writeErrors := errs |}))
    end.

(** An importer that has not connected yet, facing a server that refuses
    [n] attempts. *)
Definition mongo_fresh (n : nat)
  : MongoDBImporter.State MongoServer unit unit nat :=
  {| MongoDBImporter.server := {| outages := n; stored := [] |};
     MongoDBImporter.client := None;
     MongoDBImporter.collection := None;
     MongoDBImporter.log := [] |}.

(** A connected importer in front of an empty collection. *)
Definition mongo_connected
  : MongoDBImporter.State MongoServer unit unit nat :=
  {| MongoDBImporter.server := {| outages := 0; stored := [] |};
     MongoDBImporter.client := Some tt;
     MongoDBImporter.collection := Some tt;
     MongoDBImporter.log := [] |}.

(** A PostgreSQL server that refuses the first [n] connection attempts. *)
Definition pg_connect (database : string) (w : nat) : nat * Result unit :=
  match w with
  | O => (w, Ok tt)
  | S n => (n, Raise (OtherException "OperationalError"))
  end.

Definition pg_cursor (c : unit) (w : nat) : nat * Result unit := (w, Ok tt).

Definition pg_sleep (secs : Z) (w : nat) : nat := w.

Definition pg_fresh (n : nat) : PostgresImporter.State nat unit unit :=
  {| PostgresImporter.server := n;
     PostgresImporter.conn := None;
     PostgresImporter.autocommit := false;
     PostgresImporter.cursor := None;
     PostgresImporter.log := [] |}.

(** A world for the benchmark: a clock, and the number of queries the
    database has served. *)
Record BenchWorld := { clock : Q; served : nat }.

Definition bench_time (w : BenchWorld) : Q := clock w.

Definition bench_sleep (secs : Z) (w : BenchWorld) : BenchWorld :=
  {| clock := (clock w + inject_Z secs)%Q; served := served w |}.

(** A query that takes a quarter of a second. *)
Definition steady_query (w : BenchWorld) : BenchWorld * Result unit :=
  ({| clock := (clock w + (1 # 4))%Q; served := S (served w) |}, Ok tt).

(** A query that fails the second time it is run. *)
Definition flaky_query (w : BenchWorld) : BenchWorld * Result unit :=
  ({| clock := (clock w + (1 # 4))%Q; served := S (served w) |},
   if (served w =? 1)%nat then Raise (OtherException "OperationalError")
   else Ok tt).

Definition bench_start : DatabaseBenchmark.State BenchWorld :=
  {| DatabaseBenchmark.world := {| clock := 0; served := 0 |};
     DatabaseBenchmark.log := [] |}.

(** A result whose mean is [m]. *)
Definition with_mean (m : Q) : DatabaseBenchmark.QueryResult :=
  {| DatabaseBenchmark.execution_times := [m];
     DatabaseBenchmark.mean := m;
     DatabaseBenchmark.median := m;
     DatabaseBenchmark.std_dev := 0;
     DatabaseBenchmark.min_time := m;
     DatabaseBenchmark.max_time := m |}.

(** One category with a MongoDB test of mean [mean_A] and a PostgreSQL test
    of mean [mean_B]. *)
Definition one_pair (mean_A mean_B : Q) : DatabaseBenchmark.Results :=
  [("simple_queries"%string,
    [("mongodb_find"%string, with_mean mean_A);
     ("postgres_select"%string, with_mean mean_B)])].

End Scenario.

(** ** scripts/pre-processing-script.py *)

Module Preprocessing.

Import DatabaseBenchmark.

Local Open Scope Q_scope.

(** The dictionary [analyze_sentiment] returns. *)
Record Sentiment := {
  textblob_sentiment : string;
  vader_sentiment : string;
  textblob_polarity : Q;
  vader_compound : Q
}.

Section Analyzer.

(** [TextBlob(text).sentiment.polarity] *)
Variable blob_polarity_of : string -> Result Q.
(** [self.sia.polarity_scores(text)], read at ['compound'] *)
Variable vader_compound_of : string -> Result Q.

(** The [try] block of [analyze_sentiment] (lines 51-64). *)
Definition analyze (text : string) : Result Sentiment :=
  blob_polarity <- blob_polarity_of text ;;
  let textblob_result :=
    (if Qlt_bool 0 blob_polarity then "positive"
     else if Qlt_bool blob_polarity 0 then "negative"
     else "neutral")%string in
  compound <- vader_compound_of text ;;
  let vader_result :=
    (if Qle_bool (5 # 100) compound then "positive"
     else if Qle_bool compound (- (5 # 100)) then "negative"
     else "neutral")%string in
  Ok {| textblob_sentiment := textblob_result;
        vader_sentiment := vader_result;
        textblob_polarity := blob_polarity;
        vader_compound := compound |}.

(** [analyze_sentiment(self, text)]: any exception gives the neutral
    dictionary (lines 65-72). *)
Definition analyze_sentiment (text : string) : Sentiment :=
  match analyze text with
  | Ok s => s
  | Raise _ =>
      {| textblob_sentiment := "neutral";
         vader_sentiment := "neutral";
         textblob_polarity := 0;
         vader_compound := 0 |}
  end.

End Analyzer.

(** [df['target'].map({0: 'negative', 4: 'positive'})] on one row; a target
    that is no key of the dictionary maps to NaN, here [None]. *)
Definition target_map (target : Z) : option string :=
  if (target =? 0)%Z then Some "negative"%string
  else if (target =? 4)%Z then Some "positive"%string
  else None.

(** [df['original_sentiment'] == df[label_column]] on one row; NaN equals
    nothing. *)
Definition comparison (original : option string) (label : string) : bool :=
  match original with
  | Some s => String.eqb s label
  | None => false
  end.

(** *** Rows *)

(** A row of the input file, columns
    [names=['target', 'ids', 'date', 'flag', 'user', 'text']] (line 145); [D]
    is the type of the date column, and a text cell that is no [str] is
    [None]. *)
Record Row (D : Type) := {
  target : Z;
  ids : Z;
  date : D;
  flag : string;
  user : string;
  text : option string
}.

(** A row after [process_chunk]. *)
Record Processed := {
  row : Row (option Z);
  cleaned_text : string;
  sentiment : Sentiment
}.

(** A row after the post-processing of [main] (lines 169-171). *)
Record Compared := {
  processed : Processed;
  original_sentiment : option string;
  comparison_textblob : bool;
  comparison_vader : bool
}.

Definition tweet_id (c : Compared) : Z := ids (row (processed c)).

(** *** Duplicates *)

(** [df.drop_duplicates(subset='ids', keep='first')], [key] reading the
    column [ids] of a row: [seen] holds the ids met so far. *)
Fixpoint keep_first {A : Type} (key : A -> Z) (seen : list Z) (df : list A)
  : list A :=
  match df with
  | [] => []
  | r :: df' =>
      if existsb (Z.eqb (key r)) seen then keep_first key seen df'
      else r :: keep_first key (key r :: seen) df'
  end.

Definition drop_duplicates {A : Type} (key : A -> Z) (df : list A) : list A :=
  keep_first key [] df.

(** [df['ids'].duplicated().sum()]: the rows whose id was met before. *)
Fixpoint duplicated_from (seen : list Z) (keys : list Z) : Z :=
  match keys with
  | [] => 0
  | k :: keys' =>
      ((if existsb (Z.eqb k) seen then 1 else 0)
       + duplicated_from (k :: seen) keys')%Z
  end.

Definition duplicated_sum (keys : list Z) : Z := duplicated_from [] keys.

Definition notna {D : Type} (r : Row (option D)) : bool :=
  match date r with
  | Some _ => true
  | None => false
  end.

Section Duplicates.

(** [parse_date(date_str)]; a time stamp is a number of nanoseconds, NaT
    and [None] are [None]. *)
Variable parse_date : string -> option Z.

(** [df.sort_values('date', ascending=False)].  The default sort of pandas
    is not stable, so the order of rows with equal dates is left to the
    library. *)
Variable sort_values_desc : list (Row (option Z)) -> list (Row (option Z)).

(** [df['date'] = df['date'].apply(parse_date)] *)
Definition apply_parse_date (df : list (Row string)) : list (Row (option Z)) :=
  map (fun r => {| target := target r; ids := ids r;
                   date := parse_date (date r); flag := flag r;
                   user := user r; text := text r |}) df.

(** [handle_duplicates(df)] *)
Definition handle_duplicates (df : list (Row string))
  : list (Row (option Z)) :=
  let df := apply_parse_date df in
  let invalid_dates := py_len (filter (fun r => negb (notna r)) df) in
  let df := if (0 <? invalid_dates)%Z then filter notna df else df in
  drop_duplicates (@ids _) (sort_values_desc df).

End Duplicates.

(** [a] is at least as recent as [b], for rows that have a date: the order
    [sort_values('date', ascending=False)] puts such rows in. *)
Definition newer_or_same (a b : Row (option Z)) : Prop :=
  match date a, date b with
  | Some x, Some y => (y <= x)%Z
  | _, _ => True
  end.

(** [r] is the input row [r0] with its date parsed to [d]. *)
Definition parsed_as (r0 : Row string) (d : Z) (r : Row (option Z)) : Prop :=
  r = {| target := target r0; ids := ids r0; date := Some d;
         flag := flag r0; user := user r0; text := text r0 |}.

(** *** Chunks *)

(** [numpy.array_split(ary, n)] for [n >= 1], as documented: [len % n]
    sections of [len // n + 1] rows, then sections of [len // n] rows. *)
Fixpoint split_at_sizes {A : Type} (sizes : list nat) (l : list A)
  : list (list A) :=
  match sizes with
  | [] => []
  | k :: sizes' => firstn k l :: split_at_sizes sizes' (skipn k l)
  end.

Definition array_split {A : Type} (l : list A) (n : Z) : list (list A) :=
  let each := (py_len l / n)%Z in
  let extras := (py_len l mod n)%Z in
  split_at_sizes
    (repeat (Z.to_nat (each + 1)) (Z.to_nat extras)
     ++ repeat (Z.to_nat each) (Z.to_nat (n - extras)))
    l.

Definition CHUNK_SIZE : Z := 10000.

(** [np.array_split(df, max(1, len(df) // CHUNK_SIZE))] (line 152) *)
Definition split_chunks {A : Type} (df : list A) : list (list A) :=
  array_split df (Z.max 1 (py_len df / CHUNK_SIZE)).

(** [pd.concat(results, ignore_index=True)]: no frame to concatenate is a
    [ValueError]. *)
Definition pd_concat {A : Type} (results : list (list A)) : Result (list A) :=
  match results with
  | [] => Raise ValueError
  | _ => Ok (List.concat results)
  end.

(** *** The pipeline *)

Section Pipeline.

Variable parse_date : string -> option Z.
Variable sort_values_desc : list (Row (option Z)) -> list (Row (option Z)).
(** The substitutions of [preprocess_text] on a [str] (lines 34-43). *)
Variable re_clean : string -> string.
Variable blob_polarity_of : string -> Result Q.
Variable vader_compound_of : string -> Result Q.
(** What pandas raises, if anything, while the columns of a chunk are
    copied and assigned in [process_chunk]. *)
Variable pandas_raises : list (Row (option Z)) -> option PyExn.

(** [preprocess_text(text)] *)
Definition preprocess_text (text : option string) : string :=
  match text with
  | None => ""%string
  | Some s => re_clean s
  end.

(** [process_chunk(chunk, analyzer)]: [None] when anything was raised. *)
Definition process_chunk (chunk : list (Row (option Z)))
  : option (list Processed) :=
  match pandas_raises chunk with
  | Some _ => None
  | None =>
      Some (map (fun r =>
                   let cleaned := preprocess_text (text r) in
                   {| row := r;
                      cleaned_text := cleaned;
                      sentiment :=
                        analyze_sentiment blob_polarity_of vader_compound_of
                                          cleaned |})
                chunk)
  end.

(** [[r.get() for r in processed_chunks if r.get() is not None]] *)
Fixpoint collect {A : Type} (processed_chunks : list (option A)) : list A :=
  match processed_chunks with
  | [] => []
  | Some r :: rest => r :: collect rest
  | None :: rest => collect rest
  end.

(** Lines 169-171 on one row. *)
Definition post_process (p : Processed) : Compared :=
  let original := target_map (target (row p)) in
  {| processed := p;
     original_sentiment := original;
     comparison_textblob :=
       comparison original (textblob_sentiment (sentiment p));
     comparison_vader :=
       comparison original (vader_sentiment (sentiment p)) |}.

(** The data frame of [main] when it reaches line 179, from the data
    frame read at line 141 (lines 149-177).  The worker pool hands every
    chunk to [process_chunk] and returns what it returns; what can go
    wrong in a worker is caught there. *)
Definition main_frame (df : list (Row string)) : Result (list Compared) :=
  let df := handle_duplicates parse_date sort_values_desc df in
  let chunks := split_chunks df in
  let processed_chunks := map process_chunk chunks in
  let results := collect processed_chunks in
  df <- pd_concat results ;;
  let df := map post_process df in
  let final_duplicate_count := duplicated_sum (map tweet_id df) in
  if (0 <? final_duplicate_count)%Z
  then Ok (drop_duplicates tweet_id df)
  else Ok df.

End Pipeline.

End Preprocessing.

(** A data set and stand-ins for the libraries, on which the pipeline can
    be run. *)
Module PreprocessingScenario.

Import Preprocessing.

(** Dates are written as decimal numbers of seconds; anything else does
    not parse. *)
Definition parse_seconds (s : string) : option Z :=
  match NilEmpty.uint_of_string s with
  | Some u => Some (Z.of_uint u)
  | None => None
  end.

Definition newer (a b : Row (option Z)) : bool :=
  match date a, date b with
  | Some x, Some y => (y <=? x)%Z
  | Some _, None => true
  | None, _ => false
  end.

Fixpoint insert_by_date (r : Row (option Z)) (l : list (Row (option Z)))
  : list (Row (option Z)) :=
  match l with
  | [] => [r]
  | r' :: l' => if newer r r' then r :: l else r' :: insert_by_date r l'
  end.

(** An insertion sort, newest first, rows without a date last. *)
Definition sort_newest_first (l : list (Row (option Z)))
  : list (Row (option Z)) :=
  fold_right insert_by_date [] l.

Definition tweet (tgt id : Z) (d : string) (t : string) : Row string :=
  {| target := tgt; ids := id; date := d; flag := "NO_QUERY";
     user := "u"; text := Some t |}.

(** Four rows: tweet 7 twice, tweet 9 with a date that does not parse. *)
Definition tweets : list (Row string) :=
  [ tweet 0 7 "100" "bad day"; tweet 0 8 "150" "good day";
    tweet 4 7 "200" "good night"; tweet 0 9 "yesterday" "bad night" ].

(** A polarity from the first word. *)
Definition polarity_of (t : string) : Result Q :=
  if String.prefix "good" t then Ok (1 # 2)%Q
  else if String.prefix "bad" t then Ok (- (1 # 2))%Q
  else Ok 0%Q.

Definition no_failure (chunk : list (Row (option Z))) : option PyExn := None.

(** Every chunk that holds tweet 8 fails. *)
Definition fails_on_8 (chunk : list (Row (option Z))) : option PyExn :=
  if existsb (fun r => (ids r =? 8)%Z) chunk
  then Some (OtherException "MemoryError")
  else None.

Definition scored_positive (tgt id d : Z) (t : string) (original : string)
  (agree : bool) : Compared :=
  {| processed :=
       {| row := {| target := tgt; ids := id; date := Some d;
                    flag := "NO_QUERY"; user := "u"; text := Some t |};
          cleaned_text := t;
          sentiment := {| textblob_sentiment := "positive";
                          vader_sentiment := "positive";
                          textblob_polarity := 1 # 2;
                          vader_compound := 1 # 2 |} |};
     original_sentiment := Some original;
     comparison_textblob := agree;
     comparison_vader := agree |}.

(** Tweet 7 in its later version, labelled as its target says. *)
Definition agreeing : Compared :=
  scored_positive 4 7 200 "good night" "positive" true.

(** Tweet 8, labelled against its target. *)
Definition disagreeing : Compared :=
  scored_positive 0 8 150 "good day" "negative" false.

(** The data frame the pipeline computes from [tweets] when no chunk
    fails. *)
Definition frame : list Compared := [agreeing; disagreeing].

End PreprocessingScenario.

(** ** scripts/comparisons.py: the suite, the report and [main] *)

Module BenchmarkSuite.

Import DatabaseBenchmark.

Local Open Scope Z_scope.

(** The dictionary [generate_report] writes to [benchmark_report.json];
    [detailed_results] holds, for every category and test, the six fields
    of the [QueryResult] under the keys mean, median, std_dev, min, max and
    all_iterations. *)
Record Report := {
  timestamp : string;
  test_categories : list string;
  total_queries_executed : Z;
  iterations_per_query : Z;
  overall_findings : list string;
  detailed_results : Results
}.

Inductive Handle := MongoClientHandle | PgConn | PgCursor.

(** What [main] does to the outside, in order. *)
Inductive Step :=
| Opened (h : Handle)          (* the constructor obtained [h] *)
| Bench (ev : Event)           (* an event of [execute_query_with_stats] *)
| WriteReport (r : Report)     (* [json.dump(report, f, indent=2)] is called *)
| Visualize                    (* [generate_visualizations] is called *)
| LogError (e : PyExn)         (* [logging.error] in [main] *)
| Closing (h : Handle).        (* [close()] is called on [h] *)

Section Suite.

Variable World : Type.
Variable time_time : World -> Q.
Variable sleep : Z -> World -> World.

Definition Query := World -> World * Result unit.

(** The lambdas of the four benchmarks (lines 85-173), each run against
    the two servers. *)
Variables mongodb_find postgres_select : Query.
Variables mongodb_text_search postgres_text_search : Query.
Variables mongodb_aggregation postgres_aggregation : Query.
Variables mongodb_lookup postgres_join : Query.

(** [{name: self.execute_query_with_stats(name, func)
      for name, func in queries.items()}] *)
Fixpoint run_queries (iterations : Z) (queries : list (string * Query))
    (st : State World) : State World * Result Tests :=
  match queries with
  | [] => (st, Ok [])
  | (name, func) :: rest =>
      match execute_query_with_stats time_time sleep iterations name func st
      with
      | (st1, Raise e) => (st1, Raise e)
      | (st1, Ok r) =>
          match run_queries iterations rest st1 with
          | (st2, Raise e) => (st2, Raise e)
          | (st2, Ok tests) => (st2, Ok ((name, r) :: tests))
          end
      end
  end.

Definition benchmark_simple_queries (iterations : Z) :=
  run_queries iterations
    [("mongodb_find"%string, mongodb_find);
     ("postgres_select"%string, postgres_select)].

Definition benchmark_text_search (iterations : Z) :=
  run_queries iterations
    [("mongodb_text_search"%string, mongodb_text_search);
     ("postgres_text_search"%string, postgres_text_search)].

Definition benchmark_aggregations (iterations : Z) :=
  run_queries iterations
    [("mongodb_aggregation"%string, mongodb_aggregation);
     ("postgres_aggregation"%string, postgres_aggregation)].

Definition benchmark_joins (iterations : Z) :=
  run_queries iterations
    [("mongodb_lookup"%string, mongodb_lookup);
     ("postgres_join"%string, postgres_join)].

(** [run_benchmark(self)] *)
Definition run_benchmark (iterations : Z) (st : State World)
  : State World * Result Results :=
  match benchmark_simple_queries iterations st with
  | (st1, Raise e) => (st1, Raise e)
  | (st1, Ok simple_queries) =>
  match benchmark_text_search iterations st1 with
  | (st2, Raise e) => (st2, Raise e)
  | (st2, Ok text_search) =>
  match benchmark_aggregations iterations st2 with
  | (st3, Raise e) => (st3, Raise e)
  | (st3, Ok aggregations) =>
  match benchmark_joins iterations st3 with
  | (st4, Raise e) => (st4, Raise e)
  | (st4, Ok joins) =>
      (st4, Ok [("simple_queries"%string, simple_queries);
                ("text_search"%string, text_search);
                ("aggregations"%string, aggregations);
                ("joins"%string, joins)])
  end end end end.

(** *** The session of [main] *)

(** [MongoClient("mongodb://localhost:27017/")] *)
Variable MongoClient : World -> World * Result unit.
(** [psycopg2.connect(dbname="sentiment_analysis", ...)] *)
Variable psycopg2_connect : World -> World * Result unit.
(** [self.pg_conn.cursor()] *)
Variable conn_cursor : World -> World * Result unit.
(** [datetime.now().isoformat()] *)
Variable now_isoformat : World -> string.
(** [open('./json/benchmark_report.json', 'w')] and [json.dump] *)
Variable json_dump : Report -> World -> World * Result unit.
(** The plots of [generate_visualizations(results)] (lines 178-375). *)
Variable savefig : Results -> World -> World * Result unit.
(** [close()] on each of the three handles *)
Variable handle_close : Handle -> World -> World * Result unit.

Record Session := {
  outside : World;
  trace : list Step
}.

Definition step (s : Step) (ss : Session) : Session :=
  {| outside := outside ss; trace := trace ss ++ [s] |}.

(** An effect on the world, inside a session. *)
Definition effect {A : Type} (f : World -> World * Result A) (ss : Session)
  : Session * Result A :=
  let '(w, r) := f (outside ss) in
  ({| outside := w; trace := trace ss |}, r).

(** [DatabaseBenchmark(iterations)] (lines 32-47) *)
Definition __init__ (ss : Session) : Session * Result unit :=
  match effect MongoClient ss with
  | (ss1, Raise e) => (ss1, Raise e)
  | (ss1, Ok _) =>
  let ss1 := step (Opened MongoClientHandle) ss1 in
  match effect psycopg2_connect ss1 with
  | (ss2, Raise e) => (ss2, Raise e)
  | (ss2, Ok _) =>
  let ss2 := step (Opened PgConn) ss2 in
  match effect conn_cursor ss2 with
  | (ss3, Raise e) => (ss3, Raise e)
  | (ss3, Ok _) => (step (Opened PgCursor) ss3, Ok tt)
  end end end.

(** [run_benchmark] inside a session: its events are appended to the
    trace. *)
Definition benchmark_run_benchmark (iterations : Z) (ss : Session)
  : Session * Result Results :=
  let '(st, r) :=
    run_benchmark iterations {| world := outside ss; log := [] |} in
  ({| outside := world st; trace := trace ss ++ map Bench (log st) |}, r).

(** [sum(len(cat) for cat in results.values())] *)
Definition count_tests (results : Results) : Z :=
  fold_left Z.add (map (fun ct => py_len (snd ct)) results) 0.

(** [generate_report(self, results)]; the lines written to the log at the
    end (lines 411-418) are left out. *)
Definition generate_report (iterations : Z) (results : Results)
    (ss : Session) : Session * Result unit :=
  let timestamp := now_isoformat (outside ss) in
  match _generate_findings results with
  | Raise e => (ss, Raise e)
  | Ok findings =>
      let report :=
        {| timestamp := timestamp;
           test_categories := map fst results;
           total_queries_executed := count_tests results;
           iterations_per_query := iterations;
           overall_findings := findings;
           detailed_results := results |} in
      match effect (json_dump report) (step (WriteReport report) ss) with
      | (ss1, Raise e) => (ss1, Raise e)
      | (ss1, Ok _) => effect (savefig results) (step Visualize ss1)
      end
  end.

(** [close(self)] *)
Definition close (ss : Session) : Session * Result unit :=
  match effect (handle_close MongoClientHandle)
               (step (Closing MongoClientHandle) ss) with
  | (ss1, Raise e) => (ss1, Raise e)
  | (ss1, Ok _) =>
  match effect (handle_close PgCursor) (step (Closing PgCursor) ss1) with
  | (ss2, Raise e) => (ss2, Raise e)
  | (ss2, Ok _) => effect (handle_close PgConn) (step (Closing PgConn) ss2)
  end end.

(** The [try] block of [main] (lines 451-459): whether [benchmark] was
    bound, and the outcome. *)
Definition main_body (ss : Session) : Session * (bool * Result unit) :=
  match __init__ ss with
  | (ss1, Raise e) => (ss1, (false, Raise e))
  | (ss1, Ok _) =>
      match benchmark_run_benchmark 3 ss1 with
      | (ss2, Raise e) => (ss2, (true, Raise e))
      | (ss2, Ok results) =>
          let '(ss3, r) := generate_report 3 results ss2 in
          (ss3, (true, r))
      end
  end.

(** [main()]: the handler logs and raises again; the [finally] block
    closes the benchmark when it was bound, and an exception of [close]
    replaces the one that was being raised. *)
Definition main (ss : Session) : Session * Result unit :=
  let '(ss1, (bound, r)) := main_body ss in
  let ss2 :=
    match r with
    | Ok _ => ss1
    | Raise e => step (LogError e) ss1
    end in
  if bound then
    match close ss2 with
    | (ss3, Raise e) => (ss3, Raise e)
    | (ss3, Ok _) => (ss3, r)
    end
  else (ss2, r).

(** The steps of a run, from the trace. *)
Definition steps_since (ss ss' : Session) : list Step :=
  skipn (List.length (trace ss)) (trace ss').

Definition queries_called (steps : list Step) : Z :=
  py_len (filter (fun s => match s with Bench EvQuery => true | _ => false end)
            steps).

Definition seconds_slept (steps : list Step) : Z :=
  fold_right (fun s acc => match s with
                           | Bench (EvSleep secs) => secs + acc
                           | _ => acc
                           end) 0 steps.

Definition is_closing (h : Handle) (s : Step) : bool :=
  match s, h with
  | Closing MongoClientHandle, MongoClientHandle => true
  | Closing PgConn, PgConn => true
  | Closing PgCursor, PgCursor => true
  | _, _ => false
  end.

Definition is_opened (h : Handle) (s : Step) : bool :=
  match s, h with
  | Opened MongoClientHandle, MongoClientHandle => true
  | Opened PgConn, PgConn => true
  | Opened PgCursor, PgCursor => true
  | _, _ => false
  end.

Definition count_steps (p : Step -> bool) (steps : list Step) : Z :=
  py_len (filter p steps).

Definition reports_written (steps : list Step) : list Report :=
  flat_map (fun s => match s with WriteReport r => [r] | _ => [] end) steps.

End Suite.

(** The events of [n] iterations that follow one another: the query, then
    the cooldown of one second. *)
Definition rounds (n : Z) : list Event :=
  List.concat (repeat [EvQuery; EvSleep 1] (Z.to_nat n)).

(** One comparison for each category: its MongoDB test against its
    PostgreSQL test. *)
Definition same_operation_findings (results : Results)
  : list Reference.Finding :=
  flat_map (fun ct => match snd ct with
                      | [a; b] => Reference.compare_pair (fst ct) a b
                      | _ => []
                      end) results.

(** What the report of a suite that ran to its end says. *)
Definition full_report (rep : Report) : Prop :=
  test_categories rep
  = ["simple_queries"; "text_search"; "aggregations"; "joins"]%string
  /\ total_queries_executed rep = 8
  /\ iterations_per_query rep = 3
  /\ _generate_findings (detailed_results rep) = Ok (overall_findings rep).

End BenchmarkSuite.

(** Servers for the suite: every query takes one second. *)
Module SuiteScenario.

Import DatabaseBenchmark BenchmarkSuite.

Definition one_second_query (w : Scenario.BenchWorld)
  : Scenario.BenchWorld * Result unit :=
  ({| Scenario.clock := (Scenario.clock w + 1)%Q;
      Scenario.served := S (Scenario.served w) |}, Ok tt).

Definition available (w : Scenario.BenchWorld)
  : Scenario.BenchWorld * Result unit := (w, Ok tt).

Definition refused (w : Scenario.BenchWorld)
  : Scenario.BenchWorld * Result unit :=
  (w, Raise (OtherException "OperationalError")).

Definition now (w : Scenario.BenchWorld) : string := "2024-01-01T00:00:00".

(** [main] with PostgreSQL reachable through [pg_connect]. *)
Definition main_with (pg_connect : Query Scenario.BenchWorld) :=
  main Scenario.bench_time Scenario.bench_sleep
    one_second_query one_second_query one_second_query one_second_query
    one_second_query one_second_query one_second_query one_second_query
    available pg_connect available now
    (fun _ => available) (fun _ => available) (fun _ => available).

(** The suite, three iterations, from the start of the clock. *)
Definition suite_run :=
  run_benchmark Scenario.bench_time Scenario.bench_sleep
    one_second_query one_second_query one_second_query one_second_query
    one_second_query one_second_query one_second_query one_second_query
    default_iterations Scenario.bench_start.

Definition suite_results : Results :=
  match snd suite_run with
  | Ok results => results
  | Raise _ => []
  end.

Definition start : Session Scenario.BenchWorld :=
  {| outside := {| Scenario.clock := 0; Scenario.served := 0 |};
     trace := [] |}.

End SuiteScenario.

(** ** scripts/mongodb-script.py: the documents, the indexes and [main] *)

Module MongoImportScript.

Import MongoDBImporter.

Local Open Scope Z_scope.

(** A cell of a column read with [dtype=str]: a string, or NaN where the
    file has nothing. *)
Inductive Cell :=
| NaN
| Str (s : string).

(** A row of [sentiment_analysis_results_improved.csv]; the two score
    columns are read with [dtype=float], NaN being [None]. *)
Record CsvRow := {
  row_ids : Cell;
  row_target : Cell;
  row_date : Cell;
  row_user : Cell;
  row_flag : Cell;
  row_text : Cell;
  row_cleaned_text : Cell;
  row_original_sentiment : Cell;
  row_textblob_sentiment : Cell;
  row_vader_sentiment : Cell;
  row_textblob_polarity : option Q;
  row_vader_compound : option Q
}.

(** The dictionary [prepare_document] builds, its nested dictionaries
    flattened. *)
Record Document := {
  tweet_id : option Z;
  date : string;
  username : string;
  flag : string;
  original_text : string;
  cleaned_text : string;
  original_sentiment : option string;
  target : option Z;
  textblob_sentiment : string;
  vader_sentiment : string;
  textblob_polarity : Q;
  vader_compound : Q
}.

(** [pd.notna(cell)] *)
Definition notna (c : Cell) : bool :=
  match c with
  | NaN => false
  | Str _ => true
  end.

(** [str(cell)] *)
Definition py_str (c : Cell) : string :=
  match c with
  | NaN => "nan"
  | Str s => s
  end.

(** [cell == s] *)
Definition cell_eqb (c : Cell) (s : string) : bool :=
  match c with
  | NaN => false
  | Str t => String.eqb t s
  end.

(** The index specifications of [create_indexes]: the field, the
    direction, and the [unique] keyword when it is passed. *)
Inductive Direction := Ascending | Text.

Record IndexSpec := {
  index_field : string;
  index_direction : Direction;
  index_unique : option bool
}.

Section Script.

Variables Server Client Collection : Type.

Variable MongoClient : Server -> Server * Result Client.
Variable server_info : Client -> Server -> Server * Result unit.
Variable get_collection : Client -> Collection.
Variable sleep : Z -> Server -> Server.
Variable bulk_write :
  Collection -> list (WriteOp Document) -> Server
  -> Server * Result BulkWriteResult.

(** [int(float(s))] *)
Variable int_of_float : string -> Result Z.
(** [client.list_database_names()] *)
Variable list_database_names : Client -> Server -> Server * Result (list string).
(** [client.drop_database(name)] *)
Variable drop_database : Client -> string -> Server -> Server * Result unit.
(** [collection.create_index([(field, direction)], ...)] *)
Variable create_index :
  Collection -> IndexSpec -> Server -> Server * Result unit.
(** [collection.count_documents({})] *)
Variable count_documents : Collection -> Server -> Server * Result Z.
(** [client.close()] *)
Variable client_close : Client -> Server -> Server * Result unit.
(** [pd.read_csv("./data/sentiment_analysis_results_improved.csv", ...)] *)
Variable read_csv : Server -> Server * Result (list CsvRow).
(** [datetime.now()], in seconds *)
Variable now : Server -> Q.

(** [int(float(cell)) if pd.notna(cell) else None] *)
Definition int_or_none (c : Cell) : Result (option Z) :=
  match c with
  | NaN => Ok None
  | Str s => n <- int_of_float s ;; Ok (Some n)
  end.

(** [prepare_document(row)]: [None] for the header row, for a row without
    an id and whenever anything raises. *)
Definition prepare_document (row : CsvRow) : option Document :=
  if cell_eqb (row_ids row) "ids" then None
  else
    match
      (tweet_id <- int_or_none (row_ids row) ;;
       target <- int_or_none (row_target row) ;;
       Ok {| tweet_id := tweet_id;
             date := py_str (row_date row);
             username := py_str (row_user row);
             flag := py_str (row_flag row);
             original_text := py_str (row_text row);
             cleaned_text := py_str (row_cleaned_text row);
             original_sentiment :=
               if notna (row_original_sentiment row)
               then Some (py_str (row_original_sentiment row))
               else None;
             target := target;
             textblob_sentiment := py_str (row_textblob_sentiment row);
             vader_sentiment := py_str (row_vader_sentiment row);
             textblob_polarity := dict_get (row_textblob_polarity row) 0%Q;
             vader_compound := dict_get (row_vader_compound row) 0%Q |})
    with
    | Ok document =>
        match tweet_id document with
        | Some _ => Some document
        | None => None
        end
    | Raise _ => None
    end.

(** What the script does to the outside, in order. *)
Inductive Step :=
| Importer (ev : Event Document)   (* an event of [connect] or of the load *)
| ListDatabases
| DropDatabase (name : string)
| ReadCsv
| CreateIndex (spec : IndexSpec)
| CountDocuments
| CloseClient (c : Client)
| LogError (e : PyExn).

Record Session := {
  importer : State Server Client Collection Document;
  trace : list Step
}.

Definition step (s : Step) (ss : Session) : Session :=
  {| importer := importer ss; trace := trace ss ++ [s] |}.

(** A method of the importer of the earlier sections, inside a session:
    its events are appended to the trace. *)
Definition importer_call {A : Type}
    (m : State Server Client Collection Document
         -> State Server Client Collection Document * Result A)
    (ss : Session) : Session * Result A :=
  let '(st, r) := m (importer ss) in
  ({| importer := st;
      trace := trace ss ++ map Importer (events_since (importer ss) st) |},
   r).

(** A call to the server, recorded as [s]. *)
Definition server_call {A : Type} (s : Step)
    (f : Server -> Server * Result A) (ss : Session) : Session * Result A :=
  let '(w, r) := f (server (importer ss)) in
  ({| importer := set_server w (importer ss); trace := trace ss ++ [s] |}, r).

(** [delete_database(self)]; the handler logs and raises again. *)
Definition delete_database (db_name : string) (ss : Session)
  : Session * Result unit :=
  match client (importer ss) with
  | None => (ss, Raise AttributeError)
  | Some c =>
      match server_call ListDatabases (list_database_names c) ss with
      | (ss1, Raise e) => (ss1, Raise e)
      | (ss1, Ok names) =>
          if existsb (String.eqb db_name) names
          then server_call (DropDatabase db_name) (drop_database c db_name)
                 ss1
          else (ss1, Ok tt)
      end
  end.

Definition indexes : list IndexSpec :=
  [ {| index_field := "tweet_id"; index_direction := Ascending;
       index_unique := Some true |};
    {| index_field := "date"; index_direction := Ascending;
       index_unique := Some false |};
    {| index_field := "user.username"; index_direction := Ascending;
       index_unique := Some false |};
    {| index_field := "sentiment_analysis.target";
       index_direction := Ascending; index_unique := Some false |};
    {| index_field := "content.cleaned_text"; index_direction := Text;
       index_unique := None |} ].

(** [for field, direction, unique in indexes] (lines 113-122) *)
Fixpoint create_indexes_loop (specs : list IndexSpec) (ss : Session)
  : Session * Result unit :=
  match specs with
  | [] => (ss, Ok tt)
  | spec :: rest =>
      match collection (importer ss) with
      | None => (ss, Raise AttributeError)
      | Some coll =>
          match server_call (CreateIndex spec) (create_index coll spec) ss
          with
          | (ss1, Raise e) => (ss1, Raise e)
          | (ss1, Ok _) => create_indexes_loop rest ss1
          end
      end
  end.

(** [create_indexes(self)] *)
Definition create_indexes (ss : Session) : Session * Result unit :=
  create_indexes_loop indexes ss.

Definition DB_NAME : string := "sentiment_analysis".
Definition BATCH_SIZE : Z := 5000.

(** The documents [main] prepares (lines 201-207). *)
Fixpoint prepare_documents (df : list CsvRow) : list (option Document) :=
  match df with
  | [] => []
  | row :: rest =>
      match prepare_document row with
      | Some doc => Some doc :: prepare_documents rest
      | None => prepare_documents rest
      end
  end.

(** The [try] block of [main] (lines 177-229), from [start_time]. *)
Definition main_body (start_time : Q) (ss : Session)
  : Session * Result unit :=
  match importer_call (connect MongoClient server_info get_collection sleep)
          ss with
  | (ss1, Raise e) => (ss1, Raise e)
  | (ss1, Ok _) =>
  match delete_database DB_NAME ss1 with
  | (ss2, Raise e) => (ss2, Raise e)
  | (ss2, Ok _) =>
  match server_call ReadCsv read_csv ss2 with
  | (ss3, Raise e) => (ss3, Raise e)
  | (ss3, Ok df) =>
  let documents := prepare_documents df in
  match importer_call (bulk_insert_documents bulk_write documents BATCH_SIZE)
          ss3 with
  | (ss4, Raise e) => (ss4, Raise e)
  | (ss4, Ok (total_inserted, failed_inserts)) =>
  match (if 0 <? total_inserted then create_indexes ss4 else (ss4, Ok tt))
  with
  | (ss5, Raise e) => (ss5, Raise e)
  | (ss5, Ok _) =>
  let end_time := now (server (importer ss5)) in
  let processing_time := (end_time - start_time)%Q in
  match collection (importer ss5) with
  | None => (ss5, Raise AttributeError)
  | Some coll =>
  match server_call CountDocuments (count_documents coll) ss5 with
  | (ss6, Raise e) => (ss6, Raise e)
  | (ss6, Ok doc_count) =>
      if Qeq_bool processing_time 0
      then (ss6, Raise ZeroDivisionError)
      else (ss6, Ok tt)
  end end end end end end end.

(** [main()]: the importer is always bound when the [finally] block runs,
    and [importer.client] is [None] until [MongoClient] has returned. *)
Definition main (w : Server) : Session * Result unit :=
  let start_time := now w in
  let ss := {| importer := {| server := w; client := None;
                              collection := None; log := [] |};
               trace := [] |} in
  let '(ss1, r) := main_body start_time ss in
  let ss2 :=
    match r with
    | Ok _ => ss1
    | Raise e => step (LogError e) ss1
    end in
  match client (importer ss2) with
  | None => (ss2, Raise AttributeError)
  | Some c =>
      match server_call (CloseClient c) (client_close c) ss2 with
      | (ss3, Raise e) => (ss3, Raise e)
      | (ss3, Ok _) => (ss3, r)
      end
  end.

(** *** What a run shows from outside *)

Definition is_close (s : Step) : bool :=
  match s with CloseClient _ => true | _ => false end.

Definition is_create_index (s : Step) : bool :=
  match s with CreateIndex _ => true | _ => false end.

(** The batches written, in order. *)
Definition batches_written (steps : list Step)
  : list (list (WriteOp Document)) :=
  flat_map (fun s => match s with
                     | Importer (EvBulkWrite batch) => [batch]
                     | _ => []
                     end) steps.

End Script.

(** The documents of the rows that [prepare_document] keeps. *)
Definition prepared (int_of_float : string -> Result Z) (df : list CsvRow)
  : list Document :=
  flat_map (fun row => match prepare_document int_of_float row with
                       | Some doc => [doc]
                       | None => []
                       end) df.

End MongoImportScript.

(** A server for the import script: it counts the documents it holds. *)
Module MongoScriptScenario.

Import MongoDBImporter MongoImportScript.

Local Open Scope Z_scope.

Definition reachable (w : nat) : nat * Result unit := (w, Ok tt).

Definition answering (c : unit) (w : nat) : nat * Result unit := (w, Ok tt).

Definition the_collection (c : unit) : unit := tt.

Definition no_sleep (secs : Z) (w : nat) : nat := w.

(** Every document of a batch is stored. *)
Definition accepting (coll : unit) (batch : list (WriteOp Document))
    (w : nat) : nat * Result BulkWriteResult :=
  ((w + List.length batch)%nat, Ok {| inserted_count := py_len batch |}).

(** The last document of every batch is rejected, the others are stored. *)
Definition rejecting_last (coll : unit) (batch : list (WriteOp Document))
    (w : nat) : nat * Result BulkWriteResult :=
  ((w + (List.length batch - 1))%nat,
   Raise (BulkWriteError
            {| nInserted := Some (py_len batch - 1);
               writeErrors :=
                 [(py_len batch - 1, "E11000 duplicate key error"%string)] |})).

(** Decimal numbers only. *)
Definition int_of_decimal (s : string) : Result Z :=
  match NilEmpty.uint_of_string s with
  | Some u => Ok (Z.of_uint u)
  | None => Raise ValueError
  end.

Definition database_names (c : unit) (w : nat)
  : nat * Result (list string) :=
  (w, Ok ["admin"; "sentiment_analysis"]%string).

Definition dropping (c : unit) (name : string) (w : nat)
  : nat * Result unit := (O, Ok tt).

Definition indexing (coll : unit) (spec : IndexSpec) (w : nat)
  : nat * Result unit := (w, Ok tt).

Definition counting (coll : unit) (w : nat) : nat * Result Z :=
  (w, Ok (Z.of_nat w)).

Definition closing (c : unit) (w : nat) : nat * Result unit := (w, Ok tt).

Definition csv_row (id tgt : Cell) : CsvRow :=
  {| row_ids := id; row_target := tgt; row_date := Str "2009-04-06 22:19:45";
     row_user := Str "u"; row_flag := Str "NO_QUERY"; row_text := Str "t";
     row_cleaned_text := NaN; row_original_sentiment := Str "negative";
     row_textblob_sentiment := Str "neutral";
     row_vader_sentiment := Str "neutral";
     row_textblob_polarity := None; row_vader_compound := Some (1 # 2)%Q |}.

(** A header row, two good rows, a row without an id and a row whose
    target is no number. *)
Definition rows : list CsvRow :=
  [ csv_row (Str "ids") (Str "target");
    csv_row (Str "1467810369") (Str "0");
    csv_row NaN (Str "4");
    csv_row (Str "1467810672") (Str "4");
    csv_row (Str "1467810917") (Str "four") ].

Definition reading (w : nat) : nat * Result (list CsvRow) := (w, Ok rows).

(** A clock that advances with the documents stored. *)
Definition clock (w : nat) : Q := inject_Z (Z.of_nat w).

(** [main] against a server whose [bulk_write] is [writes]. *)
Definition main_with
    (writes : unit -> list (WriteOp Document) -> nat
              -> nat * Result BulkWriteResult) :=
  main reachable answering the_collection no_sleep writes int_of_decimal
       database_names dropping indexing counting closing reading clock.

End MongoScriptScenario.

(** ** scripts/postgres-script.py: [create_database] and [close] *)

Module PostgresScript.

Import PostgresImporter.

Local Open Scope Z_scope.

(** The statements [create_database] sends (lines 54-62). *)
Inductive Statement :=
| TerminateBackends (dbname : string)  (* [SELECT pg_terminate_backend ...] *)
| DropDatabaseIfExists (dbname : string)
| CreateDatabase (dbname : string).

Section Script.

Variables Server Conn Cursor : Type.

Variable psycopg2_connect : string -> Server -> Server * Result Conn.
Variable conn_cursor : Conn -> Server -> Server * Result Cursor.
Variable sleep : Z -> Server -> Server.
(** [cursor.execute(statement)] *)
Variable cursor_execute :
  Cursor -> Statement -> Server -> Server * Result unit.
(** [cursor.close()] *)
Variable cursor_close : Cursor -> Server -> Server * Result unit.
(** [conn.close()] *)
Variable conn_close : Conn -> Server -> Server * Result unit.

(** What the importer does to the outside, in order. *)
Inductive Step :=
| Importer (ev : Event)                     (* an event of [connect] *)
| Execute (cur : Cursor) (s : Statement)
| CloseCursor (cur : Cursor)
| CloseConn (c : Conn).

Record Session := {
  importer : State Server Conn Cursor;
  trace : list Step
}.

(** [self.connect(database)] inside a session. *)
Definition importer_connect (database : string) (ss : Session)
  : Session * Result unit :=
  let '(st, r) :=
    connect psycopg2_connect conn_cursor sleep database (importer ss) in
  ({| importer := st;
      trace := trace ss ++ map Importer (events_since (importer ss) st) |},
   r).

(** A call to the server, recorded as [s]. *)
Definition server_call {A : Type} (s : Step)
    (f : Server -> Server * Result A) (ss : Session) : Session * Result A :=
  let '(w, r) := f (server (importer ss)) in
  ({| importer := set_server w (importer ss); trace := trace ss ++ [s] |}, r).

(** [self.cursor.execute(statement)] *)
Definition execute (s : Statement) (ss : Session) : Session * Result unit :=
  match cursor (importer ss) with
  | None => (ss, Raise AttributeError)
  | Some cur => server_call (Execute cur s) (cursor_execute cur s) ss
  end.

(** [close(self)]: the handles are closed, and stay in the importer. *)
Definition close (ss : Session) : Session * Result unit :=
  match
    match cursor (importer ss) with
    | Some cur => server_call (CloseCursor cur) (cursor_close cur) ss
    | None => (ss, Ok tt)
    end
  with
  | (ss1, Raise e) => (ss1, Raise e)
  | (ss1, Ok _) =>
      match conn (importer ss1) with
      | Some c => server_call (CloseConn c) (conn_close c) ss1
      | None => (ss1, Ok tt)
      end
  end.

(** [create_database(self)] for [self.connection_params["dbname"] = dbname];
    the handler logs and raises again. *)
Definition create_database (dbname : string) (ss : Session)
  : Session * Result unit :=
  match importer_connect default_database ss with
  | (ss1, Raise e) => (ss1, Raise e)
  | (ss1, Ok _) =>
  match execute (TerminateBackends dbname) ss1 with
  | (ss2, Raise e) => (ss2, Raise e)
  | (ss2, Ok _) =>
  match execute (DropDatabaseIfExists dbname) ss2 with
  | (ss3, Raise e) => (ss3, Raise e)
  | (ss3, Ok _) =>
  match execute (CreateDatabase dbname) ss3 with
  | (ss4, Raise e) => (ss4, Raise e)
  | (ss4, Ok _) =>
  match close ss4 with
  | (ss5, Raise e) => (ss5, Raise e)
  | (ss5, Ok _) => importer_connect dbname ss5
  end end end end end.

(** [PostgresImporter(dbname, ...)]: no connection, no cursor. *)
Definition fresh (w : Server) : Session :=
  {| importer := {| server := w; conn := None; autocommit := false;
                    cursor := None; log := [] |};
     trace := [] |}.

(** The connect events among the steps. *)
Fixpoint connect_events (steps : list Step) : list Event :=
  match steps with
  | [] => []
  | Importer ev :: rest => ev :: connect_events rest
  | _ :: rest => connect_events rest
  end.

(** The steps that are no connect events. *)
Fixpoint server_steps (steps : list Step) : list Step :=
  match steps with
  | [] => []
  | Importer _ :: rest => server_steps rest
  | s :: rest => s :: server_steps rest
  end.

End Script.

End PostgresScript.

(** A PostgreSQL server for [create_database]: a connection and a cursor
    are named after their database. *)
Module PostgresScriptScenario.

Import PostgresImporter PostgresScript.

Definition reachable (database : string) (w : nat) : nat * Result string :=
  (w, Ok database).

(** Only the default database can be reached. *)
Definition only_default (database : string) (w : nat)
  : nat * Result string :=
  if String.eqb database default_database then (w, Ok database)
  else (w, Raise (OtherException "OperationalError")).

Definition cursor_of (c : string) (w : nat) : nat * Result string :=
  (w, Ok c).

Definition no_sleep (secs : Z) (w : nat) : nat := w.

Definition executing (cur : string) (s : Statement) (w : nat)
  : nat * Result unit := (S w, Ok tt).

Definition closing (handle : string) (w : nat) : nat * Result unit :=
  (w, Ok tt).

(** [create_database] for the database of the script, on a fresh
    importer. *)
Definition create_with (pg_connect : string -> nat -> nat * Result string) :=
  create_database pg_connect cursor_of no_sleep executing closing closing
    "sentiment_analysis" (fresh string string O).

End PostgresScriptScenario.

(** * Properties *)

(** ** Ranges and slices *)

Section Batching.

Variable A : Type.
Variable l : list A.
Variable B : Z.
Hypothesis B_pos : 0 < B.

Local Abbreviation N := (py_len l).
Local Abbreviation slice := (fun i => py_slice l i (i + B)).

Lemma range_from_stop : forall fuel i,
  N <= i -> range_from fuel i N B = [].
Proof.
  intros [|fuel] i Hi; simpl; [reflexivity|].
  destruct (0 <? B) eqn:HB; [|apply Z.ltb_ge in HB; lia].
  destruct (i <? N) eqn:Hlt; [apply Z.ltb_lt in Hlt; lia|reflexivity].
Qed.

Lemma range_from_step : forall fuel i,
  i < N ->
  range_from (S fuel) i N B = i :: range_from fuel (i + B) N B.
Proof.
  intros fuel i Hi; simpl.
  destruct (0 <? B) eqn:HB; [|apply Z.ltb_ge in HB; lia].
  destruct (i <? N) eqn:Hlt; [reflexivity|apply Z.ltb_ge in Hlt; lia].
Qed.

(** The slices taken from position [i] on are the rest of the list. *)
Lemma slices_cover : forall fuel i,
  0 <= i -> (Z.to_nat (N - i) <= fuel)%nat ->
  List.concat (map slice (range_from fuel i N B)) = skipn (Z.to_nat i) l.
Proof.
  induction fuel as [|fuel IH]; intros i Hi Hfuel.
  - simpl. symmetry. apply skipn_all2. unfold py_len in Hfuel. lia.
  - destruct (Z_lt_le_dec i N) as [Hlt|Hge].
    + rewrite range_from_step by assumption. simpl.
      rewrite IH by lia.
      unfold py_slice.
      replace (i + B - i) with B by lia.
      replace (Z.to_nat (i + B)) with (Z.to_nat B + Z.to_nat i)%nat by lia.
      rewrite <- skipn_skipn. apply firstn_skipn.
    + rewrite range_from_stop by assumption. simpl.
      symmetry. apply skipn_all2. unfold py_len in Hge. lia.
Qed.

(** Every slice holds at least one element and at most [B]. *)
Lemma slices_bounded : forall fuel i,
  0 <= i ->
  Forall (fun b => 0 < py_len b <= B) (map slice (range_from fuel i N B)).
Proof.
  induction fuel as [|fuel IH]; intros i Hi; [constructor|].
  destruct (Z_lt_le_dec i N) as [Hlt|Hge].
  - rewrite range_from_step by assumption. simpl.
    constructor; [|apply IH; lia].
    unfold py_slice, py_len.
    rewrite length_firstn, length_skipn.
    unfold py_len in Hlt. lia.
  - rewrite range_from_stop by assumption. constructor.
Qed.

(** The number of start indices is the ceiling of the remaining length
    over the step. *)
Lemma range_from_count : forall fuel i,
  i <= N -> (Z.to_nat (N - i) <= fuel)%nat ->
  py_len (range_from fuel i N B) = (N - i + B - 1) / B.
Proof.
  induction fuel as [|fuel IH]; intros i Hi Hfuel.
  - simpl. change (py_len (@nil Z)) with 0.
    assert (N = i) by lia. subst i.
    replace (N - N + B - 1) with (B - 1) by lia.
    symmetry. apply Z.div_small. lia.
  - destruct (Z_lt_le_dec i N) as [Hlt|Hge].
    + rewrite range_from_step by assumption.
      unfold py_len at 1; simpl List.length. rewrite Nat2Z.inj_succ.
      fold (py_len (range_from fuel (i + B) N B)).
      replace (N - i + B - 1) with ((N - i - 1) + 1 * B) by lia.
      rewrite Z.div_add by lia.
      destruct (Z_lt_le_dec N (i + B)) as [Hlast|Hmore].
      * rewrite range_from_stop by lia. change (py_len (@nil Z)) with 0.
        rewrite Z.div_small by lia. reflexivity.
      * rewrite IH by lia.
        replace (N - (i + B) + B - 1) with (N - i - 1) by lia. lia.
    + rewrite range_from_stop by assumption.
      change (py_len (@nil Z)) with 0.
      assert (N = i) by lia. subst i.
      replace (N - N + B - 1) with (B - 1) by lia.
      symmetry. apply Z.div_small. lia.
Qed.

End Batching.

Lemma py_len_nonneg : forall (A : Type) (l : list A), 0 <= py_len l.
Proof. intros; unfold py_len; lia. Qed.

Lemma py_len_app : forall (A : Type) (l1 l2 : list A),
  py_len (l1 ++ l2) = py_len l1 + py_len l2.
Proof. intros; unfold py_len; rewrite length_app; lia. Qed.

Lemma total_size_concat : forall (A : Type) (batches : list (list A)),
  total_size batches = py_len (List.concat batches).
Proof.
  induction batches as [|b bs IH]; simpl; [reflexivity|].
  rewrite py_len_app, IH. reflexivity.
Qed.

(** ** The bulk loader of scripts/mongodb-script.py *)

Module MongoDBImporterFacts.

Import MongoDBImporter.

Section Facts.

Variables Server Client Collection Doc : Type.
Variable bulk_write :
  Collection -> list (WriteOp Doc) -> Server -> Server * Result BulkWriteResult.

Local Abbreviation State := (State Server Client Collection Doc).

Lemma events_since_app : forall (st st' : State) evs,
  log st' = log st ++ evs -> events_since st st' = evs.
Proof.
  intros st st' evs H. unfold events_since. rewrite H.
  rewrite skipn_app, skipn_all, Nat.sub_diag. reflexivity.
Qed.

Lemma collection_bulk_write_connected : forall (st : State) c batch w r,
  collection st = Some c ->
  bulk_write c batch (server st) = (w, r) ->
  collection_bulk_write bulk_write batch st
  = (emit (EvBulkWrite batch) (set_server w st), r).
Proof.
  intros st c batch w r Hc Hbw. unfold collection_bulk_write.
  rewrite Hc, Hbw. reflexivity.
Qed.

(** The loop over a list of start indices that is split in two runs the
    first part and, unless that raised, goes on with the second part from
    the totals and the state the first part left. *)
Lemma insert_loop_app : forall operations batch_size pre post ins failed
    (st : State),
  insert_loop bulk_write operations batch_size (pre ++ post) ins failed st
  = match insert_loop bulk_write operations batch_size pre ins failed st with
    | (st1, Ok (ins1, failed1)) =>
        insert_loop bulk_write operations batch_size post ins1 failed1 st1
    | (st1, Raise e) => (st1, Raise e)
    end.
Proof.
  induction pre as [|i pre IH]; intros post ins failed st; simpl.
  - reflexivity.
  - destruct (collection_bulk_write bulk_write
                (py_slice operations i (i + batch_size)) st) as [st1 [res|e]].
    + apply IH.
    + destruct e; try reflexivity. apply IH.
Qed.

Lemma first_fatal_none_length : forall c batches w,
  first_fatal (replies bulk_write c batches w) = None ->
  List.length (replies bulk_write c batches w) = List.length batches.
Proof.
  induction batches as [|b batches IH]; intros w H; simpl in *.
  - reflexivity.
  - destruct (bulk_write c b w) as [w' [res|e]]; simpl in *.
    + f_equal. apply IH. assumption.
    + destruct e; simpl in *; try discriminate; f_equal; apply IH; assumption.
Qed.

Lemma replies_length_le : forall c batches w,
  (List.length (replies bulk_write c batches w) <= List.length batches)%nat.
Proof.
  induction batches as [|b batches IH]; intros w; simpl.
  - lia.
  - destruct (bulk_write c b w) as [w' [res|e]]; simpl.
    + specialize (IH w'). lia.
    + destruct e; simpl; try lia; specialize (IH w'); lia.
Qed.

(** The result and the log of the loop, read off the replies of the
    server. *)
Lemma insert_loop_replies : forall operations batch_size starts ins failed
    (st : State) c,
  collection st = Some c ->
  let batches :=
    map (fun i => py_slice operations i (i + batch_size)) starts in
  let rs := replies bulk_write c batches (server st) in
  let out :=
    insert_loop bulk_write operations batch_size starts ins failed st in
  log (fst out)
  = log st ++ map (@EvBulkWrite Doc) (firstn (List.length rs) batches)
  /\ snd out
     = match first_fatal rs with
       | Some e => Raise e
       | None =>
           Ok (ins + inserted_by_results rs,
               failed + (size_of_partial_failures batches rs
                         - inserted_by_partial_failures rs))
       end.
Proof.
  induction starts as [|i starts IH]; intros ins failed st c Hc; simpl.
  - rewrite app_nil_r. split; [reflexivity|]. do 2 f_equal; lia.
  - destruct (bulk_write c (py_slice operations i (i + batch_size))
                (server st)) as [w r] eqn:Hbw.
    rewrite collection_bulk_write_connected with (c := c) (w := w) (r := r)
      by assumption.
    set (st1 := emit (EvBulkWrite (py_slice operations i (i + batch_size)))
                  (set_server w st)).
    assert (Hc1 : collection st1 = Some c) by exact Hc.
    assert (Hlog : forall evs,
               log st1 ++ evs
               = log st
                 ++ EvBulkWrite (py_slice operations i (i + batch_size))
                 :: evs).
    { intros evs. unfold st1; simpl. rewrite <- app_assoc. reflexivity. }
    destruct r as [res|e].
    + simpl. destruct (IH (ins + inserted_count res) failed st1 c Hc1)
        as [IHlog IHres].
      simpl in IHlog, IHres. rewrite IHlog, IHres, Hlog.
      split; [reflexivity|].
      destruct (first_fatal (replies bulk_write c _ w)); [reflexivity|].
      do 2 f_equal; lia.
    + destruct e as [details| | | | |name]; simpl;
        try (split; reflexivity).
      destruct (IH ins
                  (failed
                   + (py_len (py_slice operations i (i + batch_size))
                      - dict_get (nInserted details) 0)) st1 c Hc1)
        as [IHlog IHres].
      simpl in IHlog, IHres. rewrite IHlog, IHres, Hlog.
      split; [reflexivity|].
      destruct (first_fatal (replies bulk_write c _ w)); [reflexivity|].
      do 2 f_equal; lia.
Qed.

Lemma insert_loop_disconnected : forall operations batch_size starts ins
    failed (st : State),
  collection st = None ->
  insert_loop bulk_write operations batch_size starts ins failed st
  = match starts with
    | [] => (st, Ok (ins, failed))
    | _ :: _ => (st, Raise AttributeError)
    end.
Proof.
  intros operations batch_size [|i starts] ins failed st Hc; simpl.
  - reflexivity.
  - unfold collection_bulk_write. rewrite Hc. reflexivity.
Qed.

Lemma bulk_insert_documents_loop : forall documents batch_size (st : State),
  batch_size <> 0 ->
  bulk_insert_documents bulk_write documents batch_size st
  = insert_loop bulk_write
      (map (@InsertOne Doc) (valid_documents documents)) batch_size
      (py_range 0 (py_len (map (@InsertOne Doc) (valid_documents documents)))
         batch_size) 0 0 st.
Proof.
  intros documents batch_size st HB. unfold bulk_insert_documents.
  destruct (batch_size =? 0) eqn:E; [apply Z.eqb_eq in E; lia|reflexivity].
Qed.

(** The counts of a load never exceed the records its batches hold, as long
    as every reply carries counts between zero and the batch size. *)
Lemma tally_bounded : forall batches rs,
  Forall2 (@plausible_reply Doc) (firstn (List.length rs) batches) rs ->
  0 <= inserted_by_results rs
  /\ 0 <= size_of_partial_failures batches rs
          - inserted_by_partial_failures rs
  /\ inserted_by_results rs
     + (size_of_partial_failures batches rs
        - inserted_by_partial_failures rs)
     <= total_size batches.
Proof.
  induction batches as [|b batches IH]; intros rs H.
  - rewrite firstn_nil in H. inversion H; subst; simpl. lia.
  - destruct rs as [|r rs]; simpl in *.
    + pose proof (py_len_nonneg b).
      assert (0 <= total_size batches).
      { clear. induction batches as [|x xs IHx]; simpl; [lia|].
        pose proof (py_len_nonneg x). lia. }
      lia.
    + inversion H as [|? ? ? ? Hr Hrest]; subst.
      specialize (IH rs Hrest).
      destruct r as [res|e]; simpl in Hr.
      * lia.
      * destruct e; simpl; try (pose proof (py_len_nonneg b); lia).
Qed.

Lemma batches_of_cover : forall (operations : list (WriteOp Doc)) batch_size,
  0 < batch_size ->
  List.concat (batches_of operations batch_size) = operations.
Proof.
  intros operations batch_size HB. unfold batches_of, py_range.
  pose proof (py_len_nonneg operations) as HN.
  rewrite slices_cover; [reflexivity|assumption|lia|lia].
Qed.

Lemma batches_of_count : forall (operations : list (WriteOp Doc)) batch_size,
  0 < batch_size ->
  py_len (batches_of operations batch_size)
  = (py_len operations + batch_size - 1) / batch_size.
Proof.
  intros operations batch_size HB.
  unfold batches_of, py_range, py_len at 1.
  rewrite length_map.
  fold (py_len (range_from (Z.abs_nat (py_len operations - 0)) 0
                  (py_len operations) batch_size)).
  pose proof (py_len_nonneg operations) as HN.
  rewrite range_from_count; [|assumption|lia|lia].
  f_equal. lia.
Qed.

(** The totals a load returns, read off the replies of the server. *)
Lemma load_totals :
  forall (documents : list (option Doc)) (batch_size : Z) (st : State)
         (c : Collection) (ins failed : Z),
    collection st = Some c ->
    let operations := map (@InsertOne Doc) (valid_documents documents) in
    let batches := batches_of operations batch_size in
    let rs := replies bulk_write c batches (server st) in
    snd (bulk_insert_documents bulk_write documents batch_size st)
    = Ok (ins, failed) ->
    List.length rs = List.length batches
    /\ ins = inserted_by_results rs
    /\ failed = size_of_partial_failures batches rs
                - inserted_by_partial_failures rs.
Proof.
  intros documents batch_size st c ins failed Hc operations batches rs Hok.
  destruct (Z.eq_dec batch_size 0) as [HB|HB].
  { subst batch_size. unfold bulk_insert_documents in Hok. simpl in Hok.
    discriminate. }
  rewrite bulk_insert_documents_loop in Hok by assumption.
  fold operations in Hok.
  destruct (insert_loop_replies operations batch_size
              (py_range 0 (py_len operations) batch_size) 0 0 st Hc)
    as [_ Hres].
  fold (batches_of operations batch_size) in Hres.
  fold batches in Hres. fold rs in Hres.
  rewrite Hok in Hres.
  destruct (first_fatal rs) eqn:Hff; [discriminate|].
  injection Hres as Hins Hfailed.
  split; [exact (first_fatal_none_length _ _ _ Hff)|].
  lia.
Qed.

(** The totals of a load stay within the number of records submitted, as
    long as every reply carries counts between zero and the batch size. *)
Lemma inserted_plus_failed_bounded :
  forall (documents : list (option Doc)) (batch_size : Z) (st : State)
         (c : Collection) (ins failed : Z),
    0 < batch_size ->
    collection st = Some c ->
    let operations := map (@InsertOne Doc) (valid_documents documents) in
    let batches := batches_of operations batch_size in
    let rs := replies bulk_write c batches (server st) in
    Forall2 (@plausible_reply Doc) (firstn (List.length rs) batches) rs ->
    snd (bulk_insert_documents bulk_write documents batch_size st)
    = Ok (ins, failed) ->
    0 <= ins /\ 0 <= failed
    /\ ins + failed <= py_len (valid_documents documents).
Proof.
  intros documents batch_size st c ins failed HB Hc operations batches rs
         Hplausible Hok.
  destruct (load_totals documents batch_size st Hc Hok)
    as (_ & Hins & Hfailed).
  fold operations in Hins, Hfailed. fold batches in Hins, Hfailed.
  fold rs in Hins, Hfailed.
  destruct (tally_bounded batches Hplausible) as (H1 & H2 & H3).
  assert (Hcover : List.concat batches = operations)
    by (apply batches_of_cover; assumption).
  rewrite total_size_concat, Hcover in H3.
  assert (py_len operations = py_len (valid_documents documents)).
  { unfold operations, py_len. rewrite length_map. reflexivity. }
  lia.
Qed.

Lemma tally_exact : forall batches rs,
  Forall2 (@full_accounting Doc) batches rs ->
  inserted_by_results rs + size_of_partial_failures batches rs
  = total_size batches.
Proof.
  intros batches rs H. induction H as [|b r batches rs Hr _ IH]; simpl.
  - reflexivity.
  - destruct r as [res|e]; simpl in Hr.
    + lia.
    + destruct e; try contradiction. lia.
Qed.

(** When the server accounts for every record of every batch, the totals
    of a load miss the number of submitted records by exactly the records
    that the partly failed batches report as inserted. *)
Lemma inserted_plus_failed_exact :
  forall (documents : list (option Doc)) (batch_size : Z) (st : State)
         (c : Collection) (ins failed : Z),
    0 < batch_size ->
    collection st = Some c ->
    let operations := map (@InsertOne Doc) (valid_documents documents) in
    let batches := batches_of operations batch_size in
    let rs := replies bulk_write c batches (server st) in
    Forall2 (@full_accounting Doc) batches rs ->
    snd (bulk_insert_documents bulk_write documents batch_size st)
    = Ok (ins, failed) ->
    ins + failed + inserted_by_partial_failures rs
    = py_len (valid_documents documents).
Proof.
  intros documents batch_size st c ins failed HB Hc operations batches rs
         Hfull Hok.
  destruct (load_totals documents batch_size st Hc Hok)
    as (_ & Hins & Hfailed).
  fold operations in Hins, Hfailed. fold batches in Hins, Hfailed.
  fold rs in Hins, Hfailed.
  pose proof (tally_exact Hfull) as Hexact.
  assert (Hcover : List.concat batches = operations)
    by (apply batches_of_cover; assumption).
  rewrite total_size_concat, Hcover in Hexact.
  assert (py_len operations = py_len (valid_documents documents)).
  { unfold operations, py_len. rewrite length_map. reflexivity. }
  lia.
Qed.

(** C5.  For a positive batch size the load cuts the filtered records into
    consecutive batches of at most [batch_size] records: put end to end
    the batches are the records, none is empty or longer than
    [batch_size], there are [ceil(N / batch_size)] of them and their sizes
    add up to [N]; the batches are submitted in that order, one call each,
    and all of them when the load returns its counts. *)
Theorem batches_partition_in_order :
  forall (documents : list (option Doc)) (batch_size : Z) (st : State),
    0 < batch_size ->
    let operations := map (@InsertOne Doc) (valid_documents documents) in
    let N := py_len operations in
    let batches := batches_of operations batch_size in
    let out := bulk_insert_documents bulk_write documents batch_size st in
    List.concat batches = operations
    /\ Forall (fun b => 0 < py_len b <= batch_size) batches
    /\ py_len batches = (N + batch_size - 1) / batch_size
    /\ N <= py_len batches * batch_size < N + batch_size
    /\ total_size batches = N
    /\ (exists k : nat,
          events_since st (fst out)
          = map (@EvBulkWrite Doc) (firstn k batches))
    /\ (forall totals,
          snd out = Ok totals ->
          events_since st (fst out) = map (@EvBulkWrite Doc) batches).
Proof.
  intros documents batch_size st HB operations N batches out.
  assert (Hcover : List.concat batches = operations)
    by (apply batches_of_cover; assumption).
  assert (Hcount : py_len batches = (N + batch_size - 1) / batch_size)
    by (apply batches_of_count; assumption).
  split; [exact Hcover|].
  split.
  { unfold batches, batches_of, py_range. apply slices_bounded; lia. }
  split; [exact Hcount|].
  split.
  { rewrite Hcount.
    pose proof (Z.mul_div_le (N + batch_size - 1) batch_size HB).
    pose proof (Z.mul_succ_div_gt (N + batch_size - 1) batch_size HB).
    lia. }
  split.
  { rewrite total_size_concat, Hcover. reflexivity. }
  unfold out. rewrite bulk_insert_documents_loop by lia.
  fold operations.
  destruct (collection st) as [c|] eqn:Hc.
  - destruct (insert_loop_replies operations batch_size
                (py_range 0 (py_len operations) batch_size) 0 0 st Hc)
      as [Hlog Hres].
    fold (batches_of operations batch_size) in Hlog, Hres.
    fold batches in Hlog, Hres.
    split.
    + eexists. apply events_since_app. exact Hlog.
    + intros totals Hok. apply events_since_app. rewrite Hlog.
      rewrite Hok in Hres.
      destruct (first_fatal (replies bulk_write c batches (server st)))
        eqn:Hff; [discriminate|].
      rewrite (first_fatal_none_length _ _ _ Hff), firstn_all.
      reflexivity.
  - rewrite insert_loop_disconnected by assumption.
    fold (py_range 0 (py_len operations) batch_size).
    unfold batches, batches_of.
    destruct (py_range 0 (py_len operations) batch_size) as [|i starts];
      simpl.
    + split.
      * exists 0%nat. apply events_since_app. rewrite app_nil_r. reflexivity.
      * intros _ _. apply events_since_app. rewrite app_nil_r. reflexivity.
    + split.
      * exists 0%nat. apply events_since_app. rewrite app_nil_r. reflexivity.
      * intros totals Hok. discriminate.
Qed.

(** C2.  When the batch at start index [i] raises while the running totals
    are [(ins, failed)], the batch has been submitted once, and: if the
    exception is a [BulkWriteError], the load goes on with all remaining
    start indices from the totals [(ins, failed + (len(batch) - nInserted))];
    if it is any other exception, the load ends there and raises that
    exception, with nothing submitted after the batch. *)
Theorem batch_failure_policy :
  forall (documents : list (option Doc)) (batch_size : Z) (st st_k : State)
         (pre post : list Z) (i ins failed : Z) (c : Collection)
         (w : Server) (e : PyExn),
    batch_size <> 0 ->
    let operations := map (@InsertOne Doc) (valid_documents documents) in
    let batch := py_slice operations i (i + batch_size) in
    py_range 0 (py_len operations) batch_size = pre ++ i :: post ->
    insert_loop bulk_write operations batch_size pre 0 0 st
    = (st_k, Ok (ins, failed)) ->
    collection st_k = Some c ->
    bulk_write c batch (server st_k) = (w, Raise e) ->
    let st_k' := emit (EvBulkWrite batch) (set_server w st_k) in
    log st_k' = log st_k ++ [EvBulkWrite batch]
    /\ bulk_insert_documents bulk_write documents batch_size st
       = match e with
         | BulkWriteError details =>
             insert_loop bulk_write operations batch_size post ins
               (failed + (py_len batch - dict_get (nInserted details) 0))
               st_k'
         | _ => (st_k', Raise e)
         end.
Proof.
  intros documents batch_size st st_k pre post i ins failed c w e HB
         operations batch Hsplit Hpre Hc Hbw st_k'.
  split; [reflexivity|].
  rewrite bulk_insert_documents_loop by assumption.
  fold operations. rewrite Hsplit, insert_loop_app, Hpre. simpl.
  fold batch.
  rewrite collection_bulk_write_connected with (c := c) (w := w)
    (r := Raise e) by assumption.
  fold st_k'. destruct e; reflexivity.
Qed.

(** C10.  The totals a load returns, read off the replies of the server:
    [total_inserted] is the sum of [inserted_count] over the batches that
    returned a result, and [failed_inserts] is the size of the batches that
    raised [BulkWriteError] less their [nInserted]; so the [nInserted]
    records of such a batch are in neither total. *)
Theorem partial_failure_inserts_uncounted :
  forall (documents : list (option Doc)) (batch_size : Z) (st : State)
         (c : Collection) (ins failed : Z),
    collection st = Some c ->
    let operations := map (@InsertOne Doc) (valid_documents documents) in
    let batches := batches_of operations batch_size in
    let rs := replies bulk_write c batches (server st) in
    snd (bulk_insert_documents bulk_write documents batch_size st)
    = Ok (ins, failed) ->
    List.length rs = List.length batches
    /\ ins = inserted_by_results rs
    /\ failed = size_of_partial_failures batches rs
                - inserted_by_partial_failures rs
    /\ ins + failed + inserted_by_partial_failures rs
       = inserted_by_results rs + size_of_partial_failures batches rs.
Proof.
  intros documents batch_size st c ins failed Hc operations batches rs Hok.
  destruct (load_totals documents batch_size st Hc Hok)
    as (Hlen & Hins & Hfailed).
  fold operations in Hlen, Hins, Hfailed.
  fold batches in Hlen, Hins, Hfailed. fold rs in Hlen, Hins, Hfailed.
  repeat split; try assumption. lia.
Qed.


End Facts.

(** A load of five records in batches of two against the small deployment:
    the second batch holds a duplicate id. *)
Lemma batches_partition_in_order_witness :
  let documents := [Some 1; Some 2; None; Some 2; Some 4; Some 5]%nat in
  let batches := batches_of (map (@InsertOne nat) (valid_documents documents)) 2 in
  0 < 2
  /\ py_len batches = (5 + 2 - 1) / 2
  /\ events_since Scenario.mongo_connected
       (fst (bulk_insert_documents Scenario.mongo_bulk_write documents 2
               Scenario.mongo_connected))
     = map (@EvBulkWrite nat) batches.
Proof.
  intros documents batches.
  assert (H : 0 < 2) by reflexivity.
  destruct (batches_partition_in_order Scenario.mongo_bulk_write documents
              Scenario.mongo_connected H)
    as (_ & _ & Hcount & _ & _ & _ & Hall).
  split; [exact H|]. split; [exact Hcount|].
  apply (Hall (3, 1)). vm_compute. reflexivity.
Defined.

(** Seven records in batches of two: the second batch fails in part and the
    load goes on, the third loses the connection and the load ends. *)
Lemma batch_failure_policy_witness :
  let documents :=
    [Some 1; Some 2; Some 2; Some 4; Some 5; Some 0; Some 7]%nat in
  let out := bulk_insert_documents Scenario.mongo_bulk_write documents 2
               Scenario.mongo_connected in
  snd out = Raise (OtherException "AutoReconnect")
  /\ events_since Scenario.mongo_connected (fst out)
     = map (@EvBulkWrite nat)
         [[InsertOne 1; InsertOne 2]; [InsertOne 2; InsertOne 4];
          [InsertOne 5; InsertOne 0]]%nat.
Proof.
  intros documents out.
  (* the second batch: a partial failure, pre = [0], i = 2, post = [4; 6] *)
  destruct (@batch_failure_policy _ _ _ _ Scenario.mongo_bulk_write documents
              2 Scenario.mongo_connected
              (fst (insert_loop Scenario.mongo_bulk_write
                      (map (@InsertOne nat) (valid_documents documents))
                      2 [0] 0 0 Scenario.mongo_connected))
              [0] [4; 6] 2 2 0 tt
              {| Scenario.outages := 0; Scenario.stored := [1; 2; 4]%nat |}
              (BulkWriteError
                 {| nInserted := Some 1;
                    writeErrors :=
                      [(0, "E11000 duplicate key error"%string)] |}))
    as [_ Hpartial]; try (vm_compute; reflexivity).
  { discriminate. }
  (* the third batch: a fatal failure, pre = [0; 2], i = 4, post = [6] *)
  destruct (@batch_failure_policy _ _ _ _ Scenario.mongo_bulk_write documents
              2 Scenario.mongo_connected
              (fst (insert_loop Scenario.mongo_bulk_write
                      (map (@InsertOne nat) (valid_documents documents))
                      2 [0; 2] 0 0 Scenario.mongo_connected))
              [0; 2] [6] 4 2 1 tt
              {| Scenario.outages := 0; Scenario.stored := [1; 2; 4]%nat |}
              (OtherException "AutoReconnect"))
    as [_ Hfatal]; try (vm_compute; reflexivity).
  { discriminate. }
  unfold out. rewrite Hfatal. split; vm_compute; reflexivity.
Defined.

(** Four records in batches of two: the first batch inserts two records,
    the second reports one inserted record and one duplicate. *)
Lemma partial_failure_inserts_uncounted_witness :
  let documents := [Some 1; Some 2; Some 2; Some 4]%nat in
  let batches := batches_of (map (@InsertOne nat) (valid_documents documents)) 2 in
  let rs := replies Scenario.mongo_bulk_write tt batches
              (server Scenario.mongo_connected) in
  collection Scenario.mongo_connected = Some tt
  /\ inserted_by_partial_failures rs = 1
  /\ 2 = inserted_by_results rs
  /\ 1 = size_of_partial_failures batches rs - inserted_by_partial_failures rs.
Proof.
  intros documents batches rs.
  assert (Hc : collection Scenario.mongo_connected = Some tt) by reflexivity.
  assert (Hok : snd (bulk_insert_documents Scenario.mongo_bulk_write documents 2
                       Scenario.mongo_connected) = Ok (2, 1))
    by (vm_compute; reflexivity).
  destruct (partial_failure_inserts_uncounted Scenario.mongo_bulk_write
              documents 2 Scenario.mongo_connected Hc Hok)
    as (_ & Hins & Hfailed & _).
  split; [exact Hc|]. split; [vm_compute; reflexivity|].
  split; assumption.
Defined.

(** C1, at the load of the records with ids 1, 2, 2, 4 in batches of two.
    The server accounts for each of the four records (two inserted by the
    first batch; one inserted and one rejected in the second), three records
    are in the collection afterwards, and the load returns [(2, 1)]: the
    totals add up to three, one short of four. *)
Theorem partial_failure_breaks_accounting :
  let documents := [Some 1; Some 2; Some 2; Some 4]%nat in
  let batches := batches_of (map (@InsertOne nat) (valid_documents documents)) 2 in
  let rs := replies Scenario.mongo_bulk_write tt batches
              (server Scenario.mongo_connected) in
  let out := bulk_insert_documents Scenario.mongo_bulk_write documents 2
               Scenario.mongo_connected in
  Forall2 (@full_accounting nat) batches rs
  /\ snd out = Ok (2, 1)
  /\ Scenario.stored (server (fst out)) = [1; 2; 4]%nat
  /\ 2 + 1 < py_len (valid_documents documents).
Proof.
  intros documents batches rs out.
  split.
  { vm_compute. constructor; [reflexivity|].
    constructor; [|constructor].
    exists 1. repeat split; discriminate. }
  repeat split.
Qed.

(** The same load stays within its bound: 2 + 1 <= 4. *)
Lemma inserted_plus_failed_bounded_witness :
  let documents := [Some 1; Some 2; Some 2; Some 4]%nat in
  snd (bulk_insert_documents Scenario.mongo_bulk_write documents 2
         Scenario.mongo_connected) = Ok (2, 1)
  /\ 2 + 1 <= py_len (valid_documents documents).
Proof.
  intros documents.
  assert (Hok : snd (bulk_insert_documents Scenario.mongo_bulk_write documents 2
                       Scenario.mongo_connected) = Ok (2, 1))
    by (vm_compute; reflexivity).
  split; [exact Hok|].
  refine (proj2 (proj2 (@inserted_plus_failed_bounded _ _ _ _
                          Scenario.mongo_bulk_write documents 2
                          Scenario.mongo_connected tt 2 1 _ _ _ Hok))).
  - reflexivity.
  - reflexivity.
  - vm_compute. repeat constructor; discriminate.
Defined.

(** The record it misses is the one the second batch reports in
    [nInserted]. *)
Lemma inserted_plus_failed_exact_witness :
  let documents := [Some 1; Some 2; Some 2; Some 4]%nat in
  let batches := batches_of (map (@InsertOne nat) (valid_documents documents)) 2 in
  let rs := replies Scenario.mongo_bulk_write tt batches
              (server Scenario.mongo_connected) in
  snd (bulk_insert_documents Scenario.mongo_bulk_write documents 2
         Scenario.mongo_connected) = Ok (2, 1)
  /\ 2 + 1 + inserted_by_partial_failures rs
     = py_len (valid_documents documents).
Proof.
  intros documents batches rs.
  assert (Hok : snd (bulk_insert_documents Scenario.mongo_bulk_write documents 2
                       Scenario.mongo_connected) = Ok (2, 1))
    by (vm_compute; reflexivity).
  split; [exact Hok|].
  refine (@inserted_plus_failed_exact _ _ _ _
            Scenario.mongo_bulk_write documents 2
            Scenario.mongo_connected tt 2 1 _ _ _ Hok).
  - reflexivity.
  - reflexivity.
  - vm_compute. constructor; [reflexivity|].
    constructor; [|constructor].
    exists 1. repeat split; discriminate.
Defined.

End MongoDBImporterFacts.

(** ** Connecting with retries *)

Module ConnectionFacts.

Ltac flatten_log :=
  repeat rewrite <- app_assoc; simpl app.

Section Mongo.

Import MongoDBImporter.

Variables Server Client Collection Doc : Type.
Variable MongoClient : Server -> Server * Result Client.
Variable server_info : Client -> Server -> Server * Result unit.
Variable get_collection : Client -> Collection.
Variable sleep : Z -> Server -> Server.

Local Abbreviation State := (State Server Client Collection Doc).
Local Abbreviation try_connect :=
  (try_connect (Doc := Doc) MongoClient server_info get_collection).
Local Abbreviation connect :=
  (connect (Doc := Doc) MongoClient server_info get_collection sleep).

Lemma mongo_try_connect_log : forall st : State,
  log (fst (try_connect st)) = log st ++ [EvAttempt].
Proof.
  intros st. unfold MongoDBImporter.try_connect. simpl.
  destruct (MongoClient (server st)) as [w [c|e]]; simpl;
    [destruct (server_info c w) as [w' [u|e]]|]; reflexivity.
Qed.

Lemma mongo_try_connect_ok : forall (st st1 : State) b,
  try_connect st = (st1, Ok b) -> b = true.
Proof.
  intros st st1 b. unfold MongoDBImporter.try_connect. simpl.
  destruct (MongoClient (server st)) as [w [c|e]];
    [destruct (server_info c w) as [w' [u|e]]|];
    intros H; inversion H; reflexivity.
Qed.

(** The three ways [connect] can go: it returns after the first, second or
    third attempt, or raises what the third attempt raised. *)
Lemma mongo_connect_cases : forall st : State,
  let out := connect st in
  (exists st1,
      try_connect st = (st1, Ok true)
      /\ out = (st1, Ok (Some true))
      /\ log st1 = log st ++ [EvAttempt])
  \/ (exists st1 e0 st2,
      try_connect st = (st1, Raise e0)
      /\ try_connect (time_sleep sleep 1 (emit (EvLogError 1 e0) st1))
         = (st2, Ok true)
      /\ out = (st2, Ok (Some true))
      /\ log st2 = log st ++ [EvAttempt; EvLogError 1 e0; EvSleep 1; EvAttempt])
  \/ (exists st1 e0 st2 e1 st3 r,
      try_connect st = (st1, Raise e0)
      /\ try_connect (time_sleep sleep 1 (emit (EvLogError 1 e0) st1))
         = (st2, Raise e1)
      /\ try_connect (time_sleep sleep 2 (emit (EvLogError 2 e1) st2))
         = (st3, r)
      /\ match r with
         | Ok b =>
             out = (st3, Ok (Some true))
             /\ log st3
                = log st ++ [EvAttempt; EvLogError 1 e0; EvSleep 1;
                             EvAttempt; EvLogError 2 e1; EvSleep 2; EvAttempt]
         | Raise e2 =>
             out = (emit (EvLogError 3 e2) st3, Raise e2)
             /\ log (emit (EvLogError 3 e2) st3)
                = log st ++ [EvAttempt; EvLogError 1 e0; EvSleep 1;
                             EvAttempt; EvLogError 2 e1; EvSleep 2;
                             EvAttempt; EvLogError 3 e2]
         end).
Proof.
  intros st out. unfold out, MongoDBImporter.connect.
  change (py_range 0 max_retries 1) with [0; 1; 2]. simpl connect_loop.
  change (Z.pow_pos 2 1) with 2.
  pose proof (mongo_try_connect_log st) as L1.
  destruct (try_connect st) as [st1 [b|e0]] eqn:H1; simpl in L1.
  { left. assert (b = true) by (eapply mongo_try_connect_ok; eassumption).
    subst b. exists st1. auto. }
  right.
  change (0 =? max_retries - 1) with false. cbv iota.
  change (2 ^ 0) with 1. change (0 + 1) with 1.
  pose proof (mongo_try_connect_log
                (time_sleep sleep 1 (emit (EvLogError 1 e0) st1))) as L2.
  destruct (try_connect (time_sleep sleep 1 (emit (EvLogError 1 e0) st1)))
    as [st2 [b|e1]] eqn:H2; simpl in L2; rewrite L1 in L2;
    revert L2; flatten_log; intros L2.
  { left. assert (b = true) by (eapply mongo_try_connect_ok; eassumption).
    subst b. exists st1, e0, st2. auto. }
  right.
  change (1 =? max_retries - 1) with false. cbv iota.
  change (2 ^ 1) with 2. change (1 + 1) with 2.
  pose proof (mongo_try_connect_log
                (time_sleep sleep 2 (emit (EvLogError 2 e1) st2))) as L3.
  destruct (try_connect (time_sleep sleep 2 (emit (EvLogError 2 e1) st2)))
    as [st3 [b|e2]] eqn:H3; simpl in L3; rewrite L2 in L3;
    revert L3; flatten_log; intros L3.
  { assert (b = true) by (eapply mongo_try_connect_ok; eassumption).
    subst b. exists st1, e0, st2, e1, st3, (Ok true). auto. }
  change (2 =? max_retries - 1) with true. cbv iota.
  change (2 + 1) with 3.
  exists st1, e0, st2, e1, st3, (Raise e2).
  repeat (split; [first [reflexivity|assumption]|]).
  simpl. rewrite L3. flatten_log. reflexivity.
Qed.

(** Whatever the server does: between one and three attempts, a wait of
    [base_delay * 2 ^ k] after failed attempt [k] unless it was the last
    one, and an exception only after three attempts, the one the third
    attempt raised. *)
Lemma mongo_connect_backoff : forall st : State,
  let out := connect st in
  let evs := events_since st (fst out) in
  let n := attempts evs in
  1 <= n <= max_retries
  /\ waits evs = map (fun k => base_delay * 2 ^ k) (py_range 0 (n - 1) 1)
  /\ Sorted Z.le (waits evs)
  /\ (forall e, snd out = Raise e ->
        n = max_retries /\ last evs EvAttempt = EvLogError max_retries e).
Proof.
  intros st out evs n. unfold n, evs.
  destruct (mongo_connect_cases st)
    as [(st1 & _ & Hout & Hlog)
       |[(st1 & e0 & st2 & _ & _ & Hout & Hlog)
        |(st1 & e0 & st2 & e1 & st3 & r & _ & _ & _ & Hr)]].
  - unfold out. rewrite Hout. simpl fst. simpl snd.
    erewrite MongoDBImporterFacts.events_since_app by exact Hlog.
    repeat split; try (vm_compute; congruence); try constructor;
      intros; discriminate.
  - unfold out. rewrite Hout. simpl fst. simpl snd.
    erewrite MongoDBImporterFacts.events_since_app by exact Hlog.
    repeat split; try (vm_compute; congruence);
      repeat constructor; intros; discriminate.
  - destruct r as [b|e2]; destruct Hr as [Hout Hlog];
      unfold out; rewrite Hout; simpl fst; simpl snd;
      erewrite MongoDBImporterFacts.events_since_app by exact Hlog.
    + repeat split; try (vm_compute; congruence);
        repeat constructor; try (intros; discriminate).
    + repeat split; try (vm_compute; congruence);
        repeat constructor; try (vm_compute; congruence);
        intros e He; injection He as ->; reflexivity.
Qed.

(** Three failed attempts in a row: [connect] waits [base_delay * 2 ^ 0],
    then [base_delay * 2 ^ 1], and raises the exception of the third. *)
Lemma mongo_connect_exhausted : forall (st st1 st2 st3 : State) e0 e1 e2,
  try_connect st = (st1, Raise e0) ->
  try_connect
    (time_sleep sleep (base_delay * 2 ^ 0) (emit (EvLogError 1 e0) st1))
  = (st2, Raise e1) ->
  try_connect
    (time_sleep sleep (base_delay * 2 ^ 1) (emit (EvLogError 2 e1) st2))
  = (st3, Raise e2) ->
  connect st = (emit (EvLogError 3 e2) st3, Raise e2).
Proof.
  intros st st1 st2 st3 e0 e1 e2 H1 H2 H3.
  change (base_delay * 2 ^ 0) with 1 in H2.
  change (base_delay * 2 ^ 1) with 2 in H3.
  unfold MongoDBImporter.connect.
  change (py_range 0 max_retries 1) with [0; 1; 2]. simpl connect_loop.
  change (Z.pow_pos 2 1) with 2.
  rewrite H1. simpl. rewrite H2. simpl. rewrite H3. reflexivity.
Qed.

End Mongo.

Section Postgres.

Import PostgresImporter.

Variables Server Conn Cursor : Type.
Variable psycopg2_connect : string -> Server -> Server * Result Conn.
Variable conn_cursor : Conn -> Server -> Server * Result Cursor.
Variable sleep : Z -> Server -> Server.
Variable database : string.

Local Abbreviation State := (State Server Conn Cursor).
Local Abbreviation try_connect :=
  (try_connect psycopg2_connect conn_cursor database).
Local Abbreviation connect :=
  (connect psycopg2_connect conn_cursor sleep database).

Lemma pg_try_connect_log : forall st : State,
  log (fst (try_connect st)) = log st ++ [EvAttempt].
Proof.
  intros st. unfold PostgresImporter.try_connect. simpl.
  destruct (psycopg2_connect database (server st)) as [w [c|e]]; simpl;
    [destruct (conn_cursor c w) as [w' [u|e]]|]; reflexivity.
Qed.

Lemma pg_events_since_app : forall (st st' : State) evs,
  log st' = log st ++ evs -> events_since st st' = evs.
Proof.
  intros st st' evs H. unfold events_since. rewrite H.
  rewrite skipn_app, skipn_all, Nat.sub_diag. reflexivity.
Qed.

Lemma pg_connect_cases : forall st : State,
  let out := connect st in
  (exists st1,
      try_connect st = (st1, Ok tt)
      /\ out = (st1, Ok tt)
      /\ log st1 = log st ++ [EvAttempt])
  \/ (exists st1 e0 st2,
      try_connect st = (st1, Raise e0)
      /\ try_connect (time_sleep sleep 1 (emit (EvLogError 1 e0) st1))
         = (st2, Ok tt)
      /\ out = (st2, Ok tt)
      /\ log st2 = log st ++ [EvAttempt; EvLogError 1 e0; EvSleep 1; EvAttempt])
  \/ (exists st1 e0 st2 e1 st3 r,
      try_connect st = (st1, Raise e0)
      /\ try_connect (time_sleep sleep 1 (emit (EvLogError 1 e0) st1))
         = (st2, Raise e1)
      /\ try_connect (time_sleep sleep 2 (emit (EvLogError 2 e1) st2))
         = (st3, r)
      /\ match r with
         | Ok _ =>
             out = (st3, Ok tt)
             /\ log st3
                = log st ++ [EvAttempt; EvLogError 1 e0; EvSleep 1;
                             EvAttempt; EvLogError 2 e1; EvSleep 2; EvAttempt]
         | Raise e2 =>
             out = (emit (EvLogError 3 e2) st3, Raise e2)
             /\ log (emit (EvLogError 3 e2) st3)
                = log st ++ [EvAttempt; EvLogError 1 e0; EvSleep 1;
                             EvAttempt; EvLogError 2 e1; EvSleep 2;
                             EvAttempt; EvLogError 3 e2]
         end).
Proof.
  intros st out. unfold out, PostgresImporter.connect.
  change (py_range 0 max_retries 1) with [0; 1; 2]. simpl connect_loop.
  change (Z.pow_pos 2 1) with 2.
  pose proof (pg_try_connect_log st) as L1.
  destruct (try_connect st) as [st1 [[]|e0]] eqn:H1; simpl in L1.
  { left. exists st1. auto. }
  right.
  pose proof (pg_try_connect_log
                (time_sleep sleep 1 (emit (EvLogError 1 e0) st1))) as L2.
  destruct (try_connect (time_sleep sleep 1 (emit (EvLogError 1 e0) st1)))
    as [st2 [[]|e1]] eqn:H2; simpl in L2; rewrite L1 in L2;
    revert L2; flatten_log; intros L2.
  { left. exists st1, e0, st2. auto. }
  right.
  pose proof (pg_try_connect_log
                (time_sleep sleep 2 (emit (EvLogError 2 e1) st2))) as L3.
  destruct (try_connect (time_sleep sleep 2 (emit (EvLogError 2 e1) st2)))
    as [st3 [[]|e2]] eqn:H3; simpl in L3; rewrite L2 in L3;
    revert L3; flatten_log; intros L3.
  { exists st1, e0, st2, e1, st3, (Ok tt). auto. }
  exists st1, e0, st2, e1, st3, (Raise e2).
  repeat (split; [first [reflexivity|assumption]|]).
  simpl. rewrite L3. flatten_log. reflexivity.
Qed.

Lemma pg_connect_backoff : forall st : State,
  let out := connect st in
  let evs := events_since st (fst out) in
  let n := attempts evs in
  1 <= n <= max_retries
  /\ waits evs = map (fun k => base_delay * 2 ^ k) (py_range 0 (n - 1) 1)
  /\ Sorted Z.le (waits evs)
  /\ (forall e, snd out = Raise e ->
        n = max_retries /\ last evs EvAttempt = EvLogError max_retries e).
Proof.
  intros st out evs n. unfold n, evs.
  destruct (pg_connect_cases st)
    as [(st1 & _ & Hout & Hlog)
       |[(st1 & e0 & st2 & _ & _ & Hout & Hlog)
        |(st1 & e0 & st2 & e1 & st3 & r & _ & _ & _ & Hr)]].
  - unfold out. rewrite Hout. simpl fst. simpl snd.
    erewrite pg_events_since_app by exact Hlog.
    repeat split; try (vm_compute; congruence); try constructor;
      intros; discriminate.
  - unfold out. rewrite Hout. simpl fst. simpl snd.
    erewrite pg_events_since_app by exact Hlog.
    repeat split; try (vm_compute; congruence);
      repeat constructor; intros; discriminate.
  - destruct r as [b|e2]; destruct Hr as [Hout Hlog];
      unfold out; rewrite Hout; simpl fst; simpl snd;
      erewrite pg_events_since_app by exact Hlog.
    + repeat split; try (vm_compute; congruence);
        repeat constructor; try (intros; discriminate).
    + repeat split; try (vm_compute; congruence);
        repeat constructor; try (vm_compute; congruence);
        intros e He; injection He as ->; reflexivity.
Qed.

Lemma pg_connect_exhausted : forall (st st1 st2 st3 : State) e0 e1 e2,
  try_connect st = (st1, Raise e0) ->
  try_connect
    (time_sleep sleep (base_delay * 2 ^ 0) (emit (EvLogError 1 e0) st1))
  = (st2, Raise e1) ->
  try_connect
    (time_sleep sleep (base_delay * 2 ^ 1) (emit (EvLogError 2 e1) st2))
  = (st3, Raise e2) ->
  connect st = (emit (EvLogError 3 e2) st3, Raise e2).
Proof.
  intros st st1 st2 st3 e0 e1 e2 H1 H2 H3.
  change (base_delay * 2 ^ 0) with 1 in H2.
  change (base_delay * 2 ^ 1) with 2 in H3.
  unfold PostgresImporter.connect.
  change (py_range 0 max_retries 1) with [0; 1; 2]. simpl connect_loop.
  change (Z.pow_pos 2 1) with 2.
  rewrite H1. simpl. rewrite H2. simpl. rewrite H3. reflexivity.
Qed.

End Postgres.

(** C3.  Both [connect] methods make at most [max_retries = 3] attempts.
    After failed attempt [k] (counted from 0), unless it was the last one,
    they wait [base_delay * 2 ^ k] seconds, so the waits never decrease.  An
    exception leaves [connect] only after the third attempt, and it is the
    exception that attempt raised: after three failures in a row [connect]
    raises the third one. *)
Theorem connect_retry_backoff :
  forall (MServer Client Collection Doc : Type)
         (MongoClient : MServer -> MServer * Result Client)
         (server_info : Client -> MServer -> MServer * Result unit)
         (get_collection : Client -> Collection)
         (msleep : Z -> MServer -> MServer)
         (PServer Conn Cursor : Type)
         (psycopg2_connect : string -> PServer -> PServer * Result Conn)
         (conn_cursor : Conn -> PServer -> PServer * Result Cursor)
         (psleep : Z -> PServer -> PServer)
         (database : string),
    let mtry :=
      MongoDBImporter.try_connect (Doc := Doc) MongoClient server_info
        get_collection in
    let mconnect :=
      MongoDBImporter.connect (Doc := Doc) MongoClient server_info
        get_collection msleep in
    let ptry := PostgresImporter.try_connect psycopg2_connect conn_cursor
                  database in
    let pconnect := PostgresImporter.connect psycopg2_connect conn_cursor
                      psleep database in
    (MongoDBImporter.max_retries = 3 /\ PostgresImporter.max_retries = 3)
    /\ (forall st,
          let out := mconnect st in
          let evs := MongoDBImporter.events_since st (fst out) in
          let n := MongoDBImporter.attempts evs in
          1 <= n <= MongoDBImporter.max_retries
          /\ MongoDBImporter.waits evs
             = map (fun k => base_delay * 2 ^ k) (py_range 0 (n - 1) 1)
          /\ Sorted Z.le (MongoDBImporter.waits evs)
          /\ (forall e, snd out = Raise e ->
                n = MongoDBImporter.max_retries
                /\ last evs MongoDBImporter.EvAttempt
                   = MongoDBImporter.EvLogError MongoDBImporter.max_retries e))
    /\ (forall st st1 st2 st3 e0 e1 e2,
          mtry st = (st1, Raise e0) ->
          mtry (MongoDBImporter.time_sleep msleep (base_delay * 2 ^ 0)
                  (MongoDBImporter.emit (MongoDBImporter.EvLogError 1 e0) st1))
          = (st2, Raise e1) ->
          mtry (MongoDBImporter.time_sleep msleep (base_delay * 2 ^ 1)
                  (MongoDBImporter.emit (MongoDBImporter.EvLogError 2 e1) st2))
          = (st3, Raise e2) ->
          mconnect st
          = (MongoDBImporter.emit (MongoDBImporter.EvLogError 3 e2) st3,
             Raise e2))
    /\ (forall st,
          let out := pconnect st in
          let evs := PostgresImporter.events_since st (fst out) in
          let n := PostgresImporter.attempts evs in
          1 <= n <= PostgresImporter.max_retries
          /\ PostgresImporter.waits evs
             = map (fun k => base_delay * 2 ^ k) (py_range 0 (n - 1) 1)
          /\ Sorted Z.le (PostgresImporter.waits evs)
          /\ (forall e, snd out = Raise e ->
                n = PostgresImporter.max_retries
                /\ last evs PostgresImporter.EvAttempt
                   = PostgresImporter.EvLogError PostgresImporter.max_retries e))
    /\ (forall st st1 st2 st3 e0 e1 e2,
          ptry st = (st1, Raise e0) ->
          ptry (PostgresImporter.time_sleep psleep (base_delay * 2 ^ 0)
                  (PostgresImporter.emit (PostgresImporter.EvLogError 1 e0) st1))
          = (st2, Raise e1) ->
          ptry (PostgresImporter.time_sleep psleep (base_delay * 2 ^ 1)
                  (PostgresImporter.emit (PostgresImporter.EvLogError 2 e1) st2))
          = (st3, Raise e2) ->
          pconnect st
          = (PostgresImporter.emit (PostgresImporter.EvLogError 3 e2) st3,
             Raise e2)).
Proof.
  intros. split; [split; reflexivity|].
  split; [intros st; apply mongo_connect_backoff|].
  split; [intros st st1 st2 st3 e0 e1 e2;
          apply mongo_connect_exhausted|].
  split; [intros st; apply pg_connect_backoff|].
  intros st st1 st2 st3 e0 e1 e2. apply pg_connect_exhausted.
Qed.

(** Both servers of the small deployment refuse three attempts. *)
Lemma connect_retry_backoff_witness :
  snd (MongoDBImporter.connect Scenario.mongo_client Scenario.mongo_server_info
         (fun _ : unit => tt) Scenario.mongo_sleep (Scenario.mongo_fresh 3))
  = Raise (OtherException "ServerSelectionTimeoutError")
  /\ snd (PostgresImporter.connect Scenario.pg_connect Scenario.pg_cursor
            Scenario.pg_sleep PostgresImporter.default_database
            (Scenario.pg_fresh 3))
     = Raise (OtherException "OperationalError").
Proof.
  destruct (@connect_retry_backoff _ _ _ nat
              Scenario.mongo_client Scenario.mongo_server_info
              (fun _ : unit => tt) Scenario.mongo_sleep _ _ _
              Scenario.pg_connect Scenario.pg_cursor Scenario.pg_sleep
              PostgresImporter.default_database)
    as (_ & _ & Hm & _ & Hp).
  split.
  - erewrite Hm; [reflexivity| | |]; vm_compute; reflexivity.
  - erewrite Hp; [reflexivity| | |]; vm_compute; reflexivity.
Defined.

End ConnectionFacts.

(** ** Summary statistics of scripts/comparisons.py *)

Module StatisticsFacts.

Import DatabaseBenchmark.

Local Open Scope Q_scope.

Lemma Qlt_bool_iff : forall x y : Q, Qlt_bool x y = true <-> x < y.
Proof.
  intros x y. unfold Qlt_bool. rewrite negb_true_iff.
  split; intros H.
  - apply Qnot_le_lt. intros Hle. apply Qle_bool_iff in Hle. congruence.
  - destruct (Qle_bool y x) eqn:E; [|reflexivity].
    apply Qle_bool_iff in E. exfalso. exact (Qlt_not_le _ _ H E).
Qed.

Lemma Qlt_bool_false_iff : forall x y : Q, Qlt_bool x y = false <-> y <= x.
Proof.
  intros x y. unfold Qlt_bool. rewrite negb_false_iff. apply Qle_bool_iff.
Qed.

Lemma fold_left_Qplus : forall (l : list Q) (a : Q),
  fold_left Qplus l a == a + Reference.total l.
Proof.
  induction l as [|x l IH]; intros a; simpl.
  - ring.
  - rewrite IH. ring.
Qed.

Lemma py_sum_total : forall l : list Q, py_sum l == Reference.total l.
Proof. intros l. unfold py_sum. rewrite fold_left_Qplus. ring. Qed.

Lemma total_map_ext : forall (f g : Q -> Q) (l : list Q),
  (forall x, f x == g x) ->
  Reference.total (map f l) == Reference.total (map g l).
Proof.
  intros f g l H. induction l as [|x l IH]; simpl.
  - reflexivity.
  - rewrite IH, H. reflexivity.
Qed.

Lemma float_sqrt_compat : forall p q : Q, p == q -> float_sqrt p = float_sqrt q.
Proof.
  intros p q H. unfold float_sqrt. rewrite (Qred_complete _ _ H). reflexivity.
Qed.

(** A fraction in lowest terms is its own reduced form. *)
Lemma Qred_coprime : forall (n : Z) (d : positive),
  Z.gcd n (Zpos d) = 1%Z -> Qred (n # d) = n # d.
Proof.
  intros n d Hgcd.
  pose proof (gcd_Qred (n # d)) as Hred.
  pose proof (Qred_correct (n # d)) as Heq.
  destruct (Qred (n # d)) as [a b]. unfold Qeq in Heq. simpl in Hred, Heq.
  assert (Hbd : (Zpos b | Zpos d)%Z).
  { apply Z.gauss with (m := a); [|rewrite Z.gcd_comm; exact Hred].
    exists n. lia. }
  assert (Hdb : (Zpos d | Zpos b)%Z).
  { apply Z.gauss with (m := n); [|rewrite Z.gcd_comm; exact Hgcd].
    exists a. lia. }
  assert (Hb : Zpos b = Zpos d)
    by (apply Z.divide_antisym_nonneg; [lia|lia|exact Hbd|exact Hdb]).
  injection Hb as ->.
  assert (a = n) by nia. subst a. reflexivity.
Qed.

(** Coprime numbers have coprime squares. *)
Lemma gcd_squares : forall a b : Z,
  Z.gcd a b = 1%Z -> Z.gcd (a * a) (b * b) = 1%Z.
Proof.
  intros a b H. apply Z.bezout_1_gcd.
  destruct (Z.gcd_bezout a b 1%Z H) as (u & v & Huv).
  exists (u * u * u * a + 3 * u * u * v * b)%Z,
         (3 * u * v * v * a + v * v * v * b)%Z.
  replace 1%Z with ((u * a + v * b) * (u * a + v * b) * (u * a + v * b))%Z
    by (rewrite Huv; reflexivity).
  ring.
Qed.

(** [float_sqrt] is exact on the square of a rational. *)
Lemma float_sqrt_square : forall q : Q, 0 <= q -> float_sqrt (q * q) == q.
Proof.
  intros q Hq. transitivity (Qred q); [|apply Qred_correct].
  unfold float_sqrt.
  assert (Hqq : q * q == Qred q * Qred q) by (rewrite Qred_correct; reflexivity).
  rewrite (Qred_complete _ _ Hqq).
  pose proof (gcd_Qred q) as Hgcd.
  assert (Hpos : 0 <= Qred q) by (rewrite Qred_correct; exact Hq).
  destruct (Qred q) as [a b]. simpl in Hgcd.
  unfold Qle in Hpos. simpl in Hpos.
  change ((a # b) * (a # b)) with ((a * a)%Z # (b * b)).
  rewrite Qred_coprime
    by (rewrite Pos2Z.inj_mul; apply gcd_squares; exact Hgcd).
  simpl Qnum. simpl Qden.
  replace (a * a * Zpos (b * b) * 2 ^ 104)%Z
    with ((a * Zpos b * 2 ^ 52) * (a * Zpos b * 2 ^ 52))%Z
    by (rewrite Pos2Z.inj_mul; change (2 ^ 104)%Z with (2 ^ 52 * 2 ^ 52)%Z;
        ring).
  rewrite Z.sqrt_square by lia.
  unfold Qeq. cbn [Qnum Qden]. rewrite !Pos2Z.inj_mul, Pos2Z.inj_pow. ring.
Qed.

(** [sorted] keeps every element. *)
Lemma insert_sorted_length : forall (x : Q) (l : list Q),
  List.length (insert_sorted x l) = S (List.length l).
Proof.
  induction l as [|y l IH]; simpl; [reflexivity|].
  destruct (Qle_bool x y); simpl; [reflexivity|]. rewrite IH. reflexivity.
Qed.

Lemma sorted_length : forall l : list Q,
  List.length (sorted l) = List.length l.
Proof.
  induction l as [|x l IH]; simpl; [reflexivity|].
  rewrite insert_sorted_length, IH. reflexivity.
Qed.

(** [sorted] returns the samples in ascending order. *)
Lemma insert_sorted_permutation : forall (x : Q) (l : list Q),
  Permutation (insert_sorted x l) (x :: l).
Proof.
  induction l as [|y l IH]; simpl; [reflexivity|].
  destruct (Qle_bool x y); [reflexivity|].
  rewrite IH. apply perm_swap.
Qed.

Lemma sorted_permutation : forall l : list Q, Permutation (sorted l) l.
Proof.
  induction l as [|x l IH]; simpl; [reflexivity|].
  rewrite insert_sorted_permutation, IH. reflexivity.
Qed.

Lemma insert_sorted_head : forall (x y : Q) (l : list Q),
  y <= x -> HdRel Qle y l -> HdRel Qle y (insert_sorted x l).
Proof.
  intros x y [|z l] Hyx Hhd; simpl.
  - constructor. exact Hyx.
  - destruct (Qle_bool x z); constructor; [exact Hyx|].
    inversion Hhd; assumption.
Qed.

Lemma insert_sorted_ascending : forall (x : Q) (l : list Q),
  Sorted Qle l -> Sorted Qle (insert_sorted x l).
Proof.
  intros x l H. induction H as [|y l Hsorted IH Hhd]; simpl.
  - repeat constructor.
  - destruct (Qle_bool x y) eqn:E.
    + apply Qle_bool_iff in E. repeat constructor; assumption.
    + constructor; [exact IH|].
      apply insert_sorted_head; [|exact Hhd].
      apply Qlt_le_weak. apply Qlt_bool_iff. unfold Qlt_bool.
      rewrite E. reflexivity.
Qed.

Lemma sorted_ascending : forall l : list Q, Sorted Qle (sorted l).
Proof.
  induction l as [|x l IH]; simpl; [constructor|].
  apply insert_sorted_ascending. exact IH.
Qed.

(** The least sample of the reference is below every sample and is one of
    them; likewise for the greatest. *)
Lemma least_is_minimum : forall (x : Q) (l : list Q),
  (forall y, In y (x :: l) -> Reference.least (x :: l) <= y)
  /\ exists y, In y (x :: l) /\ Reference.least (x :: l) == y.
Proof.
  intros x l. simpl Reference.least. induction l as [|z l [IHle IHin]]; simpl.
  - split.
    + intros y [<-|[]]. apply Qle_refl.
    + exists x. split; [left; reflexivity|reflexivity].
  - split.
    + intros y [<-|[<-|Hy]].
      * eapply Qle_trans; [apply Q.le_min_r|]. apply IHle. left. reflexivity.
      * apply Q.le_min_l.
      * eapply Qle_trans; [apply Q.le_min_r|]. apply IHle. right. exact Hy.
    + destruct (Q.min_dec z (fold_right Qmin x l)) as [E|E].
      * exists z. split; [right; left; reflexivity|exact E].
      * destruct IHin as (y & [<-|Hy] & Ey).
        -- exists x. split; [left; reflexivity|]. rewrite E. exact Ey.
        -- exists y. split; [right; right; exact Hy|]. rewrite E. exact Ey.
Qed.

Lemma greatest_is_maximum : forall (x : Q) (l : list Q),
  (forall y, In y (x :: l) -> y <= Reference.greatest (x :: l))
  /\ exists y, In y (x :: l) /\ Reference.greatest (x :: l) == y.
Proof.
  intros x l. simpl Reference.greatest.
  induction l as [|z l [IHle IHin]]; simpl.
  - split.
    + intros y [<-|[]]. apply Qle_refl.
    + exists x. split; [left; reflexivity|reflexivity].
  - split.
    + intros y [<-|[<-|Hy]].
      * eapply Qle_trans; [|apply Q.le_max_r]. apply IHle. left. reflexivity.
      * apply Q.le_max_l.
      * eapply Qle_trans; [|apply Q.le_max_r]. apply IHle. right. exact Hy.
    + destruct (Q.max_dec z (fold_right Qmax x l)) as [E|E].
      * exists z. split; [right; left; reflexivity|exact E].
      * destruct IHin as (y & [<-|Hy] & Ey).
        -- exists x. split; [left; reflexivity|]. rewrite E. exact Ey.
        -- exists y. split; [right; right; exact Hy|]. rewrite E. exact Ey.
Qed.

(** The first least element found by the scan of [min] is the least
    element. *)
Lemma fold_right_Qmin_init : forall (l : list Q) (a a' : Q),
  a == a' -> fold_right Qmin a l == fold_right Qmin a' l.
Proof.
  induction l as [|y l IH]; intros a a' H; simpl.
  - exact H.
  - rewrite (IH a a' H). reflexivity.
Qed.

Lemma fold_right_Qmin_acc : forall (l : list Q) (a b : Q),
  fold_right Qmin (Qmin a b) l == Qmin b (fold_right Qmin a l).
Proof.
  induction l as [|y l IH]; intros a b; simpl.
  - apply Q.min_comm.
  - rewrite IH. rewrite !Q.min_assoc, (Q.min_comm y b). reflexivity.
Qed.

Lemma scan_min : forall (l : list Q) (a : Q),
  fold_left (fun m y => if Qlt_bool y m then y else m) l a
  == fold_right Qmin a l.
Proof.
  induction l as [|y l IH]; intros a; simpl.
  - reflexivity.
  - rewrite IH.
    destruct (Qlt_bool y a) eqn:E.
    + apply Qlt_bool_iff in E.
      rewrite (fold_right_Qmin_init l (a := y) (a' := Qmin a y)).
      * apply fold_right_Qmin_acc.
      * symmetry. apply Q.min_r. apply Qlt_le_weak. exact E.
    + apply Qlt_bool_false_iff in E.
      rewrite (fold_right_Qmin_init l (a := a) (a' := Qmin a y)) at 1.
      * apply fold_right_Qmin_acc.
      * symmetry. apply Q.min_l. exact E.
Qed.

Lemma fold_right_Qmax_init : forall (l : list Q) (a a' : Q),
  a == a' -> fold_right Qmax a l == fold_right Qmax a' l.
Proof.
  induction l as [|y l IH]; intros a a' H; simpl.
  - exact H.
  - rewrite (IH a a' H). reflexivity.
Qed.

Lemma fold_right_Qmax_acc : forall (l : list Q) (a b : Q),
  fold_right Qmax (Qmax a b) l == Qmax b (fold_right Qmax a l).
Proof.
  induction l as [|y l IH]; intros a b; simpl.
  - apply Q.max_comm.
  - rewrite IH. rewrite !Q.max_assoc, (Q.max_comm y b). reflexivity.
Qed.

Lemma scan_max : forall (l : list Q) (a : Q),
  fold_left (fun m y => if Qlt_bool m y then y else m) l a
  == fold_right Qmax a l.
Proof.
  induction l as [|y l IH]; intros a; simpl.
  - reflexivity.
  - rewrite IH.
    destruct (Qlt_bool a y) eqn:E.
    + apply Qlt_bool_iff in E.
      rewrite (fold_right_Qmax_init l (a := y) (a' := Qmax a y)).
      * apply fold_right_Qmax_acc.
      * symmetry. apply Q.max_r. apply Qlt_le_weak. exact E.
    + apply Qlt_bool_false_iff in E.
      rewrite (fold_right_Qmax_init l (a := a) (a' := Qmax a y)) at 1.
      * apply fold_right_Qmax_acc.
      * symmetry. apply Q.max_l. exact E.
Qed.

Lemma parity_of_len : forall k : nat,
  ((Z.of_nat k mod 2 =? 1)%Z = negb (Nat.even k)).
Proof.
  intros k. destruct (Nat.even k) eqn:E; simpl.
  - apply Nat.even_spec in E. destruct E as [m ->].
    apply Z.eqb_neq. zify. Z.to_euclidean_division_equations. lia.
  - assert (O : Nat.odd k = true) by (unfold Nat.odd; rewrite E; reflexivity).
    apply Nat.odd_spec in O. destruct O as [m ->].
    apply Z.eqb_eq. zify. Z.to_euclidean_division_equations. lia.
Qed.

Lemma half_of_len : forall k : nat, Z.to_nat (Z.of_nat k / 2) = (k / 2)%nat.
Proof.
  intros k. change 2%Z with (Z.of_nat 2).
  rewrite <- Nat2Z.inj_div. apply Nat2Z.id.
Qed.

Lemma half_of_len_pred : forall k : nat,
  Z.to_nat (Z.of_nat k / 2 - 1) = (k / 2 - 1)%nat.
Proof.
  intros k. change 2%Z with (Z.of_nat 2).
  rewrite <- Nat2Z.inj_div. lia.
Qed.

(** [statistics.median] on at least one sample. *)
Lemma statistics_median_reference : forall l : list Q,
  l <> [] -> statistics_median l = Ok (Reference.median_of l).
Proof.
  intros l Hl. unfold statistics_median, Reference.median_of, py_len, py_index.
  assert (Hk : List.length (sorted l) <> O).
  { rewrite sorted_length. destruct l; simpl; congruence. }
  destruct (Z.of_nat (List.length (sorted l)) =? 0)%Z eqn:E0;
    [apply Z.eqb_eq in E0; lia|].
  rewrite parity_of_len.
  destruct (Nat.even (List.length (sorted l))); simpl.
  - rewrite half_of_len, half_of_len_pred. reflexivity.
  - rewrite half_of_len. reflexivity.
Qed.

(** [statistics.mean] on at least one sample. *)
Lemma statistics_mean_reference : forall l : list Q,
  l <> [] ->
  exists m, statistics_mean l = Ok m /\ m == Reference.arithmetic_mean l.
Proof.
  intros l Hl. unfold statistics_mean, Reference.arithmetic_mean, py_len.
  destruct (Z.of_nat (List.length l) <? 1)%Z eqn:E.
  - apply Z.ltb_lt in E. destruct l; simpl in *; [congruence|lia].
  - eexists. split; [reflexivity|]. rewrite py_sum_total. reflexivity.
Qed.

(** [statistics.stdev] on at least two samples. *)
Lemma statistics_stdev_reference : forall l : list Q,
  (2 <= List.length l)%nat ->
  statistics_stdev l = Ok (Reference.sample_stddev l).
Proof.
  intros l Hl.
  unfold statistics_stdev, statistics_variance, Reference.sample_stddev,
    Reference.sample_variance, Reference.arithmetic_mean, py_len.
  destruct (Z.of_nat (List.length l) <? 2)%Z eqn:E;
    [apply Z.ltb_lt in E; lia|].
  simpl. f_equal. apply float_sqrt_compat.
  rewrite py_sum_total.
  rewrite (total_map_ext
             (fun x =>
                (x - py_sum l / inject_Z (Z.of_nat (List.length l)))
                * (x - py_sum l / inject_Z (Z.of_nat (List.length l))))
             (fun x =>
                (x - Reference.total l / inject_Z (Z.of_nat (List.length l)))
                ^ 2)).
  - reflexivity.
  - intros x. rewrite py_sum_total. simpl. reflexivity.
Qed.

(** [statistics.stdev] refuses fewer than two samples: the guard
    [len(execution_times) > 1] is what keeps it from raising. *)
Lemma statistics_stdev_one : forall x : Q,
  statistics_stdev [x] = Raise StatisticsError.
Proof. intros x. reflexivity. Qed.

Lemma py_min_reference : forall l : list Q,
  l <> [] -> exists m, py_min l = Ok m /\ m == Reference.least l.
Proof.
  intros [|x l] Hl; [congruence|]. simpl.
  eexists. split; [reflexivity|]. apply scan_min.
Qed.

Lemma py_max_reference : forall l : list Q,
  l <> [] -> exists m, py_max l = Ok m /\ m == Reference.greatest l.
Proof.
  intros [|x l] Hl; [congruence|]. simpl.
  eexists. split; [reflexivity|]. apply scan_max.
Qed.

(** The statistics of a non-empty list of samples. *)
Lemma summarize_reference : forall samples : list Q,
  samples <> [] ->
  exists r r',
    summarize samples = Ok r
    /\ Reference.summarize samples = Some r'
    /\ Reference.same_statistics r r'.
Proof.
  intros samples Hne.
  destruct (statistics_mean_reference Hne) as (m & Hm & Em).
  destruct (py_min_reference Hne) as (lo & Hlo & Elo).
  destruct (py_max_reference Hne) as (hi & Hhi & Ehi).
  unfold summarize.
  rewrite Hm, (statistics_median_reference Hne), Hlo, Hhi. simpl.
  destruct samples as [|x rest]; [congruence|].
  unfold Reference.summarize.
  destruct rest as [|y rest].
  - simpl. do 2 eexists. split; [reflexivity|]. split; [reflexivity|].
    repeat split; simpl; try assumption; reflexivity.
  - assert (H2 : (2 <= List.length (x :: y :: rest))%nat) by (simpl; lia).
    replace (1 <? py_len (x :: y :: rest))%Z with true
      by (symmetry; apply Z.ltb_lt; unfold py_len; simpl List.length; lia).
    rewrite (statistics_stdev_reference _ H2). simpl bind.
    do 2 eexists. split; [reflexivity|]. split; [reflexivity|].
    repeat split; simpl; try assumption; reflexivity.
Qed.

Lemma summarize_keeps_samples : forall (samples : list Q) r,
  summarize samples = Ok r -> execution_times r = samples.
Proof.
  intros samples r. unfold summarize.
  destruct (statistics_mean samples); simpl; [|discriminate].
  destruct (statistics_median samples); simpl; [|discriminate].
  destruct (if (1 <? py_len samples)%Z then statistics_stdev samples else Ok 0);
    simpl; [|discriminate].
  destruct (py_min samples); simpl; [|discriminate].
  destruct (py_max samples); simpl; [|discriminate].
  intros H. injection H as <-. reflexivity.
Qed.



(** C7.  Without a single sample [summarize] fails: [statistics.mean] raises
    [StatisticsError] (the design document's InsufficientDataError) before
    any other statistic is computed, and the reference fails as well.  This
    is how [execute_query_with_stats] ends when it is asked for no
    iteration: no query is run and the error reaches the caller. *)
Theorem summarize_empty_fails :
  summarize [] = Raise StatisticsError
  /\ Reference.summarize [] = None
  /\ (forall (World : Type) (time_time : World -> Q)
             (sleep : Z -> World -> World) (name : string)
             (query_func : World -> World * Result unit) (st : State World),
        execute_query_with_stats time_time sleep 0 name query_func st
        = (st, Raise StatisticsError)).
Proof.
  split; [reflexivity|]. split; [reflexivity|].
  intros. reflexivity.
Qed.

End StatisticsFacts.

(** ** The measurement loop of scripts/comparisons.py *)

Module RunnerFacts.

Import DatabaseBenchmark.

Local Open Scope Z_scope.

Lemma range_unit_length : forall fuel i stop,
  (Z.to_nat (stop - i) <= fuel)%nat ->
  List.length (range_from fuel i stop 1) = Z.to_nat (stop - i).
Proof.
  induction fuel as [|fuel IH]; intros i stop Hfuel; simpl.
  - lia.
  - destruct (i <? stop) eqn:E.
    + apply Z.ltb_lt in E. simpl. rewrite IH by lia. lia.
    + apply Z.ltb_ge in E. simpl. lia.
Qed.

Lemma py_range_unit_length : forall n,
  List.length (py_range 0 n 1) = Z.to_nat n.
Proof.
  intros n. unfold py_range. rewrite range_unit_length by lia. f_equal. lia.
Qed.

Section Runner.

Variable World : Type.
Variable time_time : World -> Q.
Variable sleep : Z -> World -> World.
Variable query_func : World -> World * Result unit.

Local Abbreviation run_iterations :=
  (run_iterations time_time sleep query_func).

(** The loop does not look at the iteration numbers. *)
Lemma run_iterations_ext : forall (its its' : list Z) acc (st : State World),
  List.length its = List.length its' ->
  run_iterations its acc st = run_iterations its' acc st.
Proof.
  induction its as [|i its IH]; intros [|i' its'] acc st H; simpl in H;
    try discriminate; [reflexivity|].
  simpl. destruct (call query_func st) as [st1 [u|e]]; [|reflexivity].
  apply IH. lia.
Qed.

Lemma run_iterations_app : forall (pre post : list Z) acc (st : State World),
  run_iterations (pre ++ post) acc st
  = match run_iterations pre acc st with
    | (st1, Ok acc1) => run_iterations post acc1 st1
    | (st1, Raise e) => (st1, Raise e)
    end.
Proof.
  induction pre as [|i pre IH]; intros post acc st; simpl.
  - reflexivity.
  - destruct (call query_func st) as [st1 [u|e]]; [|reflexivity].
    apply IH.
Qed.

(** An operation that raises in the iteration after [j] good ones. *)
Lemma run_iterations_raise : forall (n : Z) (j : Z) (st st1 : State World)
    samples w e,
  0 <= j < n ->
  run_iterations (py_range 0 j 1) [] st = (st1, Ok samples) ->
  query_func (world st1) = (w, Raise e) ->
  run_iterations (py_range 0 n 1) [] st
  = ({| world := w; log := log st1 ++ [EvQuery] |}, Raise e).
Proof.
  intros n j st st1 samples w e Hj Hpre Hq.
  rewrite (run_iterations_ext (py_range 0 n 1)
             (py_range 0 j 1 ++ j :: py_range 0 (n - j - 1) 1)).
  - rewrite run_iterations_app, Hpre. simpl.
    unfold call. rewrite Hq. reflexivity.
  - rewrite length_app. simpl. rewrite !py_range_unit_length. lia.
Qed.

Lemma calls_of_iterations : forall its : list Z,
  calls (flat_map (fun _ : Z => [EvQuery; EvSleep 1]) its) = py_len its.
Proof.
  induction its as [|i its IH]; [reflexivity|].
  unfold calls, py_len in *. simpl. lia.
Qed.

(** An operation that never raises: every iteration adds its elapsed time
    at the end of the samples, one call and one cooldown to the log. *)
Lemma run_iterations_ok :
  (forall w, snd (query_func w) = Ok tt) ->
  forall (its : list Z) acc (st : State World),
    snd (run_iterations its acc st)
    = Ok (acc ++ map (elapsed time_time query_func)
                   (iteration_worlds sleep query_func (List.length its)
                      (world st)))
    /\ log (fst (run_iterations its acc st))
       = log st ++ flat_map (fun _ : Z => [EvQuery; EvSleep 1]) its.
Proof.
  intros Hok. induction its as [|i its IH]; intros acc st; simpl.
  - rewrite !app_nil_r. split; reflexivity.
  - unfold call. pose proof (Hok (world st)) as Hq.
    destruct (query_func (world st)) as [w r] eqn:E. simpl in Hq. subst r.
    change (world {| world := w; log := log st ++ [EvQuery] |}) with w.
    destruct (IH (acc ++ [(time_time w - time_time (world st))%Q])
                (time_sleep sleep 1
                   {| world := w; log := log st ++ [EvQuery] |}))
      as [IHres IHlog].
    rewrite IHres, IHlog. simpl.
    unfold elapsed at 2. rewrite E. simpl.
    rewrite <- !app_assoc. split; reflexivity.
Qed.

Lemma run_iterations_count : forall (its : list Z) acc (st st1 : State World)
    samples,
  run_iterations its acc st = (st1, Ok samples) ->
  List.length samples = (List.length acc + List.length its)%nat.
Proof.
  induction its as [|i its IH]; intros acc st st1 samples H; simpl in H.
  - injection H as _ <-. simpl. lia.
  - destruct (call query_func st) as [st2 [u|e]]; [|discriminate].
    apply IH in H. rewrite length_app in H. simpl in *. lia.
Qed.

End Runner.

(** C8.  When the operation raises in the iteration that follows [j]
    completed ones, [execute_query_with_stats] raises that exception: what
    reaches the caller is the exception alone, and the [j] samples measured
    before it are in no part of the outcome.  The operation has been called
    [j + 1] times and is not called again. *)
Theorem operation_failure_propagates :
  forall (World : Type) (time_time : World -> Q) (sleep : Z -> World -> World)
         (query_func : World -> World * Result unit) (iterations j : Z)
         (name : string) (st st1 : State World) (samples : list Q)
         (w : World) (e : PyExn),
    0 <= j < iterations ->
    run_iterations time_time sleep query_func (py_range 0 j 1) [] st
    = (st1, Ok samples) ->
    query_func (world st1) = (w, Raise e) ->
    py_len samples = j
    /\ execute_query_with_stats time_time sleep iterations name query_func st
       = ({| world := w; log := log st1 ++ [EvQuery] |}, Raise e).
Proof.
  intros World time_time sleep query_func iterations j name st st1 samples
         w e Hj Hpre Hq.
  split.
  - apply run_iterations_count in Hpre. unfold py_len. rewrite Hpre.
    rewrite py_range_unit_length. simpl. lia.
  - unfold execute_query_with_stats.
    rewrite (run_iterations_raise time_time sleep query_func st Hj Hpre Hq).
    reflexivity.
Qed.

(** The flaky query of the small deployment fails in its second run. *)
Lemma operation_failure_propagates_witness :
  snd (execute_query_with_stats Scenario.bench_time Scenario.bench_sleep
         default_iterations "postgres_select" Scenario.flaky_query
         Scenario.bench_start)
  = Raise (OtherException "OperationalError")
  /\ calls (log (fst (execute_query_with_stats Scenario.bench_time
                        Scenario.bench_sleep default_iterations
                        "postgres_select" Scenario.flaky_query
                        Scenario.bench_start)))
     = 2.
Proof.
  destruct (@operation_failure_propagates _ Scenario.bench_time
              Scenario.bench_sleep Scenario.flaky_query default_iterations 1
              "postgres_select" Scenario.bench_start
              (fst (run_iterations Scenario.bench_time Scenario.bench_sleep
                      Scenario.flaky_query (py_range 0 1 1) []
                      Scenario.bench_start))
              [1 # 4]%Q
              {| Scenario.clock := ((0 + (1 # 4) + inject_Z 1) + (1 # 4))%Q;
                 Scenario.served := 2 |}
              (OtherException "OperationalError"))
    as [_ H]; try (vm_compute; reflexivity).
  { vm_compute. split; [discriminate|reflexivity]. }
  rewrite H. split; vm_compute; reflexivity.
Defined.



End RunnerFacts.

(** ** The findings of scripts/comparisons.py *)

Module FindingsFacts.

Import DatabaseBenchmark.

Local Open Scope Q_scope.

Lemma Qlt_le_dec_bool : forall (A : Type) (x y : Q) (a b : A),
  (if Qlt_le_dec x y then a else b) = (if Qlt_bool x y then a else b).
Proof.
  intros A x y a b. destruct (Qlt_le_dec x y) as [Hlt|Hle].
  - apply StatisticsFacts.Qlt_bool_iff in Hlt. rewrite Hlt. reflexivity.
  - apply StatisticsFacts.Qlt_bool_false_iff in Hle. rewrite Hle. reflexivity.
Qed.

Lemma Qeq_bool_nonzero : forall q : Q, ~ q == 0 -> Qeq_bool q 0 = false.
Proof.
  intros q H. destruct (Qeq_bool q 0) eqn:E; [|reflexivity].
  apply Qeq_bool_iff in E. contradiction.
Qed.

(** The inner loop appends, pair by pair, the sentences of the findings the
    reference emits. *)
Lemma pg_loop_reference : forall category mongo_name mongo_metrics
    (pg_tests : Tests) (findings : list string),
  (forall name m, In (name, m) pg_tests -> ~ mean m == 0) ->
  pg_loop category mongo_name mongo_metrics pg_tests findings
  = Ok (findings
        ++ map Reference.render
             (flat_map
                (Reference.compare_pair category (mongo_name, mongo_metrics))
                pg_tests)).
Proof.
  intros category mongo_name mongo_metrics.
  induction pg_tests as [|[pg_name pg_metrics] rest IH];
    intros findings Hnz; cbn [pg_loop flat_map map].
  - rewrite app_nil_r. reflexivity.
  - rewrite (Qeq_bool_nonzero (Hnz pg_name pg_metrics (or_introl eq_refl))).
    unfold Reference.compare_pair at 1. cbn [fst snd].
    rewrite Qlt_le_dec_bool. unfold Reference.diff_percent.
    destruct (Qlt_bool 10
                (Qabs ((mean mongo_metrics - mean pg_metrics)
                       / mean pg_metrics * 100))).
    + rewrite IH by (intros name m Hin; apply (Hnz name m); right; exact Hin).
      rewrite <- app_assoc. cbn [app map]. do 3 f_equal.
      unfold Reference.render.
      cbn [Reference.category Reference.faster Reference.magnitude
           Reference.test_A Reference.test_B].
      rewrite Qlt_le_dec_bool.
      destruct (Qlt_bool ((mean mongo_metrics - mean pg_metrics)
                          / mean pg_metrics * 100) 0); reflexivity.
    + rewrite IH by (intros name m Hin; apply (Hnz name m); right; exact Hin).
      reflexivity.
Qed.

Lemma mongo_loop_reference : forall category (mongo_tests pg_tests : Tests)
    (findings : list string),
  (mongo_tests <> [] -> forall name m, In (name, m) pg_tests -> ~ mean m == 0) ->
  mongo_loop category mongo_tests pg_tests findings
  = Ok (findings
        ++ map Reference.render
             (flat_map
                (fun a => flat_map (Reference.compare_pair category a) pg_tests)
                mongo_tests)).
Proof.
  intros category mongo_tests pg_tests.
  induction mongo_tests as [|[mongo_name mongo_metrics] rest IH];
    intros findings Hnz; simpl.
  - rewrite app_nil_r. reflexivity.
  - assert (Hpg : forall name m, In (name, m) pg_tests -> ~ mean m == 0)
      by (apply Hnz; discriminate).
    rewrite (pg_loop_reference category mongo_name mongo_metrics pg_tests
               findings Hpg).
    simpl. rewrite IH by (intros _; exact Hpg).
    rewrite <- app_assoc, map_app. reflexivity.
Qed.

Lemma category_loop_reference : forall (results : Results)
    (findings : list string),
  (forall category tests name m,
      In (category, tests) results ->
      mongo_tests_of tests <> [] ->
      In (name, m) (pg_tests_of tests) -> ~ mean m == 0) ->
  category_loop results findings
  = Ok (findings ++ map Reference.render (Reference.compare results)).
Proof.
  induction results as [|[category tests] rest IH]; intros findings Hnz; simpl.
  - rewrite app_nil_r. reflexivity.
  - rewrite mongo_loop_reference
      by (intros Hne name m; apply (Hnz category tests name m);
          [left; reflexivity|exact Hne]).
    simpl. rewrite IH
      by (intros c t name m Hin; apply (Hnz c t name m); right; exact Hin).
    rewrite <- app_assoc, map_app. reflexivity.
Qed.

(** What the reference emits for one pair of tests. *)
Lemma compare_pair_cases : forall category (a b : string * QueryResult),
  let d := Reference.diff_percent (mean (snd a)) (mean (snd b)) in
  (10 < Qabs d ->
   exists f,
     Reference.compare_pair category a b = [f]
     /\ Reference.category f = category
     /\ Reference.test_A f = fst a
     /\ Reference.test_B f = fst b
     /\ (Reference.faster f = Reference.BackendA <-> d < 0)
     /\ Reference.magnitude f = Qabs d)
  /\ (Qabs d <= 10 -> Reference.compare_pair category a b = []).
Proof.
  intros category a b d. unfold Reference.compare_pair. fold d.
  split.
  - intros Hgt. destruct (Qlt_le_dec 10 (Qabs d)) as [_|Hle];
      [|exfalso; exact (Qlt_not_le _ _ Hgt Hle)].
    eexists. split; [reflexivity|]. simpl.
    repeat split; try reflexivity.
    + destruct (Qlt_le_dec d 0) as [Hneg|Hpos]; [intros _; exact Hneg|].
      discriminate.
    + intros Hneg. destruct (Qlt_le_dec d 0) as [_|Hpos]; [reflexivity|].
      exfalso. exact (Qlt_not_le _ _ Hneg Hpos).
  - intros Hle. destruct (Qlt_le_dec 10 (Qabs d)) as [Hgt|_]; [|reflexivity].
    exfalso. exact (Qlt_not_le _ _ Hgt Hle).
Qed.



(** Means of 0.098 s and 0.100 s, a difference of 2%: no finding. *)
Lemma no_finding_within_threshold :
  _generate_findings (Scenario.one_pair (98 # 1000) (1 # 10)) = Ok [].
Proof. reflexivity. Qed.

(** A difference of exactly 10% is no finding either. *)
Lemma no_finding_at_threshold :
  _generate_findings (Scenario.one_pair (11 # 100) (1 # 10)) = Ok [].
Proof. reflexivity. Qed.

(** A PostgreSQL mean of zero makes the division raise. *)
Lemma findings_zero_mean :
  _generate_findings (Scenario.one_pair (1 # 10) 0) = Raise ZeroDivisionError.
Proof. reflexivity. Qed.

End FindingsFacts.

(** ** The pre-processing script *)

Module PreprocessingFacts.

Import DatabaseBenchmark Preprocessing.

Local Open Scope Q_scope.

Lemma Qle_bool_false_lt (x y : Q) : Qle_bool x y = false <-> y < x.
Proof.
  split.
  - intros H. apply Qnot_le_lt. intros Hle. apply Qle_bool_iff in Hle.
    congruence.
  - intros H. destruct (Qle_bool x y) eqn:E; [|reflexivity].
    apply Qle_bool_iff in E. exfalso. exact (Qlt_not_le _ _ H E).
Qed.

(** The three labels of TextBlob, read off a polarity. *)
Lemma textblob_label_cases (p : Q) :
  let label := (if Qlt_bool 0 p then "positive"
                else if Qlt_bool p 0 then "negative" else "neutral")%string in
  (label = "positive"%string <-> 0 < p) /\
  (label = "negative"%string <-> p < 0) /\
  (label = "neutral"%string <-> p == 0).
Proof.
  cbv zeta.
  destruct (Qlt_bool 0 p) eqn:E1.
  - apply StatisticsFacts.Qlt_bool_iff in E1.
    repeat split; intros H; try discriminate; try reflexivity; try assumption;
      exfalso.
    + exact (Qlt_irrefl _ (Qlt_trans _ _ _ E1 H)).
    + rewrite H in E1. exact (Qlt_irrefl _ E1).
  - apply StatisticsFacts.Qlt_bool_false_iff in E1.
    destruct (Qlt_bool p 0) eqn:E2.
    + apply StatisticsFacts.Qlt_bool_iff in E2.
      repeat split; intros H; try discriminate; try reflexivity;
        try assumption; exfalso.
      * exact (Qlt_not_le _ _ H E1).
      * rewrite H in E2. exact (Qlt_irrefl _ E2).
    + apply StatisticsFacts.Qlt_bool_false_iff in E2.
      repeat split; intros H; try discriminate; try reflexivity.
      * exfalso. exact (Qlt_not_le _ _ H E1).
      * exfalso. exact (Qlt_not_le _ _ H E2).
      * apply Qle_antisym; assumption.
Qed.

(** The three labels of VADER, read off a compound score. *)
Lemma vader_label_cases (c : Q) :
  let label := (if Qle_bool (5 # 100) c then "positive"
                else if Qle_bool c (- (5 # 100)) then "negative"
                else "neutral")%string in
  (label = "positive"%string <-> 5 # 100 <= c) /\
  (label = "negative"%string <-> c <= - (5 # 100)) /\
  (label = "neutral"%string <-> - (5 # 100) < c /\ c < 5 # 100).
Proof.
  cbv zeta.
  destruct (Qle_bool (5 # 100) c) eqn:E1.
  - apply Qle_bool_iff in E1.
    split; [|split]; split; intros H; try discriminate; try reflexivity;
      try assumption; exfalso.
    + assert (5 # 100 <= - (5 # 100)) as Habs by (eapply Qle_trans; eassumption).
      revert Habs. compute. intros Habs. apply Habs. reflexivity.
    + destruct H as [_ H]. exact (Qlt_not_le _ _ H E1).
  - apply Qle_bool_false_lt in E1.
    destruct (Qle_bool c (- (5 # 100))) eqn:E2.
    + apply Qle_bool_iff in E2.
      split; [|split]; split; intros H; try discriminate; try reflexivity;
        try assumption; exfalso.
      * exact (Qlt_not_le _ _ E1 H).
      * destruct H as [H _]. exact (Qlt_not_le _ _ H E2).
    + apply Qle_bool_false_lt in E2.
      split; [|split]; split; intros H; try discriminate; try reflexivity.
      * exfalso. exact (Qlt_not_le _ _ E1 H).
      * exfalso. exact (Qlt_not_le _ _ E2 H).
      * split; assumption.
Qed.

(** The labels of the returned dictionary are computed from the scores
    of the returned dictionary, on the normal path and on the fallback. *)
Lemma analyze_sentiment_labels
  (blob_polarity_of vader_compound_of : string -> Result Q) (text : string) :
  textblob_sentiment
    (analyze_sentiment blob_polarity_of vader_compound_of text)
  = (if Qlt_bool 0 (textblob_polarity
                      (analyze_sentiment blob_polarity_of vader_compound_of
                                         text))
     then "positive"
     else if Qlt_bool (textblob_polarity
                         (analyze_sentiment blob_polarity_of
                                            vader_compound_of text)) 0
          then "negative" else "neutral")%string /\
  vader_sentiment
    (analyze_sentiment blob_polarity_of vader_compound_of text)
  = (if Qle_bool (5 # 100)
                 (vader_compound
                    (analyze_sentiment blob_polarity_of vader_compound_of
                                       text))
     then "positive"
     else if Qle_bool (vader_compound
                         (analyze_sentiment blob_polarity_of
                                            vader_compound_of text))
                      (- (5 # 100))
          then "negative" else "neutral")%string.
Proof.
  unfold analyze_sentiment, analyze.
  destruct (blob_polarity_of text) as [p | e]; cbn [bind];
    [|split; reflexivity].
  destruct (vader_compound_of text) as [c | e]; cbn [bind];
    split; reflexivity.
Qed.

(** X3.  Whatever the two analyzers return or raise, the labels of the
    dictionary [analyze_sentiment] returns are the ones its scores give:
    TextBlob positive exactly above 0, negative exactly below 0 and neutral
    exactly at 0; VADER positive exactly from 0.05, negative exactly up to
    -0.05 and neutral exactly strictly between. *)
Theorem sentiment_labels_follow_scores
  (blob_polarity_of vader_compound_of : string -> Result Q) (text : string) :
  (textblob_sentiment
     (analyze_sentiment blob_polarity_of vader_compound_of text)
   = "positive"%string
   <-> 0 < textblob_polarity
             (analyze_sentiment blob_polarity_of vader_compound_of text)) /\
  (textblob_sentiment
     (analyze_sentiment blob_polarity_of vader_compound_of text)
   = "negative"%string
   <-> textblob_polarity
         (analyze_sentiment blob_polarity_of vader_compound_of text) < 0) /\
  (textblob_sentiment
     (analyze_sentiment blob_polarity_of vader_compound_of text)
   = "neutral"%string
   <-> textblob_polarity
         (analyze_sentiment blob_polarity_of vader_compound_of text) == 0) /\
  (vader_sentiment
     (analyze_sentiment blob_polarity_of vader_compound_of text)
   = "positive"%string
   <-> 5 # 100 <= vader_compound
                    (analyze_sentiment blob_polarity_of vader_compound_of
                                       text)) /\
  (vader_sentiment
     (analyze_sentiment blob_polarity_of vader_compound_of text)
   = "negative"%string
   <-> vader_compound
         (analyze_sentiment blob_polarity_of vader_compound_of text)
       <= - (5 # 100)) /\
  (vader_sentiment
     (analyze_sentiment blob_polarity_of vader_compound_of text)
   = "neutral"%string
   <-> - (5 # 100) < vader_compound
                       (analyze_sentiment blob_polarity_of vader_compound_of
                                          text)
       /\ vader_compound
            (analyze_sentiment blob_polarity_of vader_compound_of text)
          < 5 # 100).
Proof.
  destruct (analyze_sentiment_labels blob_polarity_of vader_compound_of text)
    as [Ht Hv].
  rewrite Ht, Hv.
  pose proof (textblob_label_cases
                (textblob_polarity
                   (analyze_sentiment blob_polarity_of vader_compound_of
                                      text))) as Hct.
  pose proof (vader_label_cases
                (vader_compound
                   (analyze_sentiment blob_polarity_of vader_compound_of
                                      text))) as Hcv.
  cbv zeta in Hct, Hcv.
  destruct Hct as (? & ? & ?), Hcv as (? & ? & ?). repeat split; tauto.
Qed.

(** *** Duplicates *)

Lemma existsb_eqb_In (k : Z) (seen : list Z) :
  existsb (Z.eqb k) seen = true <-> In k seen.
Proof.
  rewrite existsb_exists. split.
  - intros (x & Hin & Heq). apply Z.eqb_eq in Heq. subst. exact Hin.
  - intros Hin. exists k. split; [exact Hin | apply Z.eqb_refl].
Qed.

Lemma existsb_eqb_not_In (k : Z) (seen : list Z) :
  existsb (Z.eqb k) seen = false <-> ~ In k seen.
Proof.
  rewrite <- existsb_eqb_In. destruct (existsb (Z.eqb k) seen); split;
    congruence.
Qed.

Section KeepFirst.

Variable A : Type.
Variable key : A -> Z.

Lemma keep_first_In (l : list A) : forall seen x,
  In x (keep_first key seen l) -> In x l /\ ~ In (key x) seen.
Proof.
  induction l as [|r l IH]; intros seen x Hin; cbn [keep_first] in Hin.
  - destruct Hin.
  - destruct (existsb (Z.eqb (key r)) seen) eqn:E.
    + destruct (IH _ _ Hin) as [H1 H2]. split; [right; exact H1 | exact H2].
    + destruct Hin as [-> | Hin].
      * split; [left; reflexivity | apply existsb_eqb_not_In; exact E].
      * destruct (IH _ _ Hin) as [H1 H2]. split; [right; exact H1|].
        intros Hs. apply H2. right. exact Hs.
Qed.

Lemma keep_first_NoDup (l : list A) : forall seen,
  NoDup (map key (keep_first key seen l)).
Proof.
  induction l as [|r l IH]; intros seen; cbn [keep_first].
  - constructor.
  - destruct (existsb (Z.eqb (key r)) seen) eqn:E; [apply IH|].
    cbn [map]. constructor; [|apply IH].
    intros Hin. apply in_map_iff in Hin. destruct Hin as (x & Hk & Hin).
    apply keep_first_In in Hin. destruct Hin as [_ Hn]. apply Hn.
    left. symmetry. exact Hk.
Qed.

Lemma keep_first_covers (l : list A) : forall seen x,
  In x l -> ~ In (key x) seen ->
  In (key x) (map key (keep_first key seen l)).
Proof.
  induction l as [|r l IH]; intros seen x Hin Hn; [destruct Hin|].
  cbn [keep_first].
  destruct (existsb (Z.eqb (key r)) seen) eqn:E.
  - destruct Hin as [-> | Hin]; [|apply IH; assumption].
    apply existsb_eqb_In in E. contradiction.
  - cbn [map]. destruct (Z.eq_dec (key r) (key x)) as [Heq | Hne].
    + left. exact Heq.
    + right. destruct Hin as [-> | Hin]; [congruence|].
      apply IH; [exact Hin|]. intros [H | H]; [congruence | contradiction].
Qed.

(** A row that is kept is the first one of its id. *)
Lemma keep_first_first (l : list A) : forall seen x,
  In x (keep_first key seen l) ->
  exists l1 l2, l = l1 ++ x :: l2 /\ ~ In (key x) (map key l1).
Proof.
  induction l as [|r l IH]; intros seen x Hin; cbn [keep_first] in Hin.
  - destruct Hin.
  - destruct (existsb (Z.eqb (key r)) seen) eqn:E.
    + pose proof (keep_first_In _ _ _ Hin) as [_ Hn].
      destruct (IH _ _ Hin) as (l1 & l2 & -> & Hfirst).
      exists (r :: l1), l2. split; [reflexivity|].
      cbn [map]. intros [H | H]; [|contradiction].
      apply existsb_eqb_In in E. rewrite H in E. contradiction.
    + destruct Hin as [-> | Hin].
      * exists [], l. split; [reflexivity | intros []].
      * pose proof (keep_first_In _ _ _ Hin) as [_ Hn].
        destruct (IH _ _ Hin) as (l1 & l2 & -> & Hfirst).
        exists (r :: l1), l2. split; [reflexivity|].
        cbn [map]. intros [H | H]; [|contradiction].
        apply Hn. left. exact H.
Qed.

Lemma keep_first_distinct (l : list A) : forall seen,
  NoDup (map key l) -> (forall x, In x l -> ~ In (key x) seen) ->
  keep_first key seen l = l.
Proof.
  induction l as [|r l IH]; intros seen Hnd Hseen; [reflexivity|].
  cbn [keep_first]. cbn [map] in Hnd. inversion Hnd as [|? ? Hr Hnd']; subst.
  assert (existsb (Z.eqb (key r)) seen = false) as ->.
  { apply existsb_eqb_not_In. apply Hseen. left. reflexivity. }
  f_equal. apply IH; [exact Hnd'|].
  intros x Hx [H | H].
  - apply Hr. rewrite H. apply in_map. exact Hx.
  - exact (Hseen x (or_intror Hx) H).
Qed.

End KeepFirst.

Lemma duplicated_from_distinct (keys : list Z) : forall seen,
  NoDup keys -> (forall k, In k keys -> ~ In k seen) ->
  duplicated_from seen keys = 0%Z.
Proof.
  induction keys as [|k keys IH]; intros seen Hnd Hseen; [reflexivity|].
  cbn [duplicated_from]. inversion Hnd as [|? ? Hk Hnd']; subst.
  assert (existsb (Z.eqb k) seen = false) as ->.
  { apply existsb_eqb_not_In. apply Hseen. left. reflexivity. }
  rewrite IH; [reflexivity | exact Hnd' |].
  intros k' Hk' [H | H].
  - subst. contradiction.
  - exact (Hseen k' (or_intror Hk') H).
Qed.

Lemma filter_all (A : Type) (f : A -> bool) (l : list A) :
  py_len (filter (fun r => negb (f r)) l) = 0%Z -> filter f l = l.
Proof.
  unfold py_len. induction l as [|a l IH]; intros H; [reflexivity|].
  cbn [filter] in *. destruct (f a); cbn [negb] in H.
  - f_equal. apply IH. exact H.
  - cbn [List.length] in H. lia.
Qed.

Lemma StronglySorted_app_r (A : Type) (R : A -> A -> Prop) (l1 l2 : list A) :
  StronglySorted R (l1 ++ l2) -> StronglySorted R l2.
Proof.
  induction l1 as [|a l1 IH]; intros H; [exact H|].
  apply IH. apply StronglySorted_inv in H. exact (proj1 H).
Qed.

Section HandleDuplicates.

Variable parse_date : string -> option Z.
Variable sort_values_desc : list (Row (option Z)) -> list (Row (option Z)).

Local Abbreviation parsed := (apply_parse_date parse_date).
Local Abbreviation dated df := (filter (@notna Z) (parsed df)).

Lemma handle_duplicates_dated (df : list (Row string)) :
  handle_duplicates parse_date sort_values_desc df
  = drop_duplicates (@ids _) (sort_values_desc (dated df)).
Proof.
  unfold handle_duplicates.
  destruct (0 <? py_len (filter (fun r => negb (notna r)) (parsed df)))%Z
    eqn:E; [reflexivity|].
  apply Z.ltb_ge in E.
  rewrite filter_all; [reflexivity|]. unfold py_len in *. lia.
Qed.

Lemma handle_duplicates_distinct (df : list (Row string)) :
  NoDup (map (@ids _) (handle_duplicates parse_date sort_values_desc df)).
Proof.
  rewrite handle_duplicates_dated. apply keep_first_NoDup.
Qed.

Lemma dated_In (df : list (Row string)) (r : Row (option Z)) :
  In r (dated df) <->
  exists r0 d, In r0 df /\ parse_date (date r0) = Some d /\ parsed_as r0 d r.
Proof.
  unfold parsed_as. rewrite filter_In. unfold apply_parse_date. rewrite in_map_iff. split.
  - intros [(r0 & <- & Hin) Hd]. unfold notna in Hd. cbn [date] in Hd.
    destruct (parse_date (date r0)) as [d|] eqn:E; [|discriminate].
    exists r0, d. repeat split; assumption.
  - intros (r0 & d & Hin & Hd & ->). split.
    + exists r0. rewrite Hd. split; [reflexivity | exact Hin].
    + reflexivity.
Qed.

(** X4.  When the sort of pandas returns the rows with a date, newest
    first, [handle_duplicates] returns rows with pairwise distinct ids;
    each of them is an input row whose date parsed, and no input row of
    the same id has a later date; and every id of an input row whose date
    parsed is the id of a returned row. *)
Theorem handle_duplicates_keeps_latest (df : list (Row string))
  (Hperm : Permutation (sort_values_desc (dated df)) (dated df))
  (Hsorted : StronglySorted newer_or_same (sort_values_desc (dated df))) :
  NoDup (map (@ids _) (handle_duplicates parse_date sort_values_desc df)) /\
  (forall r, In r (handle_duplicates parse_date sort_values_desc df) ->
     exists r0 d,
       In r0 df /\ parse_date (date r0) = Some d /\ parsed_as r0 d r /\
       forall r' d', In r' df -> ids r' = ids r0 ->
                     parse_date (date r') = Some d' -> (d' <= d)%Z) /\
  (forall r0 d, In r0 df -> parse_date (date r0) = Some d ->
     In (ids r0)
        (map (@ids _) (handle_duplicates parse_date sort_values_desc df))).
Proof.
  split; [apply handle_duplicates_distinct|].
  rewrite handle_duplicates_dated. unfold drop_duplicates. split.
  - intros r Hr.
    destruct (keep_first_first _ _ _ _ Hr) as (l1 & l2 & Hsplit & Hfirst).
    assert (In r (dated df)) as Hin.
    { eapply Permutation_in; [exact Hperm|]. rewrite Hsplit.
      apply in_elt. }
    apply dated_In in Hin. destruct Hin as (r0 & d & Hin0 & Hd & Hr0).
    exists r0, d. split; [exact Hin0|]. split; [exact Hd|].
    split; [exact Hr0|]. unfold parsed_as in Hr0. subst r.
    intros r' d' Hin' Hid Hd'.
    set (p' := {| target := target r'; ids := ids r'; date := Some d';
                  flag := flag r'; user := user r'; text := text r' |}).
    assert (In p' (sort_values_desc (dated df))) as Hp'.
    { eapply Permutation_in; [apply Permutation_sym; exact Hperm|].
      apply dated_In. exists r', d'. split; [exact Hin'|].
      split; [exact Hd' | reflexivity]. }
    rewrite Hsplit in Hp', Hsorted.
    apply in_app_or in Hp'. destruct Hp' as [Hp' | [Hp' | Hp']].
    + exfalso. apply Hfirst. cbn [ids].
      rewrite <- Hid. change (ids r') with (ids p'). apply in_map. exact Hp'.
    + unfold p' in Hp'. injection Hp' as _ _ Hdd _ _ _. lia.
    + apply StronglySorted_app_r in Hsorted.
      apply StronglySorted_inv in Hsorted. destruct Hsorted as [_ Hall].
      rewrite Forall_forall in Hall. specialize (Hall _ Hp').
      unfold newer_or_same in Hall. cbn [date] in Hall. unfold p' in Hall.
      cbn [date] in Hall. exact Hall.
  - intros r0 d Hin0 Hd.
    set (p := {| target := target r0; ids := ids r0; date := Some d;
                 flag := flag r0; user := user r0; text := text r0 |}).
    change (ids r0) with (ids p).
    apply keep_first_covers; [|intros []].
    eapply Permutation_in; [apply Permutation_sym; exact Hperm|].
    apply dated_In. exists r0, d. split; [exact Hin0|].
    split; [exact Hd | reflexivity].
Qed.

End HandleDuplicates.


Lemma handle_duplicates_keeps_latest_witness :
  Permutation
    (PreprocessingScenario.sort_newest_first
       (filter (@notna Z)
          (apply_parse_date PreprocessingScenario.parse_seconds
             PreprocessingScenario.tweets)))
    (filter (@notna Z)
       (apply_parse_date PreprocessingScenario.parse_seconds
          PreprocessingScenario.tweets)) /\
  StronglySorted newer_or_same
    (PreprocessingScenario.sort_newest_first
       (filter (@notna Z)
          (apply_parse_date PreprocessingScenario.parse_seconds
             PreprocessingScenario.tweets))) /\
  In 7%Z
     (map (@ids _)
        (handle_duplicates PreprocessingScenario.parse_seconds
           PreprocessingScenario.sort_newest_first
           PreprocessingScenario.tweets)).
Proof.
  assert (Permutation
    (PreprocessingScenario.sort_newest_first
       (filter (@notna Z)
          (apply_parse_date PreprocessingScenario.parse_seconds
             PreprocessingScenario.tweets)))
    (filter (@notna Z)
       (apply_parse_date PreprocessingScenario.parse_seconds
          PreprocessingScenario.tweets))) as Hperm.
  { vm_compute.
    match goal with
    | |- Permutation ?x ?y => change x with (rev y)
    end.
    apply Permutation_sym, Permutation_rev. }
  assert (StronglySorted newer_or_same
    (PreprocessingScenario.sort_newest_first
       (filter (@notna Z)
          (apply_parse_date PreprocessingScenario.parse_seconds
             PreprocessingScenario.tweets)))) as Hsorted.
  { vm_compute. repeat constructor; discriminate. }
  split; [exact Hperm|]. split; [exact Hsorted|].
  exact (proj2 (proj2 (@handle_duplicates_keeps_latest
                         PreprocessingScenario.parse_seconds
                         PreprocessingScenario.sort_newest_first
                         PreprocessingScenario.tweets Hperm Hsorted))
           (PreprocessingScenario.tweet 0 7 "100" "bad day") 100%Z
           (or_introl eq_refl) eq_refl).
Defined.


(** *** Chunks *)

Section Chunks.

Variable A : Type.

Lemma split_at_sizes_concat (sizes : list nat) : forall l : list A,
  list_sum sizes = List.length l ->
  List.concat (split_at_sizes sizes l) = l.
Proof.
  induction sizes as [|k sizes IH]; intros l H; cbn [split_at_sizes].
  - destruct l; [reflexivity | discriminate].
  - change (list_sum (k :: sizes)) with (k + list_sum sizes)%nat in H.
    cbn [List.concat]. rewrite IH.
    + apply firstn_skipn.
    + rewrite length_skipn. lia.
Qed.

Lemma split_at_sizes_lengths (sizes : list nat) : forall l : list A,
  list_sum sizes = List.length l ->
  map (@List.length A) (split_at_sizes sizes l) = sizes.
Proof.
  induction sizes as [|k sizes IH]; intros l H; cbn [split_at_sizes map].
  - reflexivity.
  - change (list_sum (k :: sizes)) with (k + list_sum sizes)%nat in H.
    rewrite IH.
    + rewrite length_firstn. f_equal. lia.
    + rewrite length_skipn. lia.
Qed.

Lemma list_sum_repeat (a k : nat) : list_sum (repeat a k) = (k * a)%nat.
Proof.
  induction k as [|k IH]; [reflexivity|].
  change (list_sum (repeat a (S k))) with (a + list_sum (repeat a k))%nat.
  lia.
Qed.

Lemma Forall_repeat (P : nat -> Prop) (a k : nat) :
  ((0 < k)%nat -> P a) -> Forall P (repeat a k).
Proof.
  intros H. destruct k; [constructor|].
  apply Forall_forall. intros x Hx. apply repeat_spec in Hx. subst.
  apply H. lia.
Qed.

Lemma array_split_sizes (l : list A) (n : Z) :
  (1 <= n)%Z ->
  list_sum (repeat (Z.to_nat (py_len l / n + 1)) (Z.to_nat (py_len l mod n))
            ++ repeat (Z.to_nat (py_len l / n))
                      (Z.to_nat (n - py_len l mod n)))
  = List.length l.
Proof.
  intros Hn. rewrite list_sum_app, !list_sum_repeat.
  unfold py_len. set (N := Z.of_nat (List.length l)).
  assert (0 <= N)%Z as HN by (unfold N; lia).
  pose proof (Z.div_mod N n ltac:(lia)) as Hdm.
  pose proof (Z.mod_pos_bound N n ltac:(lia)) as Hm.
  assert (0 <= N / n)%Z as Hq by (apply Z.div_pos; lia).
  apply Nat2Z.inj. rewrite Nat2Z.inj_add, !Nat2Z.inj_mul.
  rewrite !Z2Nat.id by lia. fold N. rewrite Hdm at 5. ring.
Qed.

Lemma array_split_concat (l : list A) (n : Z) :
  (1 <= n)%Z -> List.concat (array_split l n) = l.
Proof.
  intros Hn. unfold array_split. apply split_at_sizes_concat.
  apply array_split_sizes. exact Hn.
Qed.

Lemma array_split_count (l : list A) (n : Z) :
  (1 <= n)%Z -> py_len (array_split l n) = n.
Proof.
  intros Hn. unfold py_len at 1.
  rewrite <- (length_map (@List.length A)).
  unfold array_split. rewrite split_at_sizes_lengths
    by (apply array_split_sizes; exact Hn).
  rewrite length_app, !repeat_length.
  pose proof (Z.mod_pos_bound (py_len l) n ltac:(lia)). lia.
Qed.

Lemma split_chunks_concat (df : list A) :
  List.concat (split_chunks df) = df.
Proof. unfold split_chunks. apply array_split_concat. lia. Qed.

(** X5.  The chunks [main] hands to the workers are the data frame cut
    into [max(1, len(df) // CHUNK_SIZE)] consecutive pieces: joined in
    order they give the data frame back. *)
Theorem split_chunks_partition (df : list A) :
  List.concat (split_chunks df) = df /\
  py_len (split_chunks df) = Z.max 1 (py_len df / CHUNK_SIZE).
Proof.
  split; [apply split_chunks_concat|].
  unfold split_chunks. apply array_split_count. lia.
Qed.

(** X6.  [CHUNK_SIZE] is the least size of a chunk, not the greatest:
    when the data frame has at least [CHUNK_SIZE] rows, every chunk has at
    least [CHUNK_SIZE] rows and fewer than twice as many. *)
Theorem chunk_sizes (df : list A) (Hlen : (CHUNK_SIZE <= py_len df)%Z) :
  Forall (fun chunk => (CHUNK_SIZE <= py_len chunk < 2 * CHUNK_SIZE)%Z)
         (split_chunks df).
Proof.
  unfold split_chunks, array_split, CHUNK_SIZE in *.
  set (N := py_len df) in *.
  assert (1 <= N / 10000)%Z as Hk.
  { apply Z.div_le_lower_bound; lia. }
  rewrite Z.max_r by lia.
  set (k := (N / 10000)%Z) in *.
  pose proof (Z.div_mod N 10000 ltac:(lia)) as HN.
  pose proof (Z.mod_pos_bound N 10000 ltac:(lia)) as HNm. fold k in HN.
  pose proof (Z.div_mod N k ltac:(lia)) as Hdm.
  pose proof (Z.mod_pos_bound N k ltac:(lia)) as Hm.
  set (each := (N / k)%Z) in *. set (extras := (N mod k)%Z) in *.
  assert (10000 <= each)%Z as Hlow by nia.
  assert (each < 20000)%Z as Hhigh by nia.
  assert (0 < extras -> each + 1 < 20000)%Z as Hextra by nia.
  match goal with
  | |- Forall _ (split_at_sizes ?sizes _) =>
      assert (list_sum sizes = List.length df) as Hsum
        by (apply array_split_sizes; lia);
      pose proof (split_at_sizes_lengths sizes df Hsum) as Hlens;
      assert (Forall (fun s => 10000 <= Z.of_nat s < 2 * 10000)%Z sizes)
        as Hsizes
  end.
  { apply Forall_app. split; apply Forall_repeat; intros Hpos;
      rewrite Z2Nat.id by lia; lia. }
  rewrite <- Hlens in Hsizes. rewrite Forall_map in Hsizes. exact Hsizes.
Qed.

End Chunks.

Lemma chunk_sizes_witness :
  (CHUNK_SIZE <= py_len (repeat 0%Z (Z.to_nat 25000)))%Z /\
  Forall (fun chunk => (CHUNK_SIZE <= py_len chunk < 2 * CHUNK_SIZE)%Z)
         (split_chunks (repeat 0%Z (Z.to_nat 25000))).
Proof.
  assert (CHUNK_SIZE <= py_len (repeat 0%Z (Z.to_nat 25000)))%Z as H.
  { unfold py_len. rewrite repeat_length. vm_compute. discriminate. }
  split; [exact H | exact (chunk_sizes _ H)].
Defined.


(** *** The pipeline *)

Lemma NoDup_app_inv (A : Type) (l1 l2 : list A) :
  NoDup (l1 ++ l2) ->
  NoDup l1 /\ NoDup l2 /\ (forall a, In a l1 -> ~ In a l2).
Proof.
  induction l1 as [|x l1 IH]; cbn [app]; intros H.
  - split; [constructor|]. split; [exact H | intros a []].
  - inversion H as [|? ? Hx Hnd]; subst.
    destruct (IH Hnd) as (H1 & H2 & H3). split; [|split].
    + constructor; [|exact H1]. intros Hin. apply Hx. apply in_or_app.
      left. exact Hin.
    + exact H2.
    + intros a [-> | Ha]; [|apply H3; exact Ha].
      intros Hin. apply Hx. apply in_or_app. right. exact Hin.
Qed.

Section Pipeline.

Variable parse_date : string -> option Z.
Variable sort_values_desc : list (Row (option Z)) -> list (Row (option Z)).
Variable re_clean : string -> string.
Variable blob_polarity_of : string -> Result Q.
Variable vader_compound_of : string -> Result Q.
Variable pandas_raises : list (Row (option Z)) -> option PyExn.

Local Abbreviation deduplicated df :=
  (handle_duplicates parse_date sort_values_desc df).
Local Abbreviation process_chunk :=
  (process_chunk re_clean blob_polarity_of vader_compound_of pandas_raises).
Local Abbreviation main_frame :=
  (main_frame parse_date sort_values_desc re_clean blob_polarity_of
              vader_compound_of pandas_raises).

(** One row through [process_chunk] and the post-processing. *)
Local Abbreviation through r :=
  (post_process
     {| row := r;
        cleaned_text := preprocess_text re_clean (text r);
        sentiment := analyze_sentiment blob_polarity_of vader_compound_of
                       (preprocess_text re_clean (text r)) |}).

(** The rows of the chunks that were processed. *)
Local Abbreviation survivors chunks :=
  (flat_map (fun chunk => match pandas_raises chunk with
                          | Some _ => []
                          | None => chunk
                          end) chunks).

Lemma collect_survivors (chunks : list (list (Row (option Z)))) :
  map post_process (List.concat (collect (map process_chunk chunks)))
  = map (fun r => through r) (survivors chunks).
Proof.
  induction chunks as [|chunk chunks IH]; [reflexivity|].
  cbn [map flat_map]. unfold Preprocessing.process_chunk at 1.
  destruct (pandas_raises chunk) as [e|]; cbn [collect app].
  - exact IH.
  - cbn [List.concat]. rewrite !map_app, IH, map_map. reflexivity.
Qed.

Lemma collect_nil (chunks : list (list (Row (option Z)))) :
  collect (map process_chunk chunks) = [] <->
  Forall (fun chunk => pandas_raises chunk <> None) chunks.
Proof.
  induction chunks as [|chunk chunks IH]; cbn [map collect].
  - split; [constructor | reflexivity].
  - unfold Preprocessing.process_chunk at 1.
    destruct (pandas_raises chunk) as [e|] eqn:E.
    + rewrite IH. split.
      * intros H. constructor; [congruence | exact H].
      * intros H. inversion H. assumption.
    + split; [discriminate|]. intros H. inversion H. congruence.
Qed.

Lemma survivors_distinct (chunks : list (list (Row (option Z)))) :
  NoDup (map (@ids _) (List.concat chunks)) ->
  NoDup (map (@ids _) (survivors chunks)) /\
  incl (survivors chunks) (List.concat chunks).
Proof.
  induction chunks as [|chunk chunks IH]; cbn [List.concat flat_map].
  - intros _. split; [constructor | apply incl_refl].
  - rewrite map_app. intros H.
    apply NoDup_app_inv in H. destruct H as (H1 & H2 & H3).
    destruct (IH H2) as [IH1 IH2].
    destruct (pandas_raises chunk) as [e|]; cbn [app].
    + split; [exact IH1 | apply incl_appr; exact IH2].
    + split.
      * rewrite map_app. apply NoDup_app; [exact H1 | exact IH1 |].
        intros a Ha Hin. apply (H3 a Ha).
        apply in_map_iff in Hin. destruct Hin as (r & <- & Hr).
        apply in_map. apply IH2. exact Hr.
      * apply incl_app; [apply incl_appl, incl_refl
                        | apply incl_appr; exact IH2].
Qed.

Lemma tweet_id_through (l : list (Row (option Z))) :
  map tweet_id (map (fun r => through r) l) = map (@ids _) l.
Proof. rewrite map_map. apply map_ext. intros r. reflexivity. Qed.

Lemma deduplicated_survivors_distinct (df : list (Row string)) :
  NoDup (map (@ids _) (survivors (split_chunks (deduplicated df)))).
Proof.
  apply survivors_distinct.
  rewrite split_chunks_concat.
  apply handle_duplicates_distinct.
Qed.

(** What [main] holds at line 179, when it gets there. *)
Lemma main_frame_ok (df : list (Row string)) (out : list Compared) :
  main_frame df = Ok out ->
  out = map (fun r => through r) (survivors (split_chunks (deduplicated df))).
Proof.
  unfold Preprocessing.main_frame, pd_concat.
  destruct (collect (map process_chunk (split_chunks (deduplicated df))))
    as [|c cs] eqn:E; cbn [bind]; [discriminate|].
  rewrite <- E. rewrite collect_survivors.
  unfold duplicated_sum. rewrite tweet_id_through.
  rewrite duplicated_from_distinct;
    [|apply deduplicated_survivors_distinct | intros k _ []].
  cbn. intros H. injection H as <-. reflexivity.
Qed.

Lemma main_frame_raise (df : list (Row string)) (e : PyExn) :
  main_frame df = Raise e ->
  e = ValueError /\
  collect (map process_chunk (split_chunks (deduplicated df))) = [].
Proof.
  unfold Preprocessing.main_frame, pd_concat.
  destruct (collect (map process_chunk (split_chunks (deduplicated df))))
    as [|c cs] eqn:E; cbn [bind].
  - intros H. injection H as <-. split; reflexivity.
  - destruct (0 <? _)%Z; discriminate.
Qed.




(** The comparison of a label with the label the target maps to. *)
Lemma comparison_cases (target : Z) (label : string) :
  comparison (target_map target) label = true <->
  (target = 0%Z /\ label = "negative"%string) \/
  (target = 4%Z /\ label = "positive"%string).
Proof.
  unfold target_map, comparison.
  destruct (target =? 0)%Z eqn:E0; [|destruct (target =? 4)%Z eqn:E4].
  - apply Z.eqb_eq in E0. rewrite String.eqb_eq. split.
    + intros <-. left. split; [exact E0 | reflexivity].
    + intros [[_ ->] | [H _]]; [reflexivity | lia].
  - apply Z.eqb_eq in E4. rewrite String.eqb_eq. split.
    + intros <-. right. split; [exact E4 | reflexivity].
    + intros [[H _] | [_ ->]]; [lia | reflexivity].
  - apply Z.eqb_neq in E0, E4. split; [discriminate|].
    intros [[H _] | [H _]]; contradiction.
Qed.

(** X10.  In the data frame of [main], [comparison_textblob] is true
    exactly for the tweets of target 0 with a polarity below 0 and the
    tweets of target 4 with a polarity above 0, and [comparison_vader]
    exactly for the tweets of target 0 with a compound score of at most
    -0.05 and the tweets of target 4 with one of at least 0.05; a tweet
    scored neutral, or of another target, never agrees. *)
Theorem comparison_columns (df : list (Row string)) (out : list Compared)
  (c : Compared) (Hmain : main_frame df = Ok out) (Hc : In c out) :
  (comparison_textblob c = true <->
   (target (row (processed c)) = 0%Z
    /\ textblob_polarity (sentiment (processed c)) < 0) \/
   (target (row (processed c)) = 4%Z
    /\ 0 < textblob_polarity (sentiment (processed c)))) /\
  (comparison_vader c = true <->
   (target (row (processed c)) = 0%Z
    /\ vader_compound (sentiment (processed c)) <= - (5 # 100)) \/
   (target (row (processed c)) = 4%Z
    /\ 5 # 100 <= vader_compound (sentiment (processed c)))).
Proof.
  rewrite (main_frame_ok _ Hmain) in Hc. apply in_map_iff in Hc.
  destruct Hc as (r & <- & _).
  cbn [comparison_textblob comparison_vader processed row sentiment
       post_process].
  rewrite !comparison_cases.
  destruct (analyze_sentiment_labels blob_polarity_of vader_compound_of
              (preprocess_text re_clean (text r))) as [Ht Hv].
  rewrite Ht, Hv.
  pose proof (textblob_label_cases
                (textblob_polarity
                   (analyze_sentiment blob_polarity_of vader_compound_of
                      (preprocess_text re_clean (text r))))) as Hct.
  pose proof (vader_label_cases
                (vader_compound
                   (analyze_sentiment blob_polarity_of vader_compound_of
                      (preprocess_text re_clean (text r))))) as Hcv.
  cbv zeta in Hct, Hcv.
  destruct Hct as (Hp & Hn & _), Hcv as (Hvp & Hvn & _).
  rewrite Hp, Hn, Hvp, Hvn. split; reflexivity.
Qed.

Lemma survivors_all (chunks : list (list (Row (option Z)))) :
  Forall (fun chunk => pandas_raises chunk = None) chunks ->
  survivors chunks = List.concat chunks.
Proof.
  induction 1 as [|chunk chunks Hc _ IH]; [reflexivity|].
  cbn [flat_map List.concat]. rewrite Hc, IH. reflexivity.
Qed.

Lemma deduplicated_ids (df : list (Row string)) (i : Z) :
  Permutation
    (sort_values_desc (filter (@notna Z) (apply_parse_date parse_date df)))
    (filter (@notna Z) (apply_parse_date parse_date df)) ->
  In i (map (@ids _) (deduplicated df)) <->
  exists r0, In r0 df /\ ids r0 = i /\ parse_date (date r0) <> None.
Proof.
  intros Hperm. rewrite handle_duplicates_dated. unfold drop_duplicates.
  split.
  - intros Hi. apply in_map_iff in Hi. destruct Hi as (r & <- & Hr).
    apply keep_first_In in Hr. destruct Hr as [Hr _].
    apply (Permutation_in _ Hperm) in Hr. apply dated_In in Hr.
    destruct Hr as (r0 & d & Hin & Hd & ->).
    exists r0. split; [exact Hin|]. split; [reflexivity | congruence].
  - intros (r0 & Hin & <- & Hd).
    destruct (parse_date (date r0)) as [d|] eqn:E; [|congruence].
    set (p := {| target := target r0; ids := ids r0; date := Some d;
                 flag := flag r0; user := user r0; text := text r0 |}).
    change (ids r0) with (ids p).
    apply keep_first_covers; [|intros []].
    eapply Permutation_in; [apply Permutation_sym; exact Hperm|].
    apply dated_In. exists r0, d. split; [exact Hin|].
    split; [exact E | reflexivity].
Qed.

(** X11.  When the sort of pandas returns the rows it is given and no
    chunk fails, [main] reaches line 179 with exactly one row for each id
    that the input has with a date that parses. *)
Theorem main_frame_complete (df : list (Row string))
  (Hperm : Permutation
     (sort_values_desc (filter (@notna Z) (apply_parse_date parse_date df)))
     (filter (@notna Z) (apply_parse_date parse_date df)))
  (Hnofail : Forall (fun chunk => pandas_raises chunk = None)
                    (split_chunks (deduplicated df))) :
  exists out,
    main_frame df = Ok out /\
    NoDup (map tweet_id out) /\
    forall i, In i (map tweet_id out) <->
              exists r0, In r0 df /\ ids r0 = i
                         /\ parse_date (date r0) <> None.
Proof.
  destruct (main_frame df) as [out | e] eqn:E.
  - exists out. split; [reflexivity|].
    pose proof (main_frame_ok _ E) as Hout.
    rewrite Hout, tweet_id_through, (survivors_all Hnofail),
      split_chunks_concat.
    split; [apply handle_duplicates_distinct|].
    intros i. apply deduplicated_ids. exact Hperm.
  - exfalso. apply main_frame_raise in E. destruct E as [_ E].
    apply collect_nil in E.
    pose proof (array_split_count (deduplicated df)
                  (n := Z.max 1 (py_len (deduplicated df) / CHUNK_SIZE))
                  ltac:(lia)) as Hcount.
    fold (split_chunks (deduplicated df)) in Hcount.
    destruct (split_chunks (deduplicated df)) as [|chunk chunks].
    + unfold py_len in Hcount. cbn [List.length] in Hcount. lia.
    + inversion E. inversion Hnofail. congruence.
Qed.

End Pipeline.

Section PipelineRun.

Import PreprocessingScenario.

Local Abbreviation run pandas_raises :=
  (main_frame parse_seconds sort_newest_first (fun s => s) polarity_of
              polarity_of pandas_raises tweets).
Local Abbreviation deduplicated_tweets :=
  (handle_duplicates parse_seconds sort_newest_first tweets).

Lemma run_frame : run no_failure = Ok frame.
Proof. vm_compute. reflexivity. Qed.



Lemma comparison_columns_witness :
  run no_failure = Ok frame /\
  In disagreeing frame /\
  (comparison_textblob disagreeing = true <->
   (target (row (processed disagreeing)) = 0%Z
    /\ textblob_polarity (sentiment (processed disagreeing)) < 0) \/
   (target (row (processed disagreeing)) = 4%Z
    /\ 0 < textblob_polarity (sentiment (processed disagreeing)))) /\
  (comparison_vader disagreeing = true <->
   (target (row (processed disagreeing)) = 0%Z
    /\ vader_compound (sentiment (processed disagreeing)) <= - (5 # 100)) \/
   (target (row (processed disagreeing)) = 4%Z
    /\ 5 # 100 <= vader_compound (sentiment (processed disagreeing)))).
Proof.
  assert (In disagreeing frame) as Hin by (right; left; reflexivity).
  split; [exact run_frame|]. split; [exact Hin|].
  exact (@comparison_columns parse_seconds sort_newest_first (fun s => s)
           polarity_of polarity_of no_failure tweets frame disagreeing
           run_frame Hin).
Defined.

Lemma main_frame_complete_witness :
  Permutation
    (sort_newest_first (filter (@notna Z)
                          (apply_parse_date parse_seconds tweets)))
    (filter (@notna Z) (apply_parse_date parse_seconds tweets)) /\
  Forall (fun chunk => no_failure chunk = None)
         (split_chunks deduplicated_tweets) /\
  exists out,
    run no_failure = Ok out /\
    NoDup (map tweet_id out) /\
    forall i, In i (map tweet_id out) <->
              exists r0, In r0 tweets /\ ids r0 = i
                         /\ parse_seconds (date r0) <> None.
Proof.
  assert (Permutation
    (sort_newest_first (filter (@notna Z)
                          (apply_parse_date parse_seconds tweets)))
    (filter (@notna Z) (apply_parse_date parse_seconds tweets))) as Hperm.
  { vm_compute.
    match goal with
    | |- Permutation ?x ?y => change x with (rev y)
    end.
    apply Permutation_sym, Permutation_rev. }
  assert (Forall (fun chunk => no_failure chunk = None)
                 (split_chunks deduplicated_tweets)) as Hnofail.
  { apply Forall_forall. intros chunk _. reflexivity. }
  split; [exact Hperm|]. split; [exact Hnofail|].
  exact (@main_frame_complete parse_seconds sort_newest_first (fun s => s)
           polarity_of polarity_of no_failure tweets Hperm Hnofail).
Defined.

End PipelineRun.

End PreprocessingFacts.

(** ** The benchmark suite, the report and [main] *)

Module BenchmarkSuiteFacts.

Import DatabaseBenchmark BenchmarkSuite.

Local Open Scope Z_scope.

Lemma rounds_range (iterations : Z) :
  flat_map (fun _ : Z => [EvQuery; EvSleep 1]) (py_range 0 iterations 1)
  = rounds iterations.
Proof.
  unfold rounds. rewrite <- RunnerFacts.py_range_unit_length.
  induction (py_range 0 iterations 1) as [|i its IH]; [reflexivity|].
  cbn [flat_map List.length repeat List.concat]. rewrite IH. reflexivity.
Qed.

Lemma rounds_add (n m : Z) :
  0 <= n -> 0 <= m -> rounds n ++ rounds m = rounds (n + m).
Proof.
  intros Hn Hm. unfold rounds. rewrite Z2Nat.inj_add by lia.
  rewrite repeat_app, concat_app. reflexivity.
Qed.

Lemma calls_rounds (n : Z) : 0 <= n -> calls (rounds n) = n.
Proof.
  intros Hn. unfold rounds, calls, py_len.
  rewrite <- (Z2Nat.id n) at 2 by lia.
  induction (Z.to_nat n) as [|k IH]; [reflexivity|].
  cbn [repeat List.concat app filter List.length]. lia.
Qed.

Section Suite.

Variable World : Type.
Variable time_time : World -> Q.
Variable sleep : Z -> World -> World.

Local Abbreviation run_iterations := (run_iterations time_time sleep).
Local Abbreviation execute_query_with_stats :=
  (execute_query_with_stats time_time sleep).
Local Abbreviation run_queries := (run_queries time_time sleep).

Lemma run_iterations_log (query_func : World -> World * Result unit) :
  forall (its : list Z) acc (st st1 : State World) samples,
    run_iterations query_func its acc st = (st1, Ok samples) ->
    log st1 = log st ++ flat_map (fun _ : Z => [EvQuery; EvSleep 1]) its.
Proof.
  induction its as [|i its IH]; intros acc st st1 samples H;
    cbn [DatabaseBenchmark.run_iterations] in H.
  - injection H as <- _. rewrite app_nil_r. reflexivity.
  - unfold call in H. destruct (query_func (world st)) as [w [[]|e]];
      [|discriminate].
    apply IH in H. rewrite H. cbn [time_sleep log flat_map].
    rewrite <- !app_assoc. reflexivity.
Qed.

(** A measurement that returns took [iterations >= 1] rounds. *)
Lemma execute_ok (iterations : Z) (name : string)
    (query_func : World -> World * Result unit) (st st1 : State World)
    (r : QueryResult) :
  execute_query_with_stats iterations name query_func st = (st1, Ok r) ->
  1 <= iterations /\
  py_len (execution_times r) = iterations /\
  log st1 = log st ++ rounds iterations.
Proof.
  unfold DatabaseBenchmark.execute_query_with_stats.
  destruct (run_iterations query_func (py_range 0 iterations 1) [] st)
    as [st' [samples|e]] eqn:E; [|discriminate].
  intros H. injection H as <- Hs.
  pose proof (@RunnerFacts.run_iterations_count World time_time sleep
                query_func _ _ _ _ _ E) as Hlen.
  rewrite RunnerFacts.py_range_unit_length in Hlen. cbn [List.length] in Hlen.
  apply run_iterations_log in E. rewrite rounds_range in E.
  rewrite (StatisticsFacts.summarize_keeps_samples _ Hs).
  assert (samples <> []) as Hne.
  { intros ->. discriminate. }
  assert (1 <= iterations) as Hit.
  { destruct samples; [congruence|]. cbn [List.length] in Hlen. lia. }
  split; [exact Hit|]. split; [|exact E].
  unfold py_len. rewrite Hlen. lia.
Qed.

Lemma execute_succeeds (iterations : Z) (name : string)
    (query_func : World -> World * Result unit) (st : State World) :
  1 <= iterations ->
  (forall w, snd (query_func w) = Ok tt) ->
  exists st1 r,
    execute_query_with_stats iterations name query_func st = (st1, Ok r).
Proof.
  intros Hit Hq. unfold DatabaseBenchmark.execute_query_with_stats.
  destruct (@RunnerFacts.run_iterations_ok World time_time sleep query_func
              Hq (py_range 0 iterations 1) [] st) as [Hs _].
  destruct (run_iterations query_func (py_range 0 iterations 1) [] st)
    as [st' res] eqn:E.
  cbn [snd] in Hs. subst res. cbn [app].
  rewrite RunnerFacts.py_range_unit_length.
  destruct (@StatisticsFacts.summarize_reference
              (map (elapsed time_time query_func)
                 (iteration_worlds sleep query_func (Z.to_nat iterations)
                    (world st)))) as (r & _ & Hr & _).
  - destruct (Z.to_nat iterations) eqn:En; [lia | discriminate].
  - exists st', r. rewrite Hr. reflexivity.
Qed.

(** A benchmark of two queries. *)
Lemma run_pair_ok (iterations : Z) (n1 n2 : string)
    (q1 q2 : Query World) (st st' : State World)
    (tests : Tests) :
  run_queries iterations [(n1, q1); (n2, q2)] st = (st', Ok tests) ->
  1 <= iterations /\
  (exists r1 r2,
      tests = [(n1, r1); (n2, r2)]
      /\ py_len (execution_times r1) = iterations
      /\ py_len (execution_times r2) = iterations) /\
  log st' = log st ++ rounds (2 * iterations).
Proof.
  cbn [BenchmarkSuite.run_queries].
  destruct (execute_query_with_stats iterations n1 q1 st)
    as [st1 [r1|e]] eqn:E1; [|discriminate].
  destruct (execute_query_with_stats iterations n2 q2 st1)
    as [st2 [r2|e]] eqn:E2; [|discriminate].
  intros H. injection H as <- <-.
  apply execute_ok in E1, E2.
  destruct E1 as (Hit & Hr1 & Hl1), E2 as (_ & Hr2 & Hl2).
  split; [exact Hit|]. split.
  - exists r1, r2. repeat split; assumption.
  - rewrite Hl2, Hl1, <- app_assoc, rounds_add by lia. f_equal. f_equal. lia.
Qed.

Lemma run_pair_succeeds (iterations : Z) (n1 n2 : string)
    (q1 q2 : Query World) (st : State World) :
  1 <= iterations ->
  (forall w, snd (q1 w) = Ok tt) -> (forall w, snd (q2 w) = Ok tt) ->
  exists st' tests,
    run_queries iterations [(n1, q1); (n2, q2)] st = (st', Ok tests).
Proof.
  intros Hit H1 H2. cbn [BenchmarkSuite.run_queries].
  destruct (@execute_succeeds iterations n1 q1 st Hit H1) as (st1 & r1 & ->).
  destruct (@execute_succeeds iterations n2 q2 st1 Hit H2)
    as (st2 & r2 & ->).
  eexists _, _. reflexivity.
Qed.

Variables mongodb_find postgres_select : Query World.
Variables mongodb_text_search postgres_text_search : Query World.
Variables mongodb_aggregation postgres_aggregation : Query World.
Variables mongodb_lookup postgres_join : Query World.

Local Abbreviation run_benchmark :=
  (run_benchmark time_time sleep mongodb_find postgres_select
     mongodb_text_search postgres_text_search mongodb_aggregation
     postgres_aggregation mongodb_lookup postgres_join).

(** The dictionary of a suite that ran to its end. *)
Lemma run_benchmark_ok (iterations : Z) (st st' : State World)
    (results : Results) :
  run_benchmark iterations st = (st', Ok results) ->
  1 <= iterations /\
  (exists r1 r2 r3 r4 r5 r6 r7 r8,
      results
      = [("simple_queries"%string,
          [("mongodb_find"%string, r1); ("postgres_select"%string, r2)]);
         ("text_search"%string,
          [("mongodb_text_search"%string, r3);
           ("postgres_text_search"%string, r4)]);
         ("aggregations"%string,
          [("mongodb_aggregation"%string, r5);
           ("postgres_aggregation"%string, r6)]);
         ("joins"%string,
          [("mongodb_lookup"%string, r7); ("postgres_join"%string, r8)])]
      /\ Forall (fun r => py_len (execution_times r) = iterations)
                [r1; r2; r3; r4; r5; r6; r7; r8]) /\
  log st' = log st ++ rounds (8 * iterations).
Proof.
  unfold BenchmarkSuite.run_benchmark, benchmark_simple_queries,
    benchmark_text_search, benchmark_aggregations, benchmark_joins.
  destruct (BenchmarkSuite.run_queries _ _ _ _ st)
    as [st1 [t1|e]] eqn:E1; [|discriminate].
  destruct (BenchmarkSuite.run_queries _ _ _ _ st1)
    as [st2 [t2|e]] eqn:E2; [|discriminate].
  destruct (BenchmarkSuite.run_queries _ _ _ _ st2)
    as [st3 [t3|e]] eqn:E3; [|discriminate].
  destruct (BenchmarkSuite.run_queries _ _ _ _ st3)
    as [st4 [t4|e]] eqn:E4; [|discriminate].
  intros H. injection H as <- <-.
  apply run_pair_ok in E1, E2, E3, E4.
  destruct E1 as (Hit & (r1 & r2 & -> & H1 & H2) & L1).
  destruct E2 as (_ & (r3 & r4 & -> & H3 & H4) & L2).
  destruct E3 as (_ & (r5 & r6 & -> & H5 & H6) & L3).
  destruct E4 as (_ & (r7 & r8 & -> & H7 & H8) & L4).
  split; [exact Hit|]. split.
  - exists r1, r2, r3, r4, r5, r6, r7, r8. split; [reflexivity|].
    repeat constructor; assumption.
  - rewrite L4, L3, L2, L1, <- !app_assoc, !rounds_add by lia.
    f_equal. f_equal. lia.
Qed.

Lemma events_since_log (st st' : State World) (evs : list Event) :
  log st' = log st ++ evs -> events_since st st' = evs.
Proof.
  intros H. unfold events_since. rewrite H, skipn_app, skipn_all, Nat.sub_diag.
  reflexivity.
Qed.

(** X12.  When [run_benchmark] returns, [iterations] is at least 1, the
    dictionary holds the four categories in order, each with its MongoDB
    test and its PostgreSQL test, every test with [iterations] samples;
    the queries were called [8 * iterations] times in all, each call
    followed by a sleep of one second; and the report counts 8
    "queries executed". *)
Theorem run_benchmark_shape (iterations : Z) (st st' : State World)
    (results : Results)
    (Hrun : run_benchmark iterations st = (st', Ok results)) :
  1 <= iterations /\
  (exists r1 r2 r3 r4 r5 r6 r7 r8,
      results
      = [("simple_queries"%string,
          [("mongodb_find"%string, r1); ("postgres_select"%string, r2)]);
         ("text_search"%string,
          [("mongodb_text_search"%string, r3);
           ("postgres_text_search"%string, r4)]);
         ("aggregations"%string,
          [("mongodb_aggregation"%string, r5);
           ("postgres_aggregation"%string, r6)]);
         ("joins"%string,
          [("mongodb_lookup"%string, r7); ("postgres_join"%string, r8)])]
      /\ Forall (fun r => py_len (execution_times r) = iterations)
                [r1; r2; r3; r4; r5; r6; r7; r8]) /\
  events_since st st' = rounds (8 * iterations) /\
  calls (events_since st st') = 8 * iterations /\
  count_tests results = 8.
Proof.
  destruct (@run_benchmark_ok iterations st st' results Hrun)
    as (Hit & Hshape & Hlog).
  split; [exact Hit|]. split; [exact Hshape|].
  rewrite (@events_since_log st st' _ Hlog). split; [reflexivity|].
  split; [apply calls_rounds; lia|].
  destruct Hshape as (r1 & r2 & r3 & r4 & r5 & r6 & r7 & r8 & -> & _).
  reflexivity.
Qed.

(** X13.  With [iterations >= 1] and queries that do not raise,
    [run_benchmark] returns a dictionary. *)
Theorem run_benchmark_succeeds (iterations : Z) (st : State World)
    (Hit : 1 <= iterations)
    (Hqueries : Forall (fun q : Query World =>
                          forall w, snd (q w) = Ok tt)
                  [mongodb_find; postgres_select; mongodb_text_search;
                   postgres_text_search; mongodb_aggregation;
                   postgres_aggregation; mongodb_lookup; postgres_join]) :
  exists st' results, run_benchmark iterations st = (st', Ok results).
Proof.
  repeat match goal with
         | H : Forall _ (_ :: _) |- _ =>
             let Hq := fresh "Hq" in
             apply Forall_cons_iff in H; destruct H as [Hq H]
         end.
  unfold BenchmarkSuite.run_benchmark, benchmark_simple_queries,
    benchmark_text_search, benchmark_aggregations, benchmark_joins.
  destruct (@run_pair_succeeds iterations "mongodb_find" "postgres_select"
              _ _ st Hit Hq Hq0) as (st1 & t1 & ->).
  destruct (@run_pair_succeeds iterations "mongodb_text_search"
              "postgres_text_search" _ _ st1 Hit Hq1 Hq2)
    as (st2 & t2 & ->).
  destruct (@run_pair_succeeds iterations "mongodb_aggregation"
              "postgres_aggregation" _ _ st2 Hit Hq3 Hq4)
    as (st3 & t3 & ->).
  destruct (@run_pair_succeeds iterations "mongodb_lookup" "postgres_join"
              _ _ st3 Hit Hq5 Hq6) as (st4 & t4 & ->).
  eexists _, _. reflexivity.
Qed.

End Suite.

(** *** Findings *)

Local Open Scope Q_scope.

Lemma pg_loop_raise (category mongo_name : string)
    (mongo_metrics : QueryResult) (pg_tests : Tests) :
  forall (findings : list string) (e : PyExn),
    pg_loop category mongo_name mongo_metrics pg_tests findings = Raise e ->
    e = ZeroDivisionError /\
    exists name m, In (name, m) pg_tests /\ mean m == 0.
Proof.
  induction pg_tests as [|[pg_name pg_metrics] rest IH]; intros findings e;
    cbn [pg_loop]; [discriminate|].
  destruct (Qeq_bool (mean pg_metrics) 0) eqn:E.
  - intros H. injection H as <-. split; [reflexivity|].
    exists pg_name, pg_metrics. split; [left; reflexivity|].
    apply Qeq_bool_iff. exact E.
  - destruct (Qlt_bool 10 _); intros H; apply IH in H;
      destruct H as (He & name & m & Hin & Hz);
      (split; [exact He | exists name, m; split; [right; exact Hin | exact Hz]]).
Qed.

Lemma pg_loop_zero (category mongo_name : string)
    (mongo_metrics : QueryResult) (pg_tests : Tests) :
  (exists name m, In (name, m) pg_tests /\ mean m == 0) ->
  forall findings,
    pg_loop category mongo_name mongo_metrics pg_tests findings
    = Raise ZeroDivisionError.
Proof.
  induction pg_tests as [|[pg_name pg_metrics] rest IH];
    intros (name & m & Hin & Hz) findings; [destruct Hin|].
  cbn [pg_loop]. destruct (Qeq_bool (mean pg_metrics) 0) eqn:E;
    [reflexivity|].
  destruct Hin as [Heq | Hin].
  - injection Heq as -> ->. apply Qeq_bool_iff in Hz. congruence.
  - destruct (Qlt_bool 10 _); apply IH; exists name, m; split; assumption.
Qed.

Lemma mongo_loop_raise (category : string) (pg_tests : Tests)
    (mongo_tests : Tests) :
  forall (findings : list string) (e : PyExn),
    mongo_loop category mongo_tests pg_tests findings = Raise e ->
    e = ZeroDivisionError /\ mongo_tests <> [] /\
    exists name m, In (name, m) pg_tests /\ mean m == 0.
Proof.
  induction mongo_tests as [|[mongo_name mongo_metrics] rest IH];
    intros findings e; cbn [mongo_loop]; [discriminate|].
  destruct (pg_loop category mongo_name mongo_metrics pg_tests findings)
    as [findings'|e'] eqn:E; cbn [bind].
  - intros H. apply IH in H. destruct H as (He & _ & Hz).
    split; [exact He|]. split; [discriminate | exact Hz].
  - intros H. injection H as <-. apply pg_loop_raise in E.
    destruct E as [He Hz]. split; [exact He|]. split; [discriminate|exact Hz].
Qed.

Lemma mongo_loop_zero (category : string) (mongo_tests pg_tests : Tests) :
  mongo_tests <> [] ->
  (exists name m, In (name, m) pg_tests /\ mean m == 0) ->
  forall findings,
    mongo_loop category mongo_tests pg_tests findings
    = Raise ZeroDivisionError.
Proof.
  intros Hne Hz findings.
  destruct mongo_tests as [|[mongo_name mongo_metrics] rest]; [congruence|].
  cbn [mongo_loop]. rewrite pg_loop_zero by exact Hz. reflexivity.
Qed.

Lemma category_loop_raise (results : Results) :
  forall (findings : list string) (e : PyExn),
    category_loop results findings = Raise e ->
    e = ZeroDivisionError /\
    exists category tests name m,
      In (category, tests) results /\ mongo_tests_of tests <> [] /\
      In (name, m) (pg_tests_of tests) /\ mean m == 0.
Proof.
  induction results as [|[category tests] rest IH]; intros findings e;
    cbn [category_loop]; [discriminate|].
  destruct (mongo_loop category (mongo_tests_of tests) (pg_tests_of tests)
              findings) as [findings'|e'] eqn:E; cbn [bind].
  - intros H. apply IH in H.
    destruct H as (He & c & t & name & m & Hin & Hrest).
    split; [exact He|]. exists c, t, name, m.
    split; [right; exact Hin | exact Hrest].
  - intros H. injection H as <-. apply mongo_loop_raise in E.
    destruct E as (He & Hne & name & m & Hin & Hz).
    split; [exact He|]. exists category, tests, name, m.
    split; [left; reflexivity|]. split; [exact Hne|]. split; assumption.
Qed.

Lemma category_loop_zero (results : Results) :
  (exists category tests name m,
      In (category, tests) results /\ mongo_tests_of tests <> [] /\
      In (name, m) (pg_tests_of tests) /\ mean m == 0) ->
  forall findings,
    category_loop results findings = Raise ZeroDivisionError.
Proof.
  induction results as [|[category tests] rest IH];
    intros (c & t & name & m & Hin & Hne & Hpg & Hz) findings;
    [destruct Hin|].
  cbn [category_loop].
  destruct (mongo_loop category (mongo_tests_of tests) (pg_tests_of tests)
              findings) as [findings'|e'] eqn:E; cbn [bind].
  - destruct Hin as [Heq | Hin].
    + injection Heq as -> ->.
      rewrite mongo_loop_zero in E; [discriminate | exact Hne |].
      exists name, m. split; assumption.
    + apply IH. exists c, t, name, m. repeat split; assumption.
  - apply mongo_loop_raise in E. destruct E as [-> _]. reflexivity.
Qed.

(** X14.  [_generate_findings] raises exactly when some category has a
    MongoDB test and a PostgreSQL test whose mean is zero, and what it
    raises is then [ZeroDivisionError]. *)
Theorem findings_raise_on_zero_mean (results : Results) :
  (_generate_findings results = Raise ZeroDivisionError <->
   exists category tests name m,
     In (category, tests) results /\ mongo_tests_of tests <> [] /\
     In (name, m) (pg_tests_of tests) /\ mean m == 0) /\
  (forall e, _generate_findings results = Raise e -> e = ZeroDivisionError).
Proof.
  unfold _generate_findings. split; [split|].
  - intros H. exact (proj2 (category_loop_raise _ _ H)).
  - intros H. apply category_loop_zero. exact H.
  - intros e H. exact (proj1 (category_loop_raise _ _ H)).
Qed.

Lemma compare_pair_length (category : string) (a b : string * QueryResult) :
  (List.length (Reference.compare_pair category a b) <= 1)%nat.
Proof.
  unfold Reference.compare_pair. destruct (Qlt_le_dec 10 _); cbn; lia.
Qed.

Section SuiteFindings.

Variable World : Type.
Variable time_time : World -> Q.
Variable sleep : Z -> World -> World.
Variables mongodb_find postgres_select : Query World.
Variables mongodb_text_search postgres_text_search : Query World.
Variables mongodb_aggregation postgres_aggregation : Query World.
Variables mongodb_lookup postgres_join : Query World.

Local Abbreviation run_benchmark :=
  (run_benchmark time_time sleep mongodb_find postgres_select
     mongodb_text_search postgres_text_search mongodb_aggregation
     postgres_aggregation mongodb_lookup postgres_join).

Lemma suite_compare (iterations : Z) (st st' : State World)
    (results : Results) :
  run_benchmark iterations st = (st', Ok results) ->
  Reference.compare results = same_operation_findings results /\
  (List.length (same_operation_findings results) <= 4)%nat.
Proof.
  intros Hrun. apply run_benchmark_ok in Hrun.
  destruct Hrun
    as (_ & (r1 & r2 & r3 & r4 & r5 & r6 & r7 & r8 & -> & _) & _).
  split.
  - unfold Reference.compare, same_operation_findings.
    cbn [flat_map fst snd]. unfold mongo_tests_of, pg_tests_of.
    cbn [filter fst]. vm_compute contains. cbn [flat_map app].
    rewrite !app_nil_r. reflexivity.
  - unfold same_operation_findings. cbn [flat_map fst snd].
    rewrite !length_app. cbn [List.length].
    pose proof (compare_pair_length "simple_queries"
                  ("mongodb_find"%string, r1) ("postgres_select"%string, r2)).
    pose proof (compare_pair_length "text_search"
                  ("mongodb_text_search"%string, r3)
                  ("postgres_text_search"%string, r4)).
    pose proof (compare_pair_length "aggregations"
                  ("mongodb_aggregation"%string, r5)
                  ("postgres_aggregation"%string, r6)).
    pose proof (compare_pair_length "joins"
                  ("mongodb_lookup"%string, r7) ("postgres_join"%string, r8)).
    lia.
Qed.

(** X15.  On the dictionary [run_benchmark] returns, as long as no
    PostgreSQL mean is zero, [_generate_findings] makes one comparison for
    each category, between its MongoDB test and its PostgreSQL test, and
    so returns at most four sentences. *)
Theorem suite_findings (iterations : Z) (st st' : State World)
    (results : Results)
    (Hrun : run_benchmark iterations st = (st', Ok results))
    (Hnz : forall category tests name m,
        In (category, tests) results ->
        In (name, m) (pg_tests_of tests) -> ~ mean m == 0) :
  _generate_findings results
  = Ok (map Reference.render (same_operation_findings results)) /\
  (py_len (same_operation_findings results) <= 4)%Z.
Proof.
  destruct (suite_compare _ _ Hrun) as [Hcmp Hlen].
  split; [|unfold py_len; lia].
  unfold _generate_findings. rewrite FindingsFacts.category_loop_reference.
  - rewrite Hcmp. reflexivity.
  - intros category tests name m Hin _ Hpg. exact (Hnz _ _ _ _ Hin Hpg).
Qed.

End SuiteFindings.

(** *** The session of [main] *)

Local Open Scope Z_scope.

Section Main.

Variable World : Type.
Variable time_time : World -> Q.
Variable sleep : Z -> World -> World.
Variables mongodb_find postgres_select : Query World.
Variables mongodb_text_search postgres_text_search : Query World.
Variables mongodb_aggregation postgres_aggregation : Query World.
Variables mongodb_lookup postgres_join : Query World.
Variable MongoClient : World -> World * Result unit.
Variable psycopg2_connect : World -> World * Result unit.
Variable conn_cursor : World -> World * Result unit.
Variable now_isoformat : World -> string.
Variable json_dump : Report -> World -> World * Result unit.
Variable savefig : Results -> World -> World * Result unit.
Variable handle_close : Handle -> World -> World * Result unit.

Local Abbreviation run_benchmark :=
  (run_benchmark time_time sleep mongodb_find postgres_select
     mongodb_text_search postgres_text_search mongodb_aggregation
     postgres_aggregation mongodb_lookup postgres_join).
Local Abbreviation benchmark_run_benchmark :=
  (benchmark_run_benchmark time_time sleep mongodb_find postgres_select
     mongodb_text_search postgres_text_search mongodb_aggregation
     postgres_aggregation mongodb_lookup postgres_join).
Local Abbreviation __init__ :=
  (__init__ MongoClient psycopg2_connect conn_cursor).
Local Abbreviation generate_report :=
  (generate_report now_isoformat json_dump savefig).
Local Abbreviation close := (close handle_close).
Local Abbreviation main_body :=
  (main_body time_time sleep mongodb_find postgres_select
     mongodb_text_search postgres_text_search mongodb_aggregation
     postgres_aggregation mongodb_lookup postgres_join MongoClient
     psycopg2_connect conn_cursor now_isoformat json_dump savefig).
Local Abbreviation main :=
  (main time_time sleep mongodb_find postgres_select
     mongodb_text_search postgres_text_search mongodb_aggregation
     postgres_aggregation mongodb_lookup postgres_join MongoClient
     psycopg2_connect conn_cursor now_isoformat json_dump savefig
     handle_close).

Local Abbreviation all_handles := [MongoClientHandle; PgConn; PgCursor].
Local Abbreviation close_order := [MongoClientHandle; PgCursor; PgConn].

Lemma effect_trace (A : Type) (f : World -> World * Result A)
    (ss ss' : Session World) (r : Result A) :
  effect f ss = (ss', r) ->
  trace ss' = trace ss /\ f (outside ss) = (outside ss', r).
Proof.
  unfold effect. destruct (f (outside ss)) as [w r']. intros H.
  injection H as <- <-. split; reflexivity.
Qed.

Lemma init_cases (ss ss1 : Session World) (r : Result unit) :
  __init__ ss = (ss1, r) ->
  exists opened,
    trace ss1 = trace ss ++ map Opened opened /\
    ((r = Ok tt /\ opened = all_handles) \/
     ((exists e, r = Raise e) /\
      (opened = [] \/ opened = [MongoClientHandle]
       \/ opened = [MongoClientHandle; PgConn]))).
Proof.
  unfold BenchmarkSuite.__init__.
  destruct (effect MongoClient ss) as [s1 [[]|e]] eqn:E1.
  2:{ intros H. injection H as <- <-. apply effect_trace in E1.
      exists []. rewrite app_nil_r. split; [exact (proj1 E1)|].
      right. split; [exists e; reflexivity | left; reflexivity]. }
  destruct (effect psycopg2_connect (step (Opened MongoClientHandle) s1))
    as [s2 [[]|e]] eqn:E2.
  2:{ intros H. injection H as <- <-. apply effect_trace in E1, E2.
      exists [MongoClientHandle]. split.
      - rewrite (proj1 E2). cbn [step trace]. rewrite (proj1 E1).
        reflexivity.
      - right. split; [exists e; reflexivity | right; left; reflexivity]. }
  destruct (effect conn_cursor (step (Opened PgConn) s2))
    as [s3 [[]|e]] eqn:E3; intros H; injection H as <- <-;
    apply effect_trace in E1, E2, E3.
  - exists all_handles. split; [|left; split; reflexivity].
    cbn [step trace]. rewrite (proj1 E3). cbn [step trace].
    rewrite (proj1 E2). cbn [step trace]. rewrite (proj1 E1).
    rewrite <- !app_assoc. reflexivity.
  - exists [MongoClientHandle; PgConn]. split.
    + rewrite (proj1 E3). cbn [step trace]. rewrite (proj1 E2).
      cbn [step trace]. rewrite (proj1 E1). rewrite <- !app_assoc.
      reflexivity.
    + right. split; [exists e; reflexivity | right; right; reflexivity].
Qed.

Lemma bench_cases (ss ss2 : Session World) (r : Result Results) :
  benchmark_run_benchmark 3 ss = (ss2, r) ->
  exists evs,
    trace ss2 = trace ss ++ map Bench evs /\
    forall results, r = Ok results ->
      evs = rounds 24 /\
      map fst results
      = ["simple_queries"; "text_search"; "aggregations"; "joins"]%string /\
      count_tests results = 8.
Proof.
  unfold BenchmarkSuite.benchmark_run_benchmark.
  destruct (run_benchmark 3 {| world := outside ss; log := [] |})
    as [st r'] eqn:E.
  intros H. injection H as <- <-. exists (log st).
  split; [reflexivity|]. intros results ->.
  apply run_benchmark_ok in E.
  destruct E as (_ & (r1 & r2 & r3 & r4 & r5 & r6 & r7 & r8 & -> & _) & Hl).
  cbn [log app] in Hl. split; [exact Hl|]. split; reflexivity.
Qed.

Lemma report_cases (results : Results) (ss ss3 : Session World)
    (r : Result unit) :
  map fst results
  = ["simple_queries"; "text_search"; "aggregations"; "joins"]%string ->
  count_tests results = 8 ->
  generate_report 3 results ss = (ss3, r) ->
  exists tail,
    trace ss3 = trace ss ++ tail /\
    ((tail = [] /\ exists e, r = Raise e) \/
     exists rep,
       full_report rep /\
       ((tail = [WriteReport rep] /\ exists e, r = Raise e) \/
        tail = [WriteReport rep; Visualize])).
Proof.
  intros Hcat Hcount. unfold BenchmarkSuite.generate_report.
  destruct (_generate_findings results) as [findings|e] eqn:Ef.
  2:{ intros H. injection H as <- <-. exists []. rewrite app_nil_r.
      split; [reflexivity|]. left. split; [reflexivity|].
      exists e. reflexivity. }
  set (rep := {| timestamp := now_isoformat (outside ss);
                 test_categories := map fst results;
                 total_queries_executed := count_tests results;
                 iterations_per_query := 3;
                 overall_findings := findings;
                 detailed_results := results |}).
  assert (full_report rep) as Hrep.
  { unfold full_report, rep. cbn [test_categories total_queries_executed
      iterations_per_query overall_findings detailed_results].
    repeat split; assumption. }
  destruct (effect (json_dump rep) (step (WriteReport rep) ss))
    as [s1 [[]|e]] eqn:E1.
  - intros E2. apply effect_trace in E1, E2.
    exists [WriteReport rep; Visualize]. split.
    + rewrite (proj1 E2). cbn [step trace]. rewrite (proj1 E1).
      cbn [step trace]. rewrite <- app_assoc. reflexivity.
    + right. exists rep. split; [exact Hrep|]. right. reflexivity.
  - intros H. injection H as <- <-. apply effect_trace in E1.
    exists [WriteReport rep]. split; [exact (proj1 E1)|].
    right. exists rep. split; [exact Hrep|]. left.
    split; [reflexivity | exists e; reflexivity].
Qed.

Lemma close_cases (ss ss' : Session World) (r : Result unit) :
  close ss = (ss', r) ->
  exists closed,
    trace ss' = trace ss ++ map Closing closed /\
    (closed = close_order \/
     ((exists e, r = Raise e) /\
      (closed = [MongoClientHandle]
       \/ closed = [MongoClientHandle; PgCursor]))).
Proof.
  unfold BenchmarkSuite.close.
  destruct (effect (handle_close MongoClientHandle)
              (step (Closing MongoClientHandle) ss)) as [s1 [[]|e]] eqn:E1.
  2:{ intros H. injection H as <- <-. apply effect_trace in E1.
      exists [MongoClientHandle]. split; [exact (proj1 E1)|].
      right. split; [exists e; reflexivity | left; reflexivity]. }
  destruct (effect (handle_close PgCursor) (step (Closing PgCursor) s1))
    as [s2 [[]|e]] eqn:E2.
  2:{ intros H. injection H as <- <-. apply effect_trace in E1, E2.
      exists [MongoClientHandle; PgCursor]. split.
      - rewrite (proj1 E2). cbn [step trace]. rewrite (proj1 E1).
        cbn [step trace]. rewrite <- app_assoc. reflexivity.
      - right. split; [exists e; reflexivity | right; reflexivity]. }
  intros E3. apply effect_trace in E1, E2, E3.
  exists close_order. split; [|left; reflexivity].
  rewrite (proj1 E3). cbn [step trace]. rewrite (proj1 E2).
  cbn [step trace]. rewrite (proj1 E1). cbn [step trace].
  rewrite <- !app_assoc. reflexivity.
Qed.

(** The steps of the [try] block. *)
Lemma main_body_cases (ss ss1 : Session World) (bound : bool)
    (r : Result unit) :
  main_body ss = (ss1, (bound, r)) ->
  exists opened evs tail,
    trace ss1 = trace ss ++ map Opened opened ++ map Bench evs ++ tail /\
    ((bound = false /\ (exists e, r = Raise e) /\ evs = [] /\ tail = [] /\
      (opened = [] \/ opened = [MongoClientHandle]
       \/ opened = [MongoClientHandle; PgConn])) \/
     (bound = true /\ opened = all_handles /\
      ((tail = [] /\ exists e, r = Raise e) \/
       (evs = rounds 24 /\
        exists rep,
          full_report rep /\
          ((tail = [WriteReport rep] /\ exists e, r = Raise e) \/
           tail = [WriteReport rep; Visualize]))))).
Proof.
  unfold BenchmarkSuite.main_body.
  destruct (__init__ ss) as [s1 [[]|e]] eqn:E1.
  2:{ intros H. injection H as <- <- <-. apply init_cases in E1.
      destruct E1 as (opened & Ht & [[Hr _] | [_ Ho]]); [discriminate|].
      exists opened, [], []. split.
      - rewrite Ht. cbn [map app]. rewrite !app_nil_r. reflexivity.
      - left. split; [reflexivity|]. split; [exists e; reflexivity|].
        split; [reflexivity|]. split; [reflexivity | exact Ho]. }
  apply init_cases in E1.
  destruct E1 as (opened & Ht1 & [[_ ->] | [[e He] _]]); [|discriminate].
  destruct (benchmark_run_benchmark 3 s1) as [s2 [results|e]] eqn:E2.
  2:{ intros H. injection H as <- <- <-. apply bench_cases in E2.
      destruct E2 as (evs & Ht2 & _).
      exists all_handles, evs, []. split.
      - rewrite Ht2, Ht1, app_nil_r, <- app_assoc. reflexivity.
      - right. split; [reflexivity|]. split; [reflexivity|].
        left. split; [reflexivity | exists e; reflexivity]. }
  apply bench_cases in E2. destruct E2 as (evs & Ht2 & Hres).
  destruct (Hres results eq_refl) as (-> & Hcat & Hcount).
  destruct (generate_report 3 results s2) as [s3 r3] eqn:E3.
  intros H. injection H as <- <- <-.
  apply (@report_cases results _ _ _ Hcat Hcount) in E3.
  destruct E3 as (tail & Ht3 & Hcases).
  exists all_handles, (rounds 24), tail. split.
  - rewrite Ht3, Ht2, Ht1, <- !app_assoc. reflexivity.
  - right. split; [reflexivity|]. split; [reflexivity|].
    destruct Hcases as [Hc | Hc]; [left; exact Hc | right].
    split; [reflexivity | exact Hc].
Qed.

(** The steps of [main]. *)
Lemma main_cases (ss ss' : Session World) (r : Result unit) :
  main ss = (ss', r) ->
  exists opened evs tail errs closed,
    trace ss'
    = trace ss ++ map Opened opened ++ map Bench evs ++ tail ++ errs
      ++ map Closing closed /\
    (errs = [] \/ exists e, errs = [LogError e]) /\
    ((closed = [] /\ evs = [] /\ tail = [] /\ (exists e, r = Raise e) /\
      (opened = [] \/ opened = [MongoClientHandle]
       \/ opened = [MongoClientHandle; PgConn])) \/
     (opened = all_handles /\
      (closed = close_order \/
       ((exists e, r = Raise e) /\
        (closed = [MongoClientHandle]
         \/ closed = [MongoClientHandle; PgCursor]))) /\
      ((tail = [] /\ exists e, r = Raise e) \/
       (evs = rounds 24 /\
        exists rep,
          full_report rep /\
          ((tail = [WriteReport rep] /\ exists e, r = Raise e) \/
           (tail = [WriteReport rep; Visualize] /\
            (r = Ok tt -> errs = [] /\ closed = close_order))))))).
Proof.
  unfold BenchmarkSuite.main.
  destruct (main_body ss) as [s1 [bound r1]] eqn:E1.
  apply main_body_cases in E1.
  destruct E1 as (opened & evs & tail & Ht1 & Hcases).
  set (s2 := match r1 with
             | Ok _ => s1
             | Raise e => step (LogError e) s1
             end).
  assert (exists errs,
             trace s2 = trace s1 ++ errs /\
             (errs = [] \/ exists e, errs = [LogError e]) /\
             (forall u, r1 = Ok u -> errs = [])) as (errs & Ht2 & Herrs & Hok).
  { unfold s2. destruct r1 as [u|e].
    - exists []. rewrite app_nil_r. split; [reflexivity|].
      split; [left; reflexivity | reflexivity].
    - exists [LogError e]. split; [reflexivity|].
      split; [right; exists e; reflexivity | discriminate]. }
  destruct Hcases as [(-> & Hr & -> & -> & Ho) | (-> & -> & Hc)].
  - intros H. injection H as <- <-.
    exists opened, [], [], errs, []. split.
    + rewrite Ht2, Ht1. cbn [map app]. rewrite !app_nil_r, <- !app_assoc.
      reflexivity.
    + split; [exact Herrs|]. left. repeat split; try reflexivity; assumption.
  - destruct (close s2) as [s3 rc] eqn:E3. apply close_cases in E3.
    destruct E3 as (closed & Ht3 & Hclosed).
    assert (trace s3
            = trace ss ++ map Opened all_handles ++ map Bench evs ++ tail
              ++ errs ++ map Closing closed) as Ht.
    { rewrite Ht3, Ht2, Ht1, <- !app_assoc. reflexivity. }
    destruct rc as [[]|e]; intros H; injection H as <- <-;
      exists all_handles, evs, tail, errs, closed;
      (split; [exact Ht|]); (split; [exact Herrs|]); right;
      (split; [reflexivity|]).
    + destruct Hclosed as [-> | [[e He] _]]; [|discriminate].
      split; [left; reflexivity|].
      destruct Hc as [Hc | (-> & rep & Hrep & Hc)]; [left; exact Hc|].
      right. split; [reflexivity|]. exists rep. split; [exact Hrep|].
      destruct Hc as [Hc | ->]; [left; exact Hc | right].
      split; [reflexivity|]. intros ->. split; [|reflexivity].
      exact (Hok tt eq_refl).
    + split.
      * destruct Hclosed as [-> | [_ Hcl]]; [left; reflexivity|].
        right. split; [exists e; reflexivity | exact Hcl].
      * destruct Hc as [[-> _] | (-> & rep & Hrep & Hc)].
        -- left. split; [reflexivity | exists e; reflexivity].
        -- right. split; [reflexivity|]. exists rep. split; [exact Hrep|].
           destruct Hc as [[-> _] | ->].
           ++ left. split; [reflexivity | exists e; reflexivity].
           ++ right. split; [reflexivity | discriminate].
Qed.

Lemma steps_since_app (ss ss' : Session World) (steps : list Step) :
  trace ss' = trace ss ++ steps -> steps_since ss ss' = steps.
Proof.
  intros H. unfold steps_since.
  rewrite H, skipn_app, skipn_all, Nat.sub_diag. reflexivity.
Qed.

(** X16.  A run of [main] that returns has done, in this order and
    nothing else: opened the MongoDB client, the PostgreSQL connection
    and its cursor; run the 24 queries, each followed by a sleep of one
    second; written one report, which names the four categories, counts
    8 queries, 3 iterations, and carries the findings of its own detailed
    results; drawn the plots; and closed the client, the cursor and the
    connection. *)
Theorem main_success_steps (ss ss' : Session World)
    (Hmain : main ss = (ss', Ok tt)) :
  exists rep,
    steps_since ss ss'
    = map Opened [MongoClientHandle; PgConn; PgCursor]
      ++ map Bench (rounds 24)
      ++ [WriteReport rep; Visualize]
      ++ map Closing [MongoClientHandle; PgCursor; PgConn] /\
    full_report rep.
Proof.
  apply main_cases in Hmain.
  destruct Hmain as (opened & evs & tail & errs & closed & Ht & _ & Hcases).
  destruct Hcases as [(_ & _ & _ & [e He] & _) | (-> & _ & Hc)];
    [discriminate|].
  destruct Hc as [[_ [e He]] | (-> & rep & Hrep & Hc)]; [discriminate|].
  destruct Hc as [[_ [e He]] | [-> Hok]]; [discriminate|].
  destruct (Hok eq_refl) as [-> ->].
  exists rep. split; [|exact Hrep].
  apply steps_since_app. rewrite Ht. reflexivity.
Qed.

Lemma filter_bench (p : Step -> bool) (evs : list Event) :
  (forall ev, p (Bench ev) = false) -> filter p (map Bench evs) = [].
Proof.
  intros Hp. induction evs as [|ev evs IH]; [reflexivity|].
  cbn [map filter]. rewrite Hp. exact IH.
Qed.

(** X17.  In every run of [main], [close] is called on the MongoDB client
    exactly when the constructor obtained all three handles; no handle is
    closed that was not opened, and none is opened or closed twice.  So a
    client opened by a constructor that then fails is never closed. *)
Theorem main_closes_what_was_constructed (ss : Session World) :
  count_steps (is_closing MongoClientHandle)
              (steps_since ss (fst (main ss)))
  = count_steps (is_opened PgCursor) (steps_since ss (fst (main ss))) /\
  forall h,
    count_steps (is_closing h) (steps_since ss (fst (main ss)))
    <= count_steps (is_opened h) (steps_since ss (fst (main ss))) <= 1.
Proof.
  destruct (main ss) as [ss' r] eqn:E. cbn [fst]. apply main_cases in E.
  destruct E as (opened & evs & tail & errs & closed & Ht & Herrs & Hcases).
  rewrite (@steps_since_app ss ss' _ Ht). unfold count_steps, py_len.
  assert (forall h, filter (is_closing h) errs = []
                    /\ filter (is_opened h) errs = []) as Hf_errs.
  { intros h. destruct Herrs as [-> | [e ->]]; split; reflexivity. }
  assert (forall h, filter (is_closing h) tail = []
                    /\ filter (is_opened h) tail = []) as Hf_tail.
  { intros h.
    destruct Hcases as [(_ & _ & -> & _) | (_ & _ & Hc)];
      [split; reflexivity|].
    destruct Hc as [[-> _] | (_ & rep & _ & [[-> _] | [-> _]])];
      split; reflexivity. }
  split; [|intros h];
    rewrite !filter_app;
    rewrite !(@filter_bench _ evs) by (intros ev; destruct ev; reflexivity);
    repeat match goal with
           | |- context [filter (is_closing ?h) errs] =>
               rewrite (proj1 (Hf_errs h))
           | |- context [filter (is_opened ?h) errs] =>
               rewrite (proj2 (Hf_errs h))
           | |- context [filter (is_closing ?h) tail] =>
               rewrite (proj1 (Hf_tail h))
           | |- context [filter (is_opened ?h) tail] =>
               rewrite (proj2 (Hf_tail h))
           end;
    destruct Hcases
      as [(-> & _ & _ & _ & [-> | [-> | ->]])
         | (-> & [-> | [_ [-> | ->]]] & _)];
    try destruct h; cbn; lia.
Qed.

(** X18.  When the MongoDB client is created and the PostgreSQL
    connection is refused, [main] logs the error and raises it, and the
    client that was created is never closed. *)
Theorem refused_connection_leaves_client_open (ss : Session World)
    (w1 w2 : World) (e : PyExn)
    (Hmongo : MongoClient (outside ss) = (w1, Ok tt))
    (Hpg : psycopg2_connect w1 = (w2, Raise e)) :
  main ss
  = ({| outside := w2;
        trace := trace ss ++ [Opened MongoClientHandle; LogError e] |},
     Raise e).
Proof.
  unfold BenchmarkSuite.main, BenchmarkSuite.main_body,
    BenchmarkSuite.__init__, effect.
  rewrite Hmongo. cbn [step outside trace]. rewrite Hpg.
  unfold step. cbn [outside trace]. rewrite <- app_assoc. reflexivity.
Qed.

(** X19.  In every run of [main], a report is written at most once and
    only after all 24 queries and their 24 seconds of sleep; no query
    runs after it, and what it says is computed from the complete
    results: the four categories, 8 queries, 3 iterations and the findings
    of its own detailed results.  A suite that stops early, or whose
    findings raise, writes nothing. *)
Theorem report_follows_full_run (ss : Session World) (rep : Report)
    (Hin : In (WriteReport rep) (steps_since ss (fst (main ss)))) :
  exists pre post,
    steps_since ss (fst (main ss)) = pre ++ WriteReport rep :: post /\
    queries_called pre = 24 /\
    seconds_slept pre = 24 /\
    queries_called post = 0 /\
    reports_written (steps_since ss (fst (main ss))) = [rep] /\
    full_report rep.
Proof.
  destruct (main ss) as [ss' r] eqn:E. cbn [fst] in *. apply main_cases in E.
  destruct E as (opened & evs & tail & errs & closed & Ht & Herrs & Hcases).
  rewrite (@steps_since_app ss ss' _ Ht) in *.
  assert (forall l, ~ In (WriteReport rep) (map Opened l)) as Hno_o.
  { intros l H. apply in_map_iff in H. destruct H as (? & ? & _).
    discriminate. }
  assert (forall l, ~ In (WriteReport rep) (map Bench l)) as Hno_b.
  { intros l H. apply in_map_iff in H. destruct H as (? & ? & _).
    discriminate. }
  assert (forall l, ~ In (WriteReport rep) (map Closing l)) as Hno_c.
  { intros l H. apply in_map_iff in H. destruct H as (? & ? & _).
    discriminate. }
  assert (~ In (WriteReport rep) errs) as Hno_e.
  { destruct Herrs as [-> | [e ->]]; [intros [] | intros [H | []]].
    discriminate. }
  assert (In (WriteReport rep) tail) as Htail.
  { apply in_app_or in Hin.
    destruct Hin as [Hin | Hin]; [exfalso; exact (Hno_o _ Hin)|].
    apply in_app_or in Hin.
    destruct Hin as [Hin | Hin]; [exfalso; exact (Hno_b _ Hin)|].
    apply in_app_or in Hin. destruct Hin as [Hin | Hin]; [exact Hin|].
    apply in_app_or in Hin.
    destruct Hin as [Hin | Hin];
      exfalso; [exact (Hno_e Hin) | exact (Hno_c _ Hin)]. }
  destruct Hcases as [(_ & _ & -> & _) | (-> & Hclosed & Hc)];
    [destruct Htail|].
  destruct Hc as [[-> _] | (-> & rep' & Hrep & Hc)]; [destruct Htail|].
  assert (rep' = rep /\ exists rest,
             tail = WriteReport rep :: rest
             /\ (rest = [] \/ rest = [Visualize])) as (-> & rest & -> & Hrest).
  { destruct Hc as [[-> _] | [-> _]].
    - destruct Htail as [H | []]. injection H as ->.
      split; [reflexivity|]. exists []. split; [reflexivity | left; reflexivity].
    - destruct Htail as [H | [H | []]]; [|discriminate]. injection H as ->.
      split; [reflexivity|]. exists [Visualize].
      split; [reflexivity | right; reflexivity]. }
  exists (map Opened all_handles ++ map Bench (rounds 24)),
         (rest ++ errs ++ map Closing closed).
  split; [rewrite <- !app_assoc; reflexivity|].
  split; [vm_compute; reflexivity|]. split; [vm_compute; reflexivity|].
  assert (forall l, filter (fun s => match s with
                                     | Bench EvQuery => true
                                     | _ => false
                                     end) (map Closing l) = []) as Hq_c.
  { induction l; [reflexivity | exact IHl]. }
  assert (forall l, reports_written (map Closing l) = []) as Hr_c.
  { induction l; [reflexivity | exact IHl]. }
  split; [|split; [|exact Hrep]].
  - unfold queries_called, py_len. rewrite !filter_app, Hq_c.
    destruct Hrest as [-> | ->], Herrs as [-> | [e ->]]; reflexivity.
  - unfold reports_written. rewrite !flat_map_app.
    fold (reports_written (map Closing closed)). rewrite Hr_c.
    assert (flat_map (fun s => match s with
                               | WriteReport r0 => [r0]
                               | _ => []
                               end) (map Bench (rounds 24)) = []) as ->
      by (vm_compute; reflexivity).
    destruct Hrest as [-> | ->], Herrs as [-> | [e ->]]; reflexivity.
Qed.

End Main.

(** *** A run of the suite *)

Import SuiteScenario.

Lemma suite_run_ok : suite_run = (fst suite_run, Ok suite_results).
Proof. vm_compute. reflexivity. Qed.

Lemma run_benchmark_shape_witness :
  suite_run = (fst suite_run, Ok suite_results) /\
  events_since Scenario.bench_start (fst suite_run) = rounds (8 * 3) /\
  calls (events_since Scenario.bench_start (fst suite_run)) = 8 * 3 /\
  count_tests suite_results = 8.
Proof.
  split; [exact suite_run_ok|].
  exact (proj2 (proj2 (@run_benchmark_shape _ _ _ _ _ _ _ _ _ _ _ _ _ _ _
                         suite_run_ok))).
Defined.

Lemma run_benchmark_succeeds_witness :
  1 <= default_iterations /\
  Forall (fun q : Query Scenario.BenchWorld => forall w, snd (q w) = Ok tt)
    [one_second_query; one_second_query; one_second_query;
     one_second_query; one_second_query; one_second_query;
     one_second_query; one_second_query] /\
  exists st' results, suite_run = (st', Ok results).
Proof.
  assert (1 <= default_iterations) as Hit by (vm_compute; discriminate).
  assert (Forall (fun q : Query Scenario.BenchWorld =>
                    forall w, snd (q w) = Ok tt)
            [one_second_query; one_second_query; one_second_query;
             one_second_query; one_second_query; one_second_query;
             one_second_query; one_second_query]) as Hq
    by (repeat constructor).
  split; [exact Hit|]. split; [exact Hq|].
  exact (@run_benchmark_succeeds _ Scenario.bench_time Scenario.bench_sleep
           _ _ _ _ _ _ _ _ default_iterations Scenario.bench_start Hit Hq).
Defined.

Lemma suite_findings_witness :
  suite_run = (fst suite_run, Ok suite_results) /\
  (forall category tests name m,
      In (category, tests) suite_results ->
      In (name, m) (pg_tests_of tests) -> ~ (mean m == 0)%Q) /\
  _generate_findings suite_results
  = Ok (map Reference.render (same_operation_findings suite_results)) /\
  py_len (same_operation_findings suite_results) <= 4.
Proof.
  assert (forall category tests name m,
             In (category, tests) suite_results ->
             In (name, m) (pg_tests_of tests) -> ~ (mean m == 0)%Q) as Hnz.
  { intros category tests name m Hin Hpg.
    vm_compute in Hin.
    repeat (destruct Hin as [Hin | Hin];
            [injection Hin as <- <-; vm_compute in Hpg;
             destruct Hpg as [Hpg | []]; injection Hpg as <- <-;
             vm_compute; discriminate|]).
    destruct Hin. }
  split; [exact suite_run_ok|]. split; [exact Hnz|].
  exact (@suite_findings _ _ _ _ _ _ _ _ _ _ _ _ _ _ _ suite_run_ok Hnz).
Defined.

Lemma suite_main_returns :
  main_with available start = (fst (main_with available start), Ok tt).
Proof. vm_compute. reflexivity. Qed.

Lemma main_success_steps_witness :
  main_with available start = (fst (main_with available start), Ok tt) /\
  exists rep,
    steps_since start (fst (main_with available start))
    = map Opened [MongoClientHandle; PgConn; PgCursor]
      ++ map Bench (rounds 24)
      ++ [WriteReport rep; Visualize]
      ++ map Closing [MongoClientHandle; PgCursor; PgConn] /\
    full_report rep.
Proof.
  split; [exact suite_main_returns|].
  exact (@main_success_steps _ _ _ _ _ _ _ _ _ _ _ _ _ _ _ _ _ _ _ _
           suite_main_returns).
Defined.

Lemma refused_connection_leaves_client_open_witness :
  available (outside start) = (outside start, Ok tt) /\
  refused (outside start)
  = (outside start, Raise (OtherException "OperationalError")) /\
  main_with refused start
  = ({| outside := outside start;
        trace := trace start
                 ++ [Opened MongoClientHandle;
                     LogError (OtherException "OperationalError")] |},
     Raise (OtherException "OperationalError")).
Proof.
  split; [reflexivity|]. split; [reflexivity|].
  exact (@refused_connection_leaves_client_open _ Scenario.bench_time
           Scenario.bench_sleep one_second_query one_second_query
           one_second_query one_second_query one_second_query
           one_second_query one_second_query one_second_query
           available refused available now (fun _ => available)
           (fun _ => available) (fun _ => available) start (outside start)
           (outside start) (OtherException "OperationalError")
           eq_refl eq_refl).
Defined.

Lemma suite_report_written :
  exists rep,
    In (WriteReport rep)
       (steps_since start (fst (main_with available start))).
Proof. eexists. vm_compute. do 51 right. left. reflexivity. Qed.

Lemma report_follows_full_run_witness :
  exists rep,
    In (WriteReport rep)
       (steps_since start (fst (main_with available start))) /\
    exists pre post,
      steps_since start (fst (main_with available start))
      = pre ++ WriteReport rep :: post /\
      queries_called pre = 24 /\
      seconds_slept pre = 24 /\
      queries_called post = 0 /\
      reports_written (steps_since start (fst (main_with available start)))
      = [rep] /\
      full_report rep.
Proof.
  destruct suite_report_written as [rep H]. exists rep. split; [exact H|].
  exact (@report_follows_full_run _ Scenario.bench_time
           Scenario.bench_sleep one_second_query one_second_query
           one_second_query one_second_query one_second_query
           one_second_query one_second_query one_second_query
           available available available now (fun _ => available)
           (fun _ => available) (fun _ => available) start rep H).
Defined.

End BenchmarkSuiteFacts.

(** ** The MongoDB import script *)

Module MongoImportScriptFacts.

Import MongoDBImporter MongoImportScript.

Local Open Scope Z_scope.

Section Script.

Variables Server Client Collection : Type.
Variable MongoClient : Server -> Server * Result Client.
Variable server_info : Client -> Server -> Server * Result unit.
Variable get_collection : Client -> Collection.
Variable sleep : Z -> Server -> Server.
Variable bulk_write :
  Collection -> list (WriteOp Document) -> Server
  -> Server * Result BulkWriteResult.
Variable int_of_float : string -> Result Z.
Variable list_database_names : Client -> Server -> Server * Result (list string).
Variable drop_database : Client -> string -> Server -> Server * Result unit.
Variable create_index :
  Collection -> IndexSpec -> Server -> Server * Result unit.
Variable count_documents : Collection -> Server -> Server * Result Z.
Variable client_close : Client -> Server -> Server * Result unit.
Variable read_csv : Server -> Server * Result (list CsvRow).
Variable now : Server -> Q.

Local Abbreviation Session := (Session Server Client Collection).
Local Abbreviation Step := (Step Client).
Local Abbreviation connect :=
  (connect (Doc := Document) MongoClient server_info get_collection sleep).
Local Abbreviation try_connect :=
  (try_connect (Doc := Document) MongoClient server_info get_collection).
Local Abbreviation delete_database :=
  (delete_database (Collection := Collection) list_database_names
     drop_database).
Local Abbreviation create_indexes_loop :=
  (create_indexes_loop (Client := Client) create_index).
Local Abbreviation create_indexes :=
  (create_indexes (Client := Client) create_index).
Local Abbreviation main_body :=
  (main_body MongoClient server_info get_collection sleep bulk_write
     int_of_float list_database_names drop_database create_index
     count_documents read_csv now).
Local Abbreviation main :=
  (main MongoClient server_info get_collection sleep bulk_write
     int_of_float list_database_names drop_database create_index
     count_documents client_close read_csv now).

(** [ss'] continues [ss] with [steps], the client and the collection being
    the ones of [ss]. *)
Local Abbreviation continues ss ss' steps :=
  (trace ss' = trace ss ++ steps
   /\ client (importer ss') = client (importer ss)
   /\ collection (importer ss') = collection (importer ss)).

Lemma server_call_continues (A : Type) (s : Step)
    (f : Server -> Server * Result A) (ss ss' : Session) (r : Result A) :
  server_call s f ss = (ss', r) -> continues ss ss' [s].
Proof.
  unfold server_call. destruct (f (server (importer ss))) as [w r'].
  intros H. injection H as <- <-. repeat split.
Qed.

Lemma delete_database_continues (name : string) (ss ss' : Session)
    (r : Result unit) :
  delete_database name ss = (ss', r) ->
  exists steps,
    continues ss ss' steps /\
    (steps = [] \/ steps = [ListDatabases _]
     \/ steps = [ListDatabases _; DropDatabase _ name]).
Proof.
  unfold MongoImportScript.delete_database.
  destruct (client (importer ss)) as [c|] eqn:Ec.
  2:{ intros H. injection H as <- <-. exists []. rewrite app_nil_r.
      split; [repeat split; congruence | left; reflexivity]. }
  destruct (server_call (ListDatabases _) (list_database_names c) ss)
    as [ss1 [names|e]] eqn:E1; apply server_call_continues in E1;
    destruct E1 as (Ht1 & Hc1 & Hk1).
  2:{ intros H. injection H as <- <-. exists [ListDatabases _].
      split; [repeat split; congruence | right; left; reflexivity]. }
  destruct (existsb (String.eqb name) names).
  - intros E2. apply server_call_continues in E2.
    destruct E2 as (Ht2 & Hc2 & Hk2).
    exists [ListDatabases _; DropDatabase _ name].
    split; [|right; right; reflexivity]. repeat split; try congruence.
    rewrite Ht2, Ht1, <- app_assoc. reflexivity.
  - intros H. injection H as <- <-. exists [ListDatabases _].
    split; [repeat split; congruence | right; left; reflexivity].
Qed.

Lemma create_indexes_loop_continues (specs : list IndexSpec) :
  forall (ss ss' : Session) (r : Result unit),
    create_indexes_loop specs ss = (ss', r) ->
    exists done, continues ss ss' (map (@CreateIndex Client) done).
Proof.
  induction specs as [|spec rest IH]; intros ss ss' r;
    cbn [MongoImportScript.create_indexes_loop].
  - intros H. injection H as <- <-. exists []. rewrite app_nil_r.
    repeat split.
  - destruct (collection (importer ss)) as [coll|] eqn:Ek.
    2:{ intros H. injection H as <- <-. exists []. rewrite app_nil_r.
        repeat split; congruence. }
    destruct (server_call (CreateIndex _ spec) (create_index coll spec) ss)
      as [ss1 [[]|e]] eqn:E1; apply server_call_continues in E1;
      destruct E1 as (Ht1 & Hc1 & Hk1).
    + intros H. apply IH in H. destruct H as (done & Ht & Hc & Hk).
      exists (spec :: done). repeat split; try congruence.
      rewrite Ht, Ht1, <- app_assoc. reflexivity.
    + intros H. injection H as <- <-. exists [spec].
      repeat split; [exact Ht1 | congruence | congruence].
Qed.

Lemma importer_call_trace (A : Type)
    (m : State Server Client Collection Document
         -> State Server Client Collection Document * Result A)
    (ss ss' : Session) (r : Result A) :
  importer_call m ss = (ss', r) ->
  m (importer ss) = (importer ss', r) /\
  trace ss'
  = trace ss ++ map (@Importer Client)
                    (events_since (importer ss) (importer ss')).
Proof.
  unfold importer_call. destruct (m (importer ss)) as [st r'].
  intros H. injection H as <- <-. split; reflexivity.
Qed.

(** The load leaves the client and the collection as they are. *)
Lemma insert_loop_handles (operations : list (WriteOp Document))
    (batch_size : Z) (starts : list Z) :
  forall ins failed (st st' : State Server Client Collection Document) r,
    insert_loop bulk_write operations batch_size starts ins failed st
    = (st', r) ->
    client st' = client st /\ collection st' = collection st.
Proof.
  induction starts as [|i starts IH]; intros ins failed st st' r;
    cbn [insert_loop].
  - intros H. injection H as <- <-. split; reflexivity.
  - unfold collection_bulk_write.
    destruct (collection st) as [c|] eqn:Ek.
    2:{ intros H. injection H as <- <-. split; congruence. }
    destruct (bulk_write c (py_slice operations i (i + batch_size))
                (server st)) as [w [res|e]].
    + intros H. apply IH in H. cbn [emit set_server client collection] in H.
      destruct H as [H1 H2]. split; congruence.
    + destruct e;
        try (intros H; injection H as <- <-;
             split; cbn [emit set_server client collection]; congruence).
      intros H. apply IH in H. cbn [emit set_server client collection] in H.
      destruct H as [H1 H2]. split; congruence.
Qed.

Lemma bulk_insert_documents_handles (documents : list (option Document))
    (batch_size : Z) (st st' : State Server Client Collection Document)
    (r : Result (Z * Z)) :
  bulk_insert_documents bulk_write documents batch_size st = (st', r) ->
  client st' = client st /\ collection st' = collection st.
Proof.
  unfold bulk_insert_documents. destruct (batch_size =? 0).
  - intros H. injection H as <- <-. split; reflexivity.
  - apply insert_loop_handles.
Qed.

Lemma try_connect_handles
    (st st1 : State Server Client Collection Document) (b : bool) :
  try_connect st = (st1, Ok b) ->
  exists c, client st1 = Some c /\ collection st1 = Some (get_collection c).
Proof.
  unfold MongoDBImporter.try_connect. cbn [emit server].
  destruct (MongoClient (server st)) as [w [c|e]]; [|discriminate].
  destruct (server_info c w) as [w' [[]|e]]; [|discriminate].
  intros H. injection H as <- _. exists c. split; reflexivity.
Qed.

(** What [connect] leaves behind: the handles when it returns, and events
    that are no writes. *)
Lemma connect_outcome (st st1 : State Server Client Collection Document)
    (r : Result (option bool)) :
  connect st = (st1, r) ->
  (forall b, r = Ok b ->
     exists c, client st1 = Some c
               /\ collection st1 = Some (get_collection c)) /\
  batches_written (map (@Importer Client) (events_since st st1)) = [].
Proof.
  intros Hc.
  destruct (ConnectionFacts.mongo_connect_cases MongoClient server_info
              get_collection sleep st)
    as [(s1 & Ht & Hout & Hlog)
       |[(s1 & e0 & s2 & _ & Ht & Hout & Hlog)
        |(s1 & e0 & s2 & e1 & s3 & r3 & _ & _ & Ht & Hr)]];
    cbv zeta in *.
  - rewrite Hc in Hout. injection Hout as -> ->. split.
    + intros b _. exact (try_connect_handles _ Ht).
    + rewrite (MongoDBImporterFacts.events_since_app _ _ _ Hlog).
      reflexivity.
  - rewrite Hc in Hout. injection Hout as -> ->. split.
    + intros b _. exact (try_connect_handles _ Ht).
    + rewrite (MongoDBImporterFacts.events_since_app _ _ _ Hlog).
      reflexivity.
  - destruct r3 as [b3|e2]; destruct Hr as [Hout Hlog];
      rewrite Hc in Hout; injection Hout as -> ->.
    + split.
      * intros b _. exact (try_connect_handles _ Ht).
      * rewrite (MongoDBImporterFacts.events_since_app _ _ _ Hlog).
        reflexivity.
    + split; [discriminate|].
      rewrite (MongoDBImporterFacts.events_since_app _ _ _ Hlog).
      reflexivity.
Qed.

(** X20.  [prepare_document] drops exactly the header row, the rows
    without an id, and the rows whose id or whose target is a string that
    [int(float(...))] rejects; every document it returns carries the id
    parsed from its row. *)
Theorem prepare_document_drops (row : CsvRow) :
  (prepare_document int_of_float row = None <->
   row_ids row = Str "ids" \/ row_ids row = NaN \/
   (exists s e, row_ids row = Str s /\ int_of_float s = Raise e) \/
   (exists s e, row_target row = Str s /\ int_of_float s = Raise e)) /\
  (forall doc,
      prepare_document int_of_float row = Some doc ->
      exists s n, row_ids row = Str s /\ int_of_float s = Ok n
                  /\ tweet_id doc = Some n).
Proof.
  unfold prepare_document, int_or_none, cell_eqb.
  destruct (row_ids row) as [|s] eqn:Eids.
  - split.
    + split; [intros _; right; left; reflexivity|]. intros _.
      destruct (row_target row) as [|t]; cbn [bind]; [reflexivity|].
      destruct (int_of_float t); reflexivity.
    + intros doc. destruct (row_target row) as [|t]; cbn [bind];
        [discriminate|].
      destruct (int_of_float t); discriminate.
  - destruct (String.eqb s "ids") eqn:Ehead.
    { apply String.eqb_eq in Ehead. subst s. split.
      - split; [intros _; left; reflexivity | reflexivity].
      - discriminate. }
    apply String.eqb_neq in Ehead.
    destruct (int_of_float s) as [n|e] eqn:Eid; cbn [bind].
    2:{ split.
        - split; [|reflexivity]. intros _. right. right. left.
          exists s, e. split; [reflexivity | exact Eid].
        - discriminate. }
    destruct (row_target row) as [|t] eqn:Etarget; cbn [bind tweet_id].
    + split.
      * split; [discriminate|].
        intros [H | [H | [(s' & e & H & He) | (s' & e & H & _)]]];
          try discriminate.
        -- injection H as ->. congruence.
        -- injection H as <-. congruence.
      * intros doc H. injection H as <-. exists s, n.
        split; [reflexivity|]. split; [exact Eid | reflexivity].
    + destruct (int_of_float t) as [m|e] eqn:Et; cbn [bind tweet_id].
      * split.
        -- split; [discriminate|].
           intros [H | [H | [(s' & e & H & He) | (s' & e & H & He)]]];
             try discriminate.
           ++ injection H as ->. congruence.
           ++ injection H as <-. congruence.
           ++ injection H as <-. congruence.
        -- intros doc H. injection H as <-. exists s, n.
           split; [reflexivity|]. split; [exact Eid | reflexivity].
      * split.
        -- split; [|reflexivity]. intros _. right. right. right.
           exists t, e. split; [reflexivity | exact Et].
        -- discriminate.
Qed.

Lemma prepare_documents_valid (df : list CsvRow) :
  valid_documents (prepare_documents int_of_float df)
  = prepared int_of_float df.
Proof.
  unfold prepared. induction df as [|row df IH]; [reflexivity|].
  cbn [prepare_documents flat_map].
  destruct (prepare_document int_of_float row) as [doc|];
    cbn [valid_documents app]; [f_equal|]; exact IH.
Qed.

(** The steps of a load that returns are the writes of all its batches. *)
Lemma bulk_insert_documents_events (documents : list (option Document))
    (st st' : State Server Client Collection Document) (total failed : Z) :
  collection st <> None ->
  bulk_insert_documents bulk_write documents BATCH_SIZE st
  = (st', Ok (total, failed)) ->
  events_since st st'
  = map (@EvBulkWrite Document)
        (batches_of (map (@InsertOne Document) (valid_documents documents))
                    BATCH_SIZE).
Proof.
  intros Hk Hload.
  destruct (collection st) as [c|] eqn:Ek; [clear Hk | congruence].
  pose proof (@MongoDBImporterFacts.load_totals _ _ _ _ bulk_write documents
                BATCH_SIZE st c total failed Ek) as Htot.
  cbv zeta in Htot. rewrite Hload in Htot.
  destruct (Htot eq_refl) as (Hlen & _ & _).
  rewrite MongoDBImporterFacts.bulk_insert_documents_loop in Hload
    by discriminate.
  pose proof (@MongoDBImporterFacts.insert_loop_replies _ _ _ _ bulk_write
                (map (@InsertOne Document) (valid_documents documents))
                BATCH_SIZE
                (py_range 0
                   (py_len (map (@InsertOne Document)
                              (valid_documents documents))) BATCH_SIZE)
                0 0 st c Ek) as [Hlog _].
  cbv zeta in Hlog. rewrite Hload in Hlog. cbn [fst] in Hlog.
  fold (batches_of (map (@InsertOne Document) (valid_documents documents))
          BATCH_SIZE) in Hlog.
  rewrite Hlen, firstn_all in Hlog.
  exact (MongoDBImporterFacts.events_since_app _ _ _ Hlog).
Qed.

(** The steps of the [try] block: [pre], then the indexes created, then
    [post]; an index is created only after a load that counted a
    document as inserted. *)
Lemma main_body_steps (P : Step -> Prop) (start_time : Q)
    (ss ss' : Session) (r : Result unit) :
  (forall ev, P (Importer _ ev)) -> P (ListDatabases _) ->
  (forall name, P (DropDatabase _ name)) -> P (ReadCsv _) ->
  P (CountDocuments _) ->
  main_body start_time ss = (ss', r) ->
  exists pre done post,
    trace ss' = trace ss ++ pre ++ map (@CreateIndex Client) done ++ post /\
    Forall P pre /\ Forall P post /\
    (done <> [] ->
     exists documents (st3 st4 : State Server Client Collection Document)
            total failed,
       bulk_insert_documents bulk_write documents BATCH_SIZE st3
       = (st4, Ok (total, failed)) /\ 0 < total).
Proof.
  intros PI PL PD PR PC. unfold MongoImportScript.main_body.
  assert (forall evs, Forall P (map (@Importer Client) evs)) as PIs.
  { intros evs. apply Forall_forall. intros s Hs. apply in_map_iff in Hs.
    destruct Hs as (ev & <- & _). apply PI. }
  assert (forall steps (s1 : Session),
             trace s1 = trace ss ++ steps -> Forall P steps ->
             exists pre done post,
               trace s1
               = trace ss ++ pre ++ map (@CreateIndex Client) done ++ post /\
               Forall P pre /\ Forall P post /\
               (done <> [] ->
                exists documents
                       (st3 st4 : State Server Client Collection Document)
                       total failed,
                  bulk_insert_documents bulk_write documents BATCH_SIZE st3
                  = (st4, Ok (total, failed)) /\ 0 < total)) as Hstop.
  { intros steps s1 Ht Ps. exists steps, [], []. cbn [map app].
    rewrite app_nil_r. split; [exact Ht|]. split; [exact Ps|].
    split; [constructor | congruence]. }
  destruct (importer_call connect ss) as [ss1 r1] eqn:E1.
  apply importer_call_trace in E1. destruct E1 as [_ Ht1].
  destruct r1 as [b|e].
  2:{ intros H. injection H as <- <-. exact (Hstop _ _ Ht1 (PIs _)). }
  destruct (delete_database DB_NAME ss1) as [ss2 r2] eqn:E2.
  apply delete_database_continues in E2.
  destruct E2 as (dsteps & (Ht2 & _ & _) & Hd).
  assert (Forall P dsteps) as Pd.
  { destruct Hd as [-> | [-> | ->]]; repeat constructor;
      try assumption; apply PD. }
  rewrite Ht1, <- app_assoc in Ht2.
  assert (Forall P (map (@Importer Client)
                      (events_since (importer ss) (importer ss1))
                    ++ dsteps)) as P2
    by (apply Forall_app; split; [apply PIs | exact Pd]).
  destruct r2 as [[]|e].
  2:{ intros H. injection H as <- <-. exact (Hstop _ _ Ht2 P2). }
  destruct (server_call (ReadCsv _) read_csv ss2) as [ss3 r3] eqn:E3.
  apply server_call_continues in E3. destruct E3 as (Ht3 & _ & _).
  rewrite Ht2, <- app_assoc in Ht3.
  assert (Forall P ((map (@Importer Client)
                       (events_since (importer ss) (importer ss1))
                     ++ dsteps) ++ [ReadCsv _])) as P3
    by (apply Forall_app; split; [exact P2 | repeat constructor; exact PR]).
  destruct r3 as [df|e].
  2:{ intros H. injection H as <- <-. exact (Hstop _ _ Ht3 P3). }
  destruct (importer_call
              (bulk_insert_documents bulk_write
                 (prepare_documents int_of_float df) BATCH_SIZE) ss3)
    as [ss4 r4] eqn:E4.
  apply importer_call_trace in E4. destruct E4 as [Hload Ht4].
  rewrite Ht3, <- app_assoc in Ht4.
  set (pre := ((map (@Importer Client)
                  (events_since (importer ss) (importer ss1))
                ++ dsteps) ++ [ReadCsv _])
              ++ map (@Importer Client)
                   (events_since (importer ss3) (importer ss4))) in *.
  assert (Forall P pre) as P4
    by (apply Forall_app; split; [exact P3 | apply PIs]).
  destruct r4 as [[total failed]|e].
  2:{ intros H. injection H as <- <-. exact (Hstop _ _ Ht4 P4). }
  destruct (if 0 <? total then create_indexes ss4 else (ss4, Ok tt))
    as [ss5 r5] eqn:E5.
  assert (exists done,
             trace ss5 = trace ss4 ++ map (@CreateIndex Client) done /\
             (done <> [] -> 0 < total)) as (done & Ht5 & Hdone).
  { destruct (0 <? total) eqn:Epos.
    - apply create_indexes_loop_continues in E5.
      destruct E5 as (done & Ht & _). exists done.
      split; [exact Ht|]. intros _. apply Z.ltb_lt. exact Epos.
    - injection E5 as <- <-. exists []. rewrite app_nil_r.
      split; [reflexivity | congruence]. }
  rewrite Ht4, <- app_assoc in Ht5.
  assert (done <> [] ->
          exists documents
                 (st3 st4 : State Server Client Collection Document)
                 total failed,
            bulk_insert_documents bulk_write documents BATCH_SIZE st3
            = (st4, Ok (total, failed)) /\ 0 < total) as Hidx.
  { intros Hne.
    exists (prepare_documents int_of_float df), (importer ss3),
           (importer ss4), total, failed.
    split; [exact Hload | exact (Hdone Hne)]. }
  assert (forall post (s1 : Session),
             trace s1 = trace ss5 ++ post -> Forall P post ->
             exists pre done post,
               trace s1
               = trace ss ++ pre ++ map (@CreateIndex Client) done ++ post /\
               Forall P pre /\ Forall P post /\
               (done <> [] ->
                exists documents
                       (st3 st4 : State Server Client Collection Document)
                       total failed,
                  bulk_insert_documents bulk_write documents BATCH_SIZE st3
                  = (st4, Ok (total, failed)) /\ 0 < total)) as Hlate.
  { intros post s1 Ht Pp. exists pre, done, post.
    split; [rewrite Ht, Ht5, <- !app_assoc; reflexivity|].
    split; [exact P4|]. split; [exact Pp | exact Hidx]. }
  assert (trace ss5 = trace ss5 ++ []) as Hnil
    by (rewrite app_nil_r; reflexivity).
  destruct r5 as [[]|e].
  2:{ intros H. injection H as <- <-.
      exact (Hlate [] _ Hnil (Forall_nil _)). }
  destruct (collection (importer ss5)) as [coll|].
  2:{ intros H. injection H as <- <-.
      exact (Hlate [] _ Hnil (Forall_nil _)). }
  destruct (server_call (CountDocuments _) (count_documents coll) ss5)
    as [ss6 r6] eqn:E6.
  apply server_call_continues in E6. destruct E6 as (Ht6 & _ & _).
  assert (Forall P [CountDocuments Client]) as P6
    by (repeat constructor; exact PC).
  destruct r6 as [n|e];
    [destruct (Qeq_bool _ 0)|];
    intros H; injection H as <- <-; exact (Hlate _ _ Ht6 P6).
Qed.

(** X21.  In every run of [main], when no [MongoClient] was ever
    obtained, [main] ends with [AttributeError] raised by
    [importer.client.close()] in place of the connection error, and closes
    nothing; otherwise it closes the client it holds exactly once, as its
    last step. *)
Theorem main_closes_the_client_or_fails (w : Server) :
  match client (importer (fst (main w))) with
  | None =>
      snd (main w) = Raise AttributeError /\
      Forall (fun s => is_close s = false) (trace (fst (main w)))
  | Some c =>
      exists pre,
        trace (fst (main w)) = pre ++ [CloseClient c] /\
        Forall (fun s => is_close s = false) pre
  end.
Proof.
  unfold MongoImportScript.main.
  destruct (main_body (now w) _) as [ss1 r] eqn:E.
  apply (@main_body_steps (fun s => is_close s = false)) in E;
    try reflexivity.
  destruct E as (pre & done & post & Ht & Ppre & Ppost & _).
  cbn [trace app] in Ht.
  assert (Forall (fun s : Step => is_close s = false)
            (map (@CreateIndex Client) done)) as Pdone.
  { apply Forall_forall. intros s Hs. apply in_map_iff in Hs.
    destruct Hs as (spec & <- & _). reflexivity. }
  set (ss2 := match r with
              | Ok _ => ss1
              | Raise e => step (LogError _ e) ss1
              end).
  assert (client (importer ss2) = client (importer ss1)
          /\ Forall (fun s => is_close s = false) (trace ss2))
    as [Hclient Pss2].
  { unfold ss2. destruct r as [u|e]; cbn [step importer trace].
    - split; [reflexivity|]. rewrite Ht.
      repeat (apply Forall_app; split); assumption.
    - split; [reflexivity|]. rewrite Ht.
      repeat (apply Forall_app; split); try assumption.
      repeat constructor. }
  destruct (client (importer ss2)) as [c|] eqn:Ec.
  - destruct (server_call (CloseClient c) (client_close c) ss2)
      as [ss3 r3] eqn:E3.
    apply server_call_continues in E3. destruct E3 as (Ht3 & Hc3 & _).
    destruct r3 as [[]|e]; cbn [fst snd]; rewrite Hc3, Ec;
      exists (trace ss2); split; assumption.
  - cbn [fst snd]. rewrite Ec. split; [reflexivity | exact Pss2].
Qed.

Lemma insert_loop_counts_nothing
    (Hpartial : forall c batch w,
        exists w' details,
          bulk_write c batch w = (w', Raise (BulkWriteError details)))
    (operations : list (WriteOp Document)) (batch_size : Z)
    (starts : list Z) :
  forall ins failed (st st' : State Server Client Collection Document)
         ins' failed',
    insert_loop bulk_write operations batch_size starts ins failed st
    = (st', Ok (ins', failed')) ->
    ins' = ins.
Proof.
  induction starts as [|i starts IH]; intros ins failed st st' ins' failed';
    cbn [insert_loop].
  - intros H. injection H as _ <- _. reflexivity.
  - unfold collection_bulk_write.
    destruct (collection st) as [c|]; [|discriminate].
    destruct (Hpartial c (py_slice operations i (i + batch_size))
                (server st)) as (w' & details & ->).
    apply IH.
Qed.

(** X22.  When every [bulk_write] raises [BulkWriteError], whatever
    [nInserted] it reports, no run of [main] creates an index: the
    documents those batches did insert are not counted, and
    [total_inserted > 0] fails. *)
Theorem partial_failures_leave_no_index
    (Hpartial : forall c batch w,
        exists w' details,
          bulk_write c batch w = (w', Raise (BulkWriteError details)))
    (w : Server) :
  Forall (fun s => is_create_index s = false) (trace (fst (main w))).
Proof.
  unfold MongoImportScript.main.
  destruct (main_body (now w) _) as [ss1 r] eqn:E.
  apply (@main_body_steps (fun s => is_create_index s = false)) in E;
    try reflexivity.
  destruct E as (pre & done & post & Ht & Ppre & Ppost & Hdone).
  cbn [trace app] in Ht.
  assert (done = []) as ->.
  { destruct done as [|spec done]; [reflexivity|]. exfalso.
    destruct Hdone as (documents & st3 & st4 & total & failed & Hload & Hpos);
      [discriminate|].
    unfold bulk_insert_documents in Hload.
    destruct (BATCH_SIZE =? 0); [discriminate|].
    apply (insert_loop_counts_nothing Hpartial) in Hload. lia. }
  cbn [map app] in Ht.
  assert (Forall (fun s => is_create_index s = false)
            (trace match r with
                   | Ok _ => ss1
                   | Raise e => step (LogError _ e) ss1
                   end)) as Pss2.
  { destruct r as [u|e]; cbn [step trace]; rewrite Ht;
      repeat (apply Forall_app; split); try assumption.
    repeat constructor. }
  destruct (client (importer match r with
                             | Ok _ => ss1
                             | Raise e => step (LogError _ e) ss1
                             end)) as [c|]; [|exact Pss2].
  destruct (server_call (CloseClient c) (client_close c) _)
    as [ss3 r3] eqn:E3.
  apply server_call_continues in E3. destruct E3 as (Ht3 & _ & _).
  assert (Forall (fun s => is_create_index s = false) (trace ss3)) as P3.
  { rewrite Ht3. apply Forall_app. split; [exact Pss2|].
    repeat constructor. }
  destruct r3 as [[]|e]; exact P3.
Qed.

Lemma server_call_result (A : Type) (s : Step)
    (f : Server -> Server * Result A) (ss ss' : Session) (r : Result A) :
  server_call s f ss = (ss', r) ->
  exists w', f (server (importer ss)) = (w', r).
Proof.
  unfold server_call. destruct (f (server (importer ss))) as [w' r'].
  intros H. injection H as _ <-. exists w'. reflexivity.
Qed.

Lemma batches_written_app (l1 l2 : list Step) :
  batches_written (l1 ++ l2) = batches_written l1 ++ batches_written l2.
Proof. apply flat_map_app. Qed.

Lemma batches_written_writes (batches : list (list (WriteOp Document))) :
  batches_written
    (map (@Importer Client) (map (@EvBulkWrite Document) batches))
  = batches.
Proof.
  induction batches as [|b batches IH]; [reflexivity|].
  cbn [map]. unfold batches_written in *. cbn [flat_map app].
  rewrite IH. reflexivity.
Qed.

Lemma batches_written_indexes (done : list IndexSpec) :
  batches_written (map (@CreateIndex Client) done) = [].
Proof. induction done as [|spec done IH]; [reflexivity | exact IH]. Qed.

(** X23.  A run of [main] that returns has written, in batches of at
    most 5000 and in the order of the file, exactly the documents of the
    rows that [prepare_document] keeps, each once, and has closed the
    client as its last step. *)
Theorem main_writes_the_prepared_documents (w : Server) (ss : Session)
    (Hmain : main w = (ss, Ok tt)) :
  exists w1 w2 df,
    read_csv w1 = (w2, Ok df) /\
    batches_written (trace ss)
    = batches_of (map (@InsertOne Document) (prepared int_of_float df))
                 BATCH_SIZE /\
    List.concat (batches_written (trace ss))
    = map (@InsertOne Document) (prepared int_of_float df) /\
    Forall (fun batch => 0 < py_len batch <= BATCH_SIZE)
           (batches_written (trace ss)) /\
    exists c pre, trace ss = pre ++ [CloseClient c].
Proof.
  revert Hmain. unfold MongoImportScript.main.
  destruct (main_body (now w) _) as [ss6 r] eqn:E.
  destruct r as [[]|e].
  2:{ destruct (client (importer (step (LogError _ e) ss6))) as [c|];
        [|discriminate].
      destruct (server_call (CloseClient c) (client_close c) _)
        as [ss7 [[]|e7]]; discriminate. }
  destruct (client (importer ss6)) as [c|]; [|discriminate].
  destruct (server_call (CloseClient c) (client_close c) ss6)
    as [ss7 r7] eqn:E7.
  apply server_call_continues in E7. destruct E7 as (Ht7 & _ & _).
  destruct r7 as [[]|e7]; [|discriminate].
  intros H. injection H as <-.
  revert E. unfold MongoImportScript.main_body.
  destruct (importer_call connect _) as [ss1 [b|e]] eqn:E1; [|discriminate].
  apply importer_call_trace in E1. destruct E1 as [Hconn Ht1].
  cbn [importer trace app] in Hconn, Ht1.
  apply connect_outcome in Hconn. destruct Hconn as [Hhandles Hquiet].
  destruct (Hhandles b eq_refl) as (cl & _ & Hk1).
  destruct (delete_database DB_NAME ss1) as [ss2 [[]|e]] eqn:E2;
    [|discriminate].
  apply delete_database_continues in E2.
  destruct E2 as (dsteps & (Ht2 & _ & Hk2) & Hd).
  destruct (server_call (ReadCsv _) read_csv ss2) as [ss3 [df|e]] eqn:E3;
    [|discriminate].
  pose proof (server_call_result _ _ _ E3) as [w2 Hread].
  apply server_call_continues in E3. destruct E3 as (Ht3 & _ & Hk3).
  destruct (importer_call
              (bulk_insert_documents bulk_write
                 (prepare_documents int_of_float df) BATCH_SIZE) ss3)
    as [ss4 [[total failed]|e]] eqn:E4; [|discriminate].
  apply importer_call_trace in E4. destruct E4 as [Hload Ht4].
  apply bulk_insert_documents_events in Hload; [|congruence].
  rewrite prepare_documents_valid in Hload. rewrite Hload in Ht4.
  destruct (if 0 <? total then create_indexes ss4 else (ss4, Ok tt))
    as [ss5 [[]|e]] eqn:E5; [|discriminate].
  assert (exists done,
             trace ss5 = trace ss4 ++ map (@CreateIndex Client) done)
    as (done & Ht5).
  { destruct (0 <? total).
    - apply create_indexes_loop_continues in E5.
      destruct E5 as (done & Ht & _). exists done. exact Ht.
    - injection E5 as <-. exists []. rewrite app_nil_r. reflexivity. }
  destruct (collection (importer ss5)) as [coll|]; [|discriminate].
  destruct (server_call (CountDocuments _) (count_documents coll) ss5)
    as [ss6' [n|e]] eqn:E6; [|discriminate].
  apply server_call_continues in E6. destruct E6 as (Ht6 & _ & _).
  destruct (Qeq_bool _ 0); [discriminate|].
  intros H. injection H as <-.
  assert (batches_written (trace ss7)
          = batches_of (map (@InsertOne Document) (prepared int_of_float df))
                       BATCH_SIZE) as Hwritten.
  { rewrite Ht7, Ht6, Ht5, Ht4, Ht3, Ht2, Ht1.
    rewrite !batches_written_app, Hquiet, batches_written_writes,
      batches_written_indexes.
    assert (batches_written dsteps = []) as ->
      by (destruct Hd as [-> | [-> | ->]]; reflexivity).
    change (batches_written [ReadCsv Client]) with (@nil (list (WriteOp Document))).
    change (batches_written [CountDocuments Client])
      with (@nil (list (WriteOp Document))).
    change (batches_written [CloseClient c])
      with (@nil (list (WriteOp Document))).
    cbn [app]. rewrite !app_nil_r. reflexivity. }
  exists (server (importer ss2)), w2, df. split; [exact Hread|].
  split; [exact Hwritten|]. rewrite Hwritten.
  split; [apply MongoDBImporterFacts.batches_of_cover; reflexivity|].
  split.
  - unfold batches_of, py_range. apply slices_bounded; [reflexivity | lia].
  - exists c, (trace ss6'). exact Ht7.
Qed.

End Script.

(** *** A run of the script *)

Import MongoScriptScenario.

Lemma accepted_run_returns :
  main_with accepting O = (fst (main_with accepting O), Ok tt).
Proof. vm_compute. reflexivity. Qed.

Lemma main_writes_the_prepared_documents_witness :
  main_with accepting O = (fst (main_with accepting O), Ok tt) /\
  exists w1 w2 df,
    reading w1 = (w2, Ok df) /\
    batches_written (trace (fst (main_with accepting O)))
    = batches_of (map (@InsertOne Document) (prepared int_of_decimal df))
                 BATCH_SIZE /\
    List.concat (batches_written (trace (fst (main_with accepting O))))
    = map (@InsertOne Document) (prepared int_of_decimal df) /\
    Forall (fun batch => 0 < py_len batch <= BATCH_SIZE)
           (batches_written (trace (fst (main_with accepting O)))) /\
    exists c pre, trace (fst (main_with accepting O)) = pre ++ [CloseClient c].
Proof.
  split; [exact accepted_run_returns|].
  exact (@main_writes_the_prepared_documents _ _ _ reachable answering
           the_collection no_sleep accepting int_of_decimal database_names
           dropping indexing counting closing reading clock O _
           accepted_run_returns).
Defined.

Lemma partial_failures_leave_no_index_witness :
  (forall c batch w,
      exists w' details,
        rejecting_last c batch w = (w', Raise (BulkWriteError details))) /\
  Forall (fun s => is_create_index s = false)
         (trace (fst (main_with rejecting_last O))) /\
  server (importer (fst (main_with rejecting_last O))) = 1%nat.
Proof.
  assert (forall c batch w,
             exists w' details,
               rejecting_last c batch w
               = (w', Raise (BulkWriteError details))) as Hpartial.
  { intros c batch w. eexists _, _. reflexivity. }
  split; [exact Hpartial|]. split.
  - exact (@partial_failures_leave_no_index _ _ _ reachable answering
             the_collection no_sleep rejecting_last int_of_decimal
             database_names dropping indexing counting closing reading clock
             Hpartial O).
  - vm_compute. reflexivity.
Defined.

End MongoImportScriptFacts.

(** ** [create_database] and [close] of the PostgreSQL importer *)

Module PostgresScriptFacts.

Import PostgresImporter PostgresScript.

Local Open Scope Z_scope.

Section Script.

Variables Server Conn Cursor : Type.
Variable psycopg2_connect : string -> Server -> Server * Result Conn.
Variable conn_cursor : Conn -> Server -> Server * Result Cursor.
Variable sleep : Z -> Server -> Server.
Variable cursor_execute :
  Cursor -> Statement -> Server -> Server * Result unit.
Variable cursor_close : Cursor -> Server -> Server * Result unit.
Variable conn_close : Conn -> Server -> Server * Result unit.

Local Abbreviation Session := (Session Server Conn Cursor).
Local Abbreviation Step := (Step Conn Cursor).
Local Abbreviation try_connect :=
  (try_connect psycopg2_connect conn_cursor).
Local Abbreviation connect := (connect psycopg2_connect conn_cursor sleep).
Local Abbreviation importer_connect :=
  (importer_connect psycopg2_connect conn_cursor sleep).
Local Abbreviation execute := (execute (Conn := Conn) cursor_execute).
Local Abbreviation close := (close cursor_close conn_close).
Local Abbreviation fresh := (@fresh Server Conn Cursor).
Local Abbreviation create_database :=
  (create_database psycopg2_connect conn_cursor sleep cursor_execute
     cursor_close conn_close).

Lemma try_connect_ok (database : string)
    (st st1 : State Server Conn Cursor) :
  try_connect database st = (st1, Ok tt) ->
  exists c cur, conn st1 = Some c /\ cursor st1 = Some cur.
Proof.
  unfold PostgresImporter.try_connect. cbn [emit server].
  destruct (psycopg2_connect database (server st)) as [w [c|e]];
    [|discriminate].
  destruct (conn_cursor c w) as [w' [cur|e]]; [|discriminate].
  intros H. injection H as <-. exists c, cur. split; reflexivity.
Qed.

Lemma try_connect_down (database : string)
    (Hdown : forall w, exists w' e,
        psycopg2_connect database w = (w', Raise e))
    (st st1 : State Server Conn Cursor) (r : Result unit) :
  try_connect database st = (st1, r) ->
  conn st1 = conn st /\ cursor st1 = cursor st /\ exists e, r = Raise e.
Proof.
  unfold PostgresImporter.try_connect. cbn [emit server].
  destruct (Hdown (server st)) as (w' & e & ->).
  intros H. injection H as <- <-. repeat split. exists e. reflexivity.
Qed.

Lemma connect_returns (database : string)
    (st st1 : State Server Conn Cursor) :
  connect database st = (st1, Ok tt) ->
  exists c cur, conn st1 = Some c /\ cursor st1 = Some cur.
Proof.
  intros Hc.
  destruct (ConnectionFacts.pg_connect_cases psycopg2_connect conn_cursor
              sleep database st)
    as [(s1 & Ht & Hout & _)
       |[(s1 & e0 & s2 & _ & Ht & Hout & _)
        |(s1 & e0 & s2 & e1 & s3 & r3 & _ & _ & Ht & Hr)]];
    cbv zeta in *.
  - rewrite Hc in Hout. injection Hout as ->. exact (try_connect_ok _ _ Ht).
  - rewrite Hc in Hout. injection Hout as ->. exact (try_connect_ok _ _ Ht).
  - destruct r3 as [[]|e2]; destruct Hr as [Hout _]; rewrite Hc in Hout.
    + injection Hout as ->. exact (try_connect_ok _ _ Ht).
    + discriminate.
Qed.

(** While the server refuses the database, [connect] raises and leaves
    the handles of the importer as they were. *)
Lemma connect_down (database : string)
    (Hdown : forall w, exists w' e,
        psycopg2_connect database w = (w', Raise e))
    (st st1 : State Server Conn Cursor) (r : Result unit) :
  connect database st = (st1, r) ->
  conn st1 = conn st /\ cursor st1 = cursor st /\ exists e, r = Raise e.
Proof.
  intros Hc.
  destruct (ConnectionFacts.pg_connect_cases psycopg2_connect conn_cursor
              sleep database st)
    as [(s1 & Ht & Hout & _)
       |[(s1 & e0 & s2 & _ & Ht & Hout & _)
        |(s1 & e0 & s2 & e1 & s3 & r3 & Ht1 & Ht2 & Ht3 & Hr)]];
    cbv zeta in *.
  - apply (try_connect_down Hdown) in Ht. destruct Ht as (_ & _ & e & He).
    discriminate.
  - apply (try_connect_down Hdown) in Ht. destruct Ht as (_ & _ & e & He).
    discriminate.
  - apply (try_connect_down Hdown) in Ht1, Ht2, Ht3.
    destruct Ht1 as (Hc1 & Hk1 & _), Ht2 as (Hc2 & Hk2 & _),
      Ht3 as (Hc3 & Hk3 & e3 & ->).
    destruct Hr as [Hout _]. rewrite Hc in Hout. injection Hout as -> ->.
    cbn [emit time_sleep set_server conn cursor] in *.
    split; [congruence|]. split; [congruence|]. exists e3. reflexivity.
Qed.

Lemma importer_connect_trace (database : string) (ss ss' : Session)
    (r : Result unit) :
  importer_connect database ss = (ss', r) ->
  connect database (importer ss) = (importer ss', r) /\
  exists evs, trace ss' = trace ss ++ map (@Importer Conn Cursor) evs.
Proof.
  unfold PostgresScript.importer_connect.
  destruct (connect database (importer ss)) as [st r'].
  intros H. injection H as <- <-. split; [reflexivity|].
  eexists. reflexivity.
Qed.

Lemma pg_server_call_continues (A : Type) (s : Step)
    (f : Server -> Server * Result A) (ss ss' : Session) (r : Result A) :
  server_call s f ss = (ss', r) ->
  trace ss' = trace ss ++ [s] /\
  conn (importer ss') = conn (importer ss) /\
  cursor (importer ss') = cursor (importer ss).
Proof.
  unfold server_call. destruct (f (server (importer ss))) as [w r'].
  intros H. injection H as <- <-. repeat split.
Qed.

Lemma execute_returns (s : Statement) (ss ss' : Session) :
  execute s ss = (ss', Ok tt) ->
  exists cur,
    cursor (importer ss) = Some cur /\
    trace ss' = trace ss ++ [Execute _ cur s] /\
    conn (importer ss') = conn (importer ss) /\
    cursor (importer ss') = cursor (importer ss).
Proof.
  unfold PostgresScript.execute.
  destruct (cursor (importer ss)) as [cur|] eqn:Ek; [|discriminate].
  intros H. apply pg_server_call_continues in H.
  destruct H as (Ht & Hc & Hk). exists cur. repeat split; congruence.
Qed.

(** [close] on an importer that holds a cursor and a connection: both
    are closed, the cursor first, and the importer keeps holding them. *)
Lemma close_steps (ss ss' : Session) (r : Result unit) (c : Conn)
    (cur : Cursor) :
  conn (importer ss) = Some c -> cursor (importer ss) = Some cur ->
  close ss = (ss', r) ->
  conn (importer ss') = Some c /\ cursor (importer ss') = Some cur /\
  (trace ss' = trace ss ++ [CloseCursor _ cur; CloseConn _ c]
   \/ (trace ss' = trace ss ++ [CloseCursor _ cur]
       /\ exists e, r = Raise e)).
Proof.
  intros Hc Hk. unfold PostgresScript.close. rewrite Hk.
  destruct (server_call (CloseCursor _ cur) (cursor_close cur) ss)
    as [ss1 [[]|e]] eqn:E1; apply pg_server_call_continues in E1;
    destruct E1 as (Ht1 & Hc1 & Hk1).
  - assert (conn (importer ss1) = Some c) as -> by congruence.
    intros E2. apply pg_server_call_continues in E2.
    destruct E2 as (Ht2 & Hc2 & Hk2).
    split; [congruence|]. split; [congruence|]. left.
    rewrite Ht2, Ht1, <- app_assoc. reflexivity.
  - intros H. injection H as <- <-.
    split; [congruence|]. split; [congruence|]. right.
    split; [exact Ht1 | exists e; reflexivity].
Qed.

Lemma server_steps_app (l1 l2 : list Step) :
  server_steps (l1 ++ l2) = server_steps l1 ++ server_steps l2.
Proof.
  induction l1 as [|s l1 IH]; [reflexivity|].
  destruct s; cbn [app server_steps]; rewrite IH; reflexivity.
Qed.

Lemma server_steps_connect (evs : list Event) :
  server_steps (map (@Importer Conn Cursor) evs) = [].
Proof. induction evs as [|ev evs IH]; [reflexivity | exact IH]. Qed.



End Script.

(** *** A run of [create_database] *)

Import PostgresScriptScenario.



End PostgresScriptFacts.
